(** * SHGScan: the scan control core of the spectroheliograph script

    A shallow embedding of [src/SHGScan.py]: the width measurement and
    limb-crossing frame handlers, the slew controller ([SlewPastLimb],
    [DoBumpSlew]), the acquisition sequencer ([DoGo], [DoAbortTask],
    [RestorePos]), the scan parameter calculation ([CalcScanParams]) and the
    settings file ([getSettings], [saveSettings]).

    Python numbers are [int] or [float]; the embedding keeps both, with
    binary64 arithmetic carried out by the primitive floats.  The form
    ([self]) and the SharpCap application object are records; every call
    made on the camera, the mount, the notification area and [time.sleep]
    is appended to a log, so that statements about what the controller
    commands are statements about that log. *)

From Stdlib Require Import ZArith List String Ascii Bool Lia.
From Stdlib Require Import Floats DecimalString DecimalZ.
Import ListNotations.
Local Open Scope Z_scope.
Set Warnings "-inexact-float".

(** ** Python values *)

Module Py.

(** The exceptions the modelled statements can raise. *)
Inductive exn : Set :=
| UnboundLocalError
| ZeroDivisionError
| ValueError
| OverflowError
| SharpCapError  (* an exception thrown by a SharpCap call *)
| ArgumentOutOfRangeException.  (* thrown by a property of a form control *)

Inductive res (A : Type) : Type :=
| Val (a : A)
| Raise (e : exn).
Arguments Val {A} a.
Arguments Raise {A} e.

Definition bind {A B : Type} (c : res A) (k : A -> res B) : res B :=
  match c with
  | Val a => k a
  | Raise e => Raise e
  end.

Notation "x <- c ;; k" := (bind c (fun x => k))
  (at level 61, c at next level, right associativity).

(** A number is an [int] (unbounded) or a [float] (binary64). *)
Inductive num : Set :=
| Int (z : Z)
| Flt (f : float).

(** [float(z)] for an integer: the nearest binary64, ties to even. *)
Definition float_of_Z (z : Z) : float :=
  SF2Prim (binary_normalize prec emax z 0 false).

(** Conversion of an operand to [float]; an integer beyond the binary64
    range raises [OverflowError]. *)
Definition to_float (x : num) : res float :=
  match x with
  | Flt f => Val f
  | Int z =>
      let f := float_of_Z z in
      if is_infinity f then Raise OverflowError else Val f
  end.

(** Unary minus. *)
Definition neg (x : num) : num :=
  match x with
  | Int z => Int (- z)
  | Flt f => Flt (- f)
  end.

(** [x * y], [x + y], [x - y]: integer when both operands are, otherwise
    binary64. *)
Definition mul (x y : num) : res num :=
  match x, y with
  | Int a, Int b => Val (Int (a * b))
  | _, _ => a <- to_float x ;; b <- to_float y ;; Val (Flt (a * b))
  end.

Definition add (x y : num) : res num :=
  match x, y with
  | Int a, Int b => Val (Int (a + b))
  | _, _ => a <- to_float x ;; b <- to_float y ;; Val (Flt (a + b))
  end.

Definition sub (x y : num) : res num :=
  match x, y with
  | Int a, Int b => Val (Int (a - b))
  | _, _ => a <- to_float x ;; b <- to_float y ;; Val (Flt (a - b))
  end.

(** [x / y] is true division: always a float, [ZeroDivisionError] on a zero
    divisor.  Two integers are divided as their binary64 images, which is
    the correctly rounded quotient whenever both are below 2^53 in
    magnitude. *)
Definition truediv (x y : num) : res num :=
  match x, y with
  | Int _, Int 0 => Raise ZeroDivisionError
  | _, _ =>
      a <- to_float x ;; b <- to_float y ;;
      if is_zero b then Raise ZeroDivisionError else Val (Flt (a / b))
  end.

(** Comparisons.  An integer compared with a float is compared through its
    binary64 image (exact below 2^53). *)
Definition lt (x y : num) : bool :=
  match x, y with
  | Int a, Int b => a <? b
  | Int a, Flt b => (float_of_Z a <? b)%float
  | Flt a, Int b => (a <? float_of_Z b)%float
  | Flt a, Flt b => (a <? b)%float
  end.

Definition gt (x y : num) : bool := lt y x.

Definition eq (x y : num) : bool :=
  match x, y with
  | Int a, Int b => a =? b
  | Int a, Flt b => (float_of_Z a =? b)%float
  | Flt a, Int b => (a =? float_of_Z b)%float
  | Flt a, Flt b => (a =? b)%float
  end.

(** [int(x)]: truncation toward zero; [ValueError] on NaN, [OverflowError]
    on an infinity. *)
Definition trunc (f : float) : res Z :=
  match Prim2SF f with
  | S754_nan => Raise ValueError
  | S754_infinity _ => Raise OverflowError
  | S754_zero _ => Val 0
  | S754_finite s m e =>
      let a := Z.shiftl (Zpos m) e in
      Val (if s then - a else a)
  end.

Definition int_of (x : num) : res Z :=
  match x with
  | Int z => Val z
  | Flt f => trunc f
  end.

(** [math.copysign(x, y)]. *)
Definition copysign (x y : num) : res float :=
  a <- to_float x ;; b <- to_float y ;;
  Val (if get_sign b then (- abs a)%float else abs a).

(** *** Text conversions *)

(** [str(z)] for an integer. *)
Definition str_int (z : Z) : string := NilZero.string_of_int (Z.to_int z).

(** [str(b)] for a boolean. *)
Definition str_bool (b : bool) : string :=
  if b then "True"%string else "False"%string.

(** [int(s)]: an optional sign and a non-empty run of decimal digits,
    anything else is a [ValueError].  (Surrounding blanks and underscores
    between digits, which Python also accepts, are not part of the texts
    modelled here.) *)
Definition parse_nat (s : string) : res Z :=
  match NilZero.uint_of_string s with
  | Some d => Val (Z.of_uint d)
  | None => Raise ValueError
  end.

Definition parse_int (s : string) : res Z :=
  match s with
  | String "-" s' => z <- parse_nat s' ;; Val (- z)
  | String "+" s' => parse_nat s'
  | _ => parse_nat s
  end.

(** The nearest binary64 to the positive rational [n / d], ties to even:
    the quotient is taken with at least 54 significant bits and a sticky
    bit for the remainder, then rounded once. *)
Definition round_ratio (n d : Z) : float :=
  if n =? 0 then zero
  else
    let s := Z.max 0 (54 + Z.log2 d - Z.log2 n) in
    let q := (n * 2 ^ s) / d in
    let r := (n * 2 ^ s) mod d in
    let m := 2 * q + (if r =? 0 then 0 else 1) in
    SF2Prim (binary_normalize prec emax m (- s - 1) false).

(** The binary64 nearest to [m * 10^k]. *)
Definition float_of_decimal (m k : Z) : float :=
  if 0 <=? k then float_of_Z (m * 10 ^ k) else round_ratio m (10 ^ (- k)).

(** [m * 2^e * 100] rounded to an integer, ties to even. *)
Definition hundredths (m : positive) (e : Z) : Z :=
  if 0 <=? e then Zpos m * 2 ^ e * 100
  else
    let n := Zpos m * 100 in
    let d := 2 ^ (- e) in
    let q := n / d in
    let r := n mod d in
    match 2 * r ?= d with
    | Lt => q
    | Gt => q + 1
    | Eq => if Z.even q then q else q + 1
    end.

Definition two_digits (z : Z) : string :=
  if z <? 10 then String "0" (str_int z) else str_int z.

(** [f"{x:.2f}"]: fixed notation with two decimals, correctly rounded. *)
Definition fmt2f (x : float) : string :=
  match Prim2SF x with
  | S754_nan => "nan"
  | S754_infinity s => if s then "-inf" else "inf"
  | S754_zero s => if s then "-0.00" else "0.00"
  | S754_finite s m e =>
      let h := hundredths m e in
      let whole := str_int (h / 100) in
      let cents := two_digits (h mod 100) in
      ((if s then "-" else "") ++ whole ++ "." ++ cents)
  end%string.

Definition fmt2 (x : num) : string :=
  match x with
  | Int z => (str_int z ++ ".00")%string
  | Flt f => fmt2f f
  end.

(** [float(s)].  The accepted texts are an optional sign followed by
    [inf], [infinity] or [nan] in any letter case, or by a decimal number:
    digits with an optional fraction and an optional exponent, at least
    one digit in the mantissa.  The value is the binary64 nearest to the
    decimal number.  (Surrounding blanks and underscores are not modelled.) *)
Definition is_digit (c : ascii) : bool :=
  let n := nat_of_ascii c in (48 <=? n)%nat && (n <=? 57)%nat.

Definition is_upper (c : ascii) : bool :=
  let n := nat_of_ascii c in (65 <=? n)%nat && (n <=? 90)%nat.

Definition is_lower (c : ascii) : bool :=
  let n := nat_of_ascii c in (97 <=? n)%nat && (n <=? 122)%nat.

Definition lower (c : ascii) : ascii :=
  if is_upper c then ascii_of_nat (nat_of_ascii c + 32) else c.

Fixpoint lower_string (s : string) : string :=
  match s with
  | EmptyString => EmptyString
  | String c s' => String (lower c) (lower_string s')
  end.

(** The longest prefix of digits, and what follows it. *)
Fixpoint span_digits (s : string) : string * string :=
  match s with
  | String c s' =>
      if is_digit c then
        let (d, r) := span_digits s' in (String c d, r)
      else (EmptyString, s)
  | EmptyString => (EmptyString, EmptyString)
  end.

(** The value of a run of digits; the empty run counts for 0. *)
Definition digits_value (d : string) : Z :=
  match NilEmpty.uint_of_string d with
  | Some u => Z.of_uint u
  | None => 0
  end.

Definition parse_exponent (s : string) : res Z :=
  match s with
  | EmptyString => Val 0
  | String c s' =>
      if Ascii.eqb (lower c) "e" then parse_int s' else Raise ValueError
  end.

Definition parse_unsigned_float (s : string) : res float :=
  let l := lower_string s in
  if String.eqb l "inf" || String.eqb l "infinity" then Val infinity
  else if String.eqb l "nan" then Val nan
  else
    let (ip, r1) := span_digits s in
    let (fp, r2) :=
      match r1 with
      | String "." r => span_digits r
      | _ => (EmptyString, r1)
      end in
    if (String.length ip + String.length fp =? 0)%nat then Raise ValueError
    else
      x <- parse_exponent r2 ;;
      Val (float_of_decimal (digits_value (ip ++ fp))
                            (x - Z.of_nat (String.length fp))).

Definition parse_float (s : string) : res float :=
  match s with
  | String "-" s' => f <- parse_unsigned_float s' ;; Val (- f)%float
  | String "+" s' => parse_unsigned_float s'
  | _ => parse_unsigned_float s
  end.

End Py.

(** ** The form and the application object *)

(** A mount position, as [SelectedMount.Coordinates] returns it: an opaque
    token. *)
Inductive coords : Set := At (token : Z).

(** [Interfaces.AxisRate.ForSiderealRate(x)]. *)
Inductive axis_rate : Set := ForSiderealRate (x : Z).

(** The two bound methods the script hooks on the camera's [FrameCaptured]
    event. *)
Inductive handler : Set :=
| h_acquireFramehandler
| h_measureSunFramehandler.

Definition handler_eqb (a b : handler) : bool :=
  match a, b with
  | h_acquireFramehandler, h_acquireFramehandler => true
  | h_measureSunFramehandler, h_measureSunFramehandler => true
  | _, _ => false
  end.

Inductive NotificationStatus : Set := Warning | Error.

(** The calls made on the camera, the mount, the notification area and
    [time.sleep], as they are recorded in the log. *)
Inductive call : Set :=
| MoveAxis (axis : Z) (rate : Py.num)
| PrepareToCapture
| RunCapture
| StopCapture
| SetSelectedRate (r : axis_rate)
| SlewTo (c : option coords)
| ShowNotification (text : string) (st : NotificationStatus)
| Sleep (seconds : Py.num).

Record Rectangle : Set := Rect { rx : Z; ry : Z; rwidth : Z; rheight : Z }.

(** A captured frame, as far as the script looks at it:
    [GetStats().Item1], the mean brightness of the whole frame, and
    [CutROI(r).GetStats().Item1], the mean brightness of a cutout ([None]
    when SharpCap throws, for example on a rectangle outside the frame). *)
Record Frame : Type := Build_Frame {
  GetStats_Item1 : float;
  CutROI_Item1 : Rectangle -> option float
}.

(** ** The progress bar

    [self.progBar] is a [System.Windows.Forms.ProgressBar].  Its three
    numbers are kept with [Minimum <= Value <= Maximum] by the control
    itself: assigning a bound moves the other bound and the value along,
    and assigning a value outside the bounds throws.  [Step] is assigned
    once and never used ([PerformStep] is not called). *)
Record ProgressBar : Set := Build_ProgressBar {
  Minimum : Z;
  Maximum : Z;
  Value : Z
}.

(** [ProgressBar()]. *)
Definition ProgressBar_new : ProgressBar :=
  {| Minimum := 0; Maximum := 100; Value := 0 |}.

(** A Python [int] handed to a property of type [Int32]. *)
Definition to_Int32 (z : Z) : Py.res Z :=
  if (-2147483648 <=? z) && (z <=? 2147483647) then Py.Val z
  else Py.Raise Py.OverflowError.

(** [bar.Minimum = v]. *)
Definition assign_Minimum (v : Z) (p : ProgressBar) : Py.res ProgressBar :=
  Py.bind (to_Int32 v) (fun v =>
  if Minimum p =? v then Py.Val p
  else if v <? 0 then Py.Raise Py.ArgumentOutOfRangeException
  else
    Py.Val {| Minimum := v;
              Maximum := if Maximum p <? v then v else Maximum p;
              Value := if Value p <? v then v else Value p |}).

(** [bar.Maximum = v]. *)
Definition assign_Maximum (v : Z) (p : ProgressBar) : Py.res ProgressBar :=
  Py.bind (to_Int32 v) (fun v =>
  if Maximum p =? v then Py.Val p
  else if v <? 0 then Py.Raise Py.ArgumentOutOfRangeException
  else
    Py.Val {| Minimum := if v <? Minimum p then v else Minimum p;
              Maximum := v;
              Value := if v <? Value p then v else Value p |}).

(** [bar.Value = v]. *)
Definition assign_Value (v : Z) (p : ProgressBar) : Py.res ProgressBar :=
  Py.bind (to_Int32 v) (fun v =>
  if Value p =? v then Py.Val p
  else if (v <? Minimum p) || (Maximum p <? v)
       then Py.Raise Py.ArgumentOutOfRangeException
  else Py.Val {| Minimum := Minimum p; Maximum := Maximum p; Value := v |}).

(** [bar.Increment(v)], for a [v] that fits: the sum, which wraps around
    as 32-bit sums do, is clipped to the bounds. *)
Definition Increment (v : Z) (p : ProgressBar) : ProgressBar :=
  let x := (Value p + v + 2147483648) mod 4294967296 - 2147483648 in
  let x := if x <? Minimum p then Minimum p else x in
  let x := if Maximum p <? x then Maximum p else x in
  {| Minimum := Minimum p; Maximum := Maximum p; Value := x |}.

(** [addProgressBar], lines 219 to 221: the bar it hands back, or the
    exception that ends it. *)
Definition addProgressBar (limit : Z) : Py.res ProgressBar :=
  Py.bind (assign_Minimum 1 ProgressBar_new) (fun p1 =>
  Py.bind (assign_Maximum limit p1) (fun p2 =>
  assign_Value 1 p2)).

(** ** The form *)

Record SHGForm : Type := Build_SHGForm {
  SlewFactor : Py.num;  (* SlewFactor = 1 *)
  SlewPad : float;  (* DEFAULT_SLEWPAD *)
  CycleSleep : float;  (* DEFAULT_CYCLE_SLEEP *)
  NumCycles : Z;  (* DEFAULT_CYCLES *)
  Bidirectional : bool;
  BumpRate : Z;  (* BumpRate = 8 *)
  BumpSwap : bool;
  AxisToMove : Z;  (* 0 is RA, 1 is Dec *)
  EdgePassed : bool;
  PositiveSignal : bool;
  LimbThreshold : float;  (* MAX_BRIGHT * DEFAULT_THRESHOLD *)
  FrameInterval : Z;  (* FrameInterval = 10 *)
  FrameCount : Z;
  ROIX : Z;
  ROIY : Z;
  FrameHandlingDone : bool;
  SunWidth : Z;
  SunDecenter : Py.num;
  sunDecenter : option Py.num;  (* the attribute line 353 creates *)
  AmSlewing : bool;
  BumpSlew : Z;
  FrameRate : Py.num;  (* FrameRate = -1 *)
  TaskAbortFlag : bool;
  SavedCoords : option coords;
  sunWidth_Text : string;  (* self.sunWidth.Text *)
  cycleSleep_Text : string;  (* self.cycleSleep.Text *)
  goButton_Enabled : bool;
  abortButton_Enabled : bool;
  progBar : ProgressBar  (* self.progBar *)
}.

Definition set_SlewFactor (v : Py.num) (r : SHGForm) : SHGForm :=
  {| SlewFactor := v; SlewPad := SlewPad r; CycleSleep := CycleSleep r;
     NumCycles := NumCycles r; Bidirectional := Bidirectional r; BumpRate :=
     BumpRate r; BumpSwap := BumpSwap r; AxisToMove := AxisToMove r;
     EdgePassed := EdgePassed r; PositiveSignal := PositiveSignal r;
     LimbThreshold := LimbThreshold r; FrameInterval := FrameInterval r;
     FrameCount := FrameCount r; ROIX := ROIX r; ROIY := ROIY r;
     FrameHandlingDone := FrameHandlingDone r; SunWidth := SunWidth r;
     SunDecenter := SunDecenter r; sunDecenter := sunDecenter r; AmSlewing :=
     AmSlewing r; BumpSlew := BumpSlew r; FrameRate := FrameRate r;
     TaskAbortFlag := TaskAbortFlag r; SavedCoords := SavedCoords r;
     sunWidth_Text := sunWidth_Text r; cycleSleep_Text := cycleSleep_Text r;
     goButton_Enabled := goButton_Enabled r; abortButton_Enabled :=
     abortButton_Enabled r;
     progBar := progBar r |}.

Definition set_SlewPad (v : float) (r : SHGForm) : SHGForm :=
  {| SlewFactor := SlewFactor r; SlewPad := v; CycleSleep := CycleSleep r;
     NumCycles := NumCycles r; Bidirectional := Bidirectional r; BumpRate :=
     BumpRate r; BumpSwap := BumpSwap r; AxisToMove := AxisToMove r;
     EdgePassed := EdgePassed r; PositiveSignal := PositiveSignal r;
     LimbThreshold := LimbThreshold r; FrameInterval := FrameInterval r;
     FrameCount := FrameCount r; ROIX := ROIX r; ROIY := ROIY r;
     FrameHandlingDone := FrameHandlingDone r; SunWidth := SunWidth r;
     SunDecenter := SunDecenter r; sunDecenter := sunDecenter r; AmSlewing :=
     AmSlewing r; BumpSlew := BumpSlew r; FrameRate := FrameRate r;
     TaskAbortFlag := TaskAbortFlag r; SavedCoords := SavedCoords r;
     sunWidth_Text := sunWidth_Text r; cycleSleep_Text := cycleSleep_Text r;
     goButton_Enabled := goButton_Enabled r; abortButton_Enabled :=
     abortButton_Enabled r;
     progBar := progBar r |}.

Definition set_CycleSleep (v : float) (r : SHGForm) : SHGForm :=
  {| SlewFactor := SlewFactor r; SlewPad := SlewPad r; CycleSleep := v;
     NumCycles := NumCycles r; Bidirectional := Bidirectional r; BumpRate :=
     BumpRate r; BumpSwap := BumpSwap r; AxisToMove := AxisToMove r;
     EdgePassed := EdgePassed r; PositiveSignal := PositiveSignal r;
     LimbThreshold := LimbThreshold r; FrameInterval := FrameInterval r;
     FrameCount := FrameCount r; ROIX := ROIX r; ROIY := ROIY r;
     FrameHandlingDone := FrameHandlingDone r; SunWidth := SunWidth r;
     SunDecenter := SunDecenter r; sunDecenter := sunDecenter r; AmSlewing :=
     AmSlewing r; BumpSlew := BumpSlew r; FrameRate := FrameRate r;
     TaskAbortFlag := TaskAbortFlag r; SavedCoords := SavedCoords r;
     sunWidth_Text := sunWidth_Text r; cycleSleep_Text := cycleSleep_Text r;
     goButton_Enabled := goButton_Enabled r; abortButton_Enabled :=
     abortButton_Enabled r;
     progBar := progBar r |}.

Definition set_NumCycles (v : Z) (r : SHGForm) : SHGForm :=
  {| SlewFactor := SlewFactor r; SlewPad := SlewPad r; CycleSleep :=
     CycleSleep r; NumCycles := v; Bidirectional := Bidirectional r; BumpRate
     := BumpRate r; BumpSwap := BumpSwap r; AxisToMove := AxisToMove r;
     EdgePassed := EdgePassed r; PositiveSignal := PositiveSignal r;
     LimbThreshold := LimbThreshold r; FrameInterval := FrameInterval r;
     FrameCount := FrameCount r; ROIX := ROIX r; ROIY := ROIY r;
     FrameHandlingDone := FrameHandlingDone r; SunWidth := SunWidth r;
     SunDecenter := SunDecenter r; sunDecenter := sunDecenter r; AmSlewing :=
     AmSlewing r; BumpSlew := BumpSlew r; FrameRate := FrameRate r;
     TaskAbortFlag := TaskAbortFlag r; SavedCoords := SavedCoords r;
     sunWidth_Text := sunWidth_Text r; cycleSleep_Text := cycleSleep_Text r;
     goButton_Enabled := goButton_Enabled r; abortButton_Enabled :=
     abortButton_Enabled r;
     progBar := progBar r |}.

Definition set_Bidirectional (v : bool) (r : SHGForm) : SHGForm :=
  {| SlewFactor := SlewFactor r; SlewPad := SlewPad r; CycleSleep :=
     CycleSleep r; NumCycles := NumCycles r; Bidirectional := v; BumpRate :=
     BumpRate r; BumpSwap := BumpSwap r; AxisToMove := AxisToMove r;
     EdgePassed := EdgePassed r; PositiveSignal := PositiveSignal r;
     LimbThreshold := LimbThreshold r; FrameInterval := FrameInterval r;
     FrameCount := FrameCount r; ROIX := ROIX r; ROIY := ROIY r;
     FrameHandlingDone := FrameHandlingDone r; SunWidth := SunWidth r;
     SunDecenter := SunDecenter r; sunDecenter := sunDecenter r; AmSlewing :=
     AmSlewing r; BumpSlew := BumpSlew r; FrameRate := FrameRate r;
     TaskAbortFlag := TaskAbortFlag r; SavedCoords := SavedCoords r;
     sunWidth_Text := sunWidth_Text r; cycleSleep_Text := cycleSleep_Text r;
     goButton_Enabled := goButton_Enabled r; abortButton_Enabled :=
     abortButton_Enabled r;
     progBar := progBar r |}.

Definition set_BumpRate (v : Z) (r : SHGForm) : SHGForm :=
  {| SlewFactor := SlewFactor r; SlewPad := SlewPad r; CycleSleep :=
     CycleSleep r; NumCycles := NumCycles r; Bidirectional := Bidirectional r;
     BumpRate := v; BumpSwap := BumpSwap r; AxisToMove := AxisToMove r;
     EdgePassed := EdgePassed r; PositiveSignal := PositiveSignal r;
     LimbThreshold := LimbThreshold r; FrameInterval := FrameInterval r;
     FrameCount := FrameCount r; ROIX := ROIX r; ROIY := ROIY r;
     FrameHandlingDone := FrameHandlingDone r; SunWidth := SunWidth r;
     SunDecenter := SunDecenter r; sunDecenter := sunDecenter r; AmSlewing :=
     AmSlewing r; BumpSlew := BumpSlew r; FrameRate := FrameRate r;
     TaskAbortFlag := TaskAbortFlag r; SavedCoords := SavedCoords r;
     sunWidth_Text := sunWidth_Text r; cycleSleep_Text := cycleSleep_Text r;
     goButton_Enabled := goButton_Enabled r; abortButton_Enabled :=
     abortButton_Enabled r;
     progBar := progBar r |}.

Definition set_BumpSwap (v : bool) (r : SHGForm) : SHGForm :=
  {| SlewFactor := SlewFactor r; SlewPad := SlewPad r; CycleSleep :=
     CycleSleep r; NumCycles := NumCycles r; Bidirectional := Bidirectional r;
     BumpRate := BumpRate r; BumpSwap := v; AxisToMove := AxisToMove r;
     EdgePassed := EdgePassed r; PositiveSignal := PositiveSignal r;
     LimbThreshold := LimbThreshold r; FrameInterval := FrameInterval r;
     FrameCount := FrameCount r; ROIX := ROIX r; ROIY := ROIY r;
     FrameHandlingDone := FrameHandlingDone r; SunWidth := SunWidth r;
     SunDecenter := SunDecenter r; sunDecenter := sunDecenter r; AmSlewing :=
     AmSlewing r; BumpSlew := BumpSlew r; FrameRate := FrameRate r;
     TaskAbortFlag := TaskAbortFlag r; SavedCoords := SavedCoords r;
     sunWidth_Text := sunWidth_Text r; cycleSleep_Text := cycleSleep_Text r;
     goButton_Enabled := goButton_Enabled r; abortButton_Enabled :=
     abortButton_Enabled r;
     progBar := progBar r |}.

Definition set_AxisToMove (v : Z) (r : SHGForm) : SHGForm :=
  {| SlewFactor := SlewFactor r; SlewPad := SlewPad r; CycleSleep :=
     CycleSleep r; NumCycles := NumCycles r; Bidirectional := Bidirectional r;
     BumpRate := BumpRate r; BumpSwap := BumpSwap r; AxisToMove := v;
     EdgePassed := EdgePassed r; PositiveSignal := PositiveSignal r;
     LimbThreshold := LimbThreshold r; FrameInterval := FrameInterval r;
     FrameCount := FrameCount r; ROIX := ROIX r; ROIY := ROIY r;
     FrameHandlingDone := FrameHandlingDone r; SunWidth := SunWidth r;
     SunDecenter := SunDecenter r; sunDecenter := sunDecenter r; AmSlewing :=
     AmSlewing r; BumpSlew := BumpSlew r; FrameRate := FrameRate r;
     TaskAbortFlag := TaskAbortFlag r; SavedCoords := SavedCoords r;
     sunWidth_Text := sunWidth_Text r; cycleSleep_Text := cycleSleep_Text r;
     goButton_Enabled := goButton_Enabled r; abortButton_Enabled :=
     abortButton_Enabled r;
     progBar := progBar r |}.

Definition set_EdgePassed (v : bool) (r : SHGForm) : SHGForm :=
  {| SlewFactor := SlewFactor r; SlewPad := SlewPad r; CycleSleep :=
     CycleSleep r; NumCycles := NumCycles r; Bidirectional := Bidirectional r;
     BumpRate := BumpRate r; BumpSwap := BumpSwap r; AxisToMove := AxisToMove
     r; EdgePassed := v; PositiveSignal := PositiveSignal r; LimbThreshold :=
     LimbThreshold r; FrameInterval := FrameInterval r; FrameCount :=
     FrameCount r; ROIX := ROIX r; ROIY := ROIY r; FrameHandlingDone :=
     FrameHandlingDone r; SunWidth := SunWidth r; SunDecenter := SunDecenter
     r; sunDecenter := sunDecenter r; AmSlewing := AmSlewing r; BumpSlew :=
     BumpSlew r; FrameRate := FrameRate r; TaskAbortFlag := TaskAbortFlag r;
     SavedCoords := SavedCoords r; sunWidth_Text := sunWidth_Text r;
     cycleSleep_Text := cycleSleep_Text r; goButton_Enabled :=
     goButton_Enabled r; abortButton_Enabled := abortButton_Enabled r;
     progBar := progBar r |}.

Definition set_PositiveSignal (v : bool) (r : SHGForm) : SHGForm :=
  {| SlewFactor := SlewFactor r; SlewPad := SlewPad r; CycleSleep :=
     CycleSleep r; NumCycles := NumCycles r; Bidirectional := Bidirectional r;
     BumpRate := BumpRate r; BumpSwap := BumpSwap r; AxisToMove := AxisToMove
     r; EdgePassed := EdgePassed r; PositiveSignal := v; LimbThreshold :=
     LimbThreshold r; FrameInterval := FrameInterval r; FrameCount :=
     FrameCount r; ROIX := ROIX r; ROIY := ROIY r; FrameHandlingDone :=
     FrameHandlingDone r; SunWidth := SunWidth r; SunDecenter := SunDecenter
     r; sunDecenter := sunDecenter r; AmSlewing := AmSlewing r; BumpSlew :=
     BumpSlew r; FrameRate := FrameRate r; TaskAbortFlag := TaskAbortFlag r;
     SavedCoords := SavedCoords r; sunWidth_Text := sunWidth_Text r;
     cycleSleep_Text := cycleSleep_Text r; goButton_Enabled :=
     goButton_Enabled r; abortButton_Enabled := abortButton_Enabled r;
     progBar := progBar r |}.

Definition set_LimbThreshold (v : float) (r : SHGForm) : SHGForm :=
  {| SlewFactor := SlewFactor r; SlewPad := SlewPad r; CycleSleep :=
     CycleSleep r; NumCycles := NumCycles r; Bidirectional := Bidirectional r;
     BumpRate := BumpRate r; BumpSwap := BumpSwap r; AxisToMove := AxisToMove
     r; EdgePassed := EdgePassed r; PositiveSignal := PositiveSignal r;
     LimbThreshold := v; FrameInterval := FrameInterval r; FrameCount :=
     FrameCount r; ROIX := ROIX r; ROIY := ROIY r; FrameHandlingDone :=
     FrameHandlingDone r; SunWidth := SunWidth r; SunDecenter := SunDecenter
     r; sunDecenter := sunDecenter r; AmSlewing := AmSlewing r; BumpSlew :=
     BumpSlew r; FrameRate := FrameRate r; TaskAbortFlag := TaskAbortFlag r;
     SavedCoords := SavedCoords r; sunWidth_Text := sunWidth_Text r;
     cycleSleep_Text := cycleSleep_Text r; goButton_Enabled :=
     goButton_Enabled r; abortButton_Enabled := abortButton_Enabled r;
     progBar := progBar r |}.

Definition set_FrameCount (v : Z) (r : SHGForm) : SHGForm :=
  {| SlewFactor := SlewFactor r; SlewPad := SlewPad r; CycleSleep :=
     CycleSleep r; NumCycles := NumCycles r; Bidirectional := Bidirectional r;
     BumpRate := BumpRate r; BumpSwap := BumpSwap r; AxisToMove := AxisToMove
     r; EdgePassed := EdgePassed r; PositiveSignal := PositiveSignal r;
     LimbThreshold := LimbThreshold r; FrameInterval := FrameInterval r;
     FrameCount := v; ROIX := ROIX r; ROIY := ROIY r; FrameHandlingDone :=
     FrameHandlingDone r; SunWidth := SunWidth r; SunDecenter := SunDecenter
     r; sunDecenter := sunDecenter r; AmSlewing := AmSlewing r; BumpSlew :=
     BumpSlew r; FrameRate := FrameRate r; TaskAbortFlag := TaskAbortFlag r;
     SavedCoords := SavedCoords r; sunWidth_Text := sunWidth_Text r;
     cycleSleep_Text := cycleSleep_Text r; goButton_Enabled :=
     goButton_Enabled r; abortButton_Enabled := abortButton_Enabled r;
     progBar := progBar r |}.

Definition set_ROIX (v : Z) (r : SHGForm) : SHGForm :=
  {| SlewFactor := SlewFactor r; SlewPad := SlewPad r; CycleSleep :=
     CycleSleep r; NumCycles := NumCycles r; Bidirectional := Bidirectional r;
     BumpRate := BumpRate r; BumpSwap := BumpSwap r; AxisToMove := AxisToMove
     r; EdgePassed := EdgePassed r; PositiveSignal := PositiveSignal r;
     LimbThreshold := LimbThreshold r; FrameInterval := FrameInterval r;
     FrameCount := FrameCount r; ROIX := v; ROIY := ROIY r; FrameHandlingDone
     := FrameHandlingDone r; SunWidth := SunWidth r; SunDecenter :=
     SunDecenter r; sunDecenter := sunDecenter r; AmSlewing := AmSlewing r;
     BumpSlew := BumpSlew r; FrameRate := FrameRate r; TaskAbortFlag :=
     TaskAbortFlag r; SavedCoords := SavedCoords r; sunWidth_Text :=
     sunWidth_Text r; cycleSleep_Text := cycleSleep_Text r; goButton_Enabled
     := goButton_Enabled r; abortButton_Enabled := abortButton_Enabled r;
     progBar := progBar r |}.

Definition set_ROIY (v : Z) (r : SHGForm) : SHGForm :=
  {| SlewFactor := SlewFactor r; SlewPad := SlewPad r; CycleSleep :=
     CycleSleep r; NumCycles := NumCycles r; Bidirectional := Bidirectional r;
     BumpRate := BumpRate r; BumpSwap := BumpSwap r; AxisToMove := AxisToMove
     r; EdgePassed := EdgePassed r; PositiveSignal := PositiveSignal r;
     LimbThreshold := LimbThreshold r; FrameInterval := FrameInterval r;
     FrameCount := FrameCount r; ROIX := ROIX r; ROIY := v; FrameHandlingDone
     := FrameHandlingDone r; SunWidth := SunWidth r; SunDecenter :=
     SunDecenter r; sunDecenter := sunDecenter r; AmSlewing := AmSlewing r;
     BumpSlew := BumpSlew r; FrameRate := FrameRate r; TaskAbortFlag :=
     TaskAbortFlag r; SavedCoords := SavedCoords r; sunWidth_Text :=
     sunWidth_Text r; cycleSleep_Text := cycleSleep_Text r; goButton_Enabled
     := goButton_Enabled r; abortButton_Enabled := abortButton_Enabled r;
     progBar := progBar r |}.

Definition set_FrameHandlingDone (v : bool) (r : SHGForm) : SHGForm :=
  {| SlewFactor := SlewFactor r; SlewPad := SlewPad r; CycleSleep :=
     CycleSleep r; NumCycles := NumCycles r; Bidirectional := Bidirectional r;
     BumpRate := BumpRate r; BumpSwap := BumpSwap r; AxisToMove := AxisToMove
     r; EdgePassed := EdgePassed r; PositiveSignal := PositiveSignal r;
     LimbThreshold := LimbThreshold r; FrameInterval := FrameInterval r;
     FrameCount := FrameCount r; ROIX := ROIX r; ROIY := ROIY r;
     FrameHandlingDone := v; SunWidth := SunWidth r; SunDecenter :=
     SunDecenter r; sunDecenter := sunDecenter r; AmSlewing := AmSlewing r;
     BumpSlew := BumpSlew r; FrameRate := FrameRate r; TaskAbortFlag :=
     TaskAbortFlag r; SavedCoords := SavedCoords r; sunWidth_Text :=
     sunWidth_Text r; cycleSleep_Text := cycleSleep_Text r; goButton_Enabled
     := goButton_Enabled r; abortButton_Enabled := abortButton_Enabled r;
     progBar := progBar r |}.

Definition set_SunWidth (v : Z) (r : SHGForm) : SHGForm :=
  {| SlewFactor := SlewFactor r; SlewPad := SlewPad r; CycleSleep :=
     CycleSleep r; NumCycles := NumCycles r; Bidirectional := Bidirectional r;
     BumpRate := BumpRate r; BumpSwap := BumpSwap r; AxisToMove := AxisToMove
     r; EdgePassed := EdgePassed r; PositiveSignal := PositiveSignal r;
     LimbThreshold := LimbThreshold r; FrameInterval := FrameInterval r;
     FrameCount := FrameCount r; ROIX := ROIX r; ROIY := ROIY r;
     FrameHandlingDone := FrameHandlingDone r; SunWidth := v; SunDecenter :=
     SunDecenter r; sunDecenter := sunDecenter r; AmSlewing := AmSlewing r;
     BumpSlew := BumpSlew r; FrameRate := FrameRate r; TaskAbortFlag :=
     TaskAbortFlag r; SavedCoords := SavedCoords r; sunWidth_Text :=
     sunWidth_Text r; cycleSleep_Text := cycleSleep_Text r; goButton_Enabled
     := goButton_Enabled r; abortButton_Enabled := abortButton_Enabled r;
     progBar := progBar r |}.

Definition set_SunDecenter (v : Py.num) (r : SHGForm) : SHGForm :=
  {| SlewFactor := SlewFactor r; SlewPad := SlewPad r; CycleSleep :=
     CycleSleep r; NumCycles := NumCycles r; Bidirectional := Bidirectional r;
     BumpRate := BumpRate r; BumpSwap := BumpSwap r; AxisToMove := AxisToMove
     r; EdgePassed := EdgePassed r; PositiveSignal := PositiveSignal r;
     LimbThreshold := LimbThreshold r; FrameInterval := FrameInterval r;
     FrameCount := FrameCount r; ROIX := ROIX r; ROIY := ROIY r;
     FrameHandlingDone := FrameHandlingDone r; SunWidth := SunWidth r;
     SunDecenter := v; sunDecenter := sunDecenter r; AmSlewing := AmSlewing r;
     BumpSlew := BumpSlew r; FrameRate := FrameRate r; TaskAbortFlag :=
     TaskAbortFlag r; SavedCoords := SavedCoords r; sunWidth_Text :=
     sunWidth_Text r; cycleSleep_Text := cycleSleep_Text r; goButton_Enabled
     := goButton_Enabled r; abortButton_Enabled := abortButton_Enabled r;
     progBar := progBar r |}.

Definition set_sunDecenter (v : option Py.num) (r : SHGForm) : SHGForm :=
  {| SlewFactor := SlewFactor r; SlewPad := SlewPad r; CycleSleep :=
     CycleSleep r; NumCycles := NumCycles r; Bidirectional := Bidirectional r;
     BumpRate := BumpRate r; BumpSwap := BumpSwap r; AxisToMove := AxisToMove
     r; EdgePassed := EdgePassed r; PositiveSignal := PositiveSignal r;
     LimbThreshold := LimbThreshold r; FrameInterval := FrameInterval r;
     FrameCount := FrameCount r; ROIX := ROIX r; ROIY := ROIY r;
     FrameHandlingDone := FrameHandlingDone r; SunWidth := SunWidth r;
     SunDecenter := SunDecenter r; sunDecenter := v; AmSlewing := AmSlewing r;
     BumpSlew := BumpSlew r; FrameRate := FrameRate r; TaskAbortFlag :=
     TaskAbortFlag r; SavedCoords := SavedCoords r; sunWidth_Text :=
     sunWidth_Text r; cycleSleep_Text := cycleSleep_Text r; goButton_Enabled
     := goButton_Enabled r; abortButton_Enabled := abortButton_Enabled r;
     progBar := progBar r |}.

Definition set_AmSlewing (v : bool) (r : SHGForm) : SHGForm :=
  {| SlewFactor := SlewFactor r; SlewPad := SlewPad r; CycleSleep :=
     CycleSleep r; NumCycles := NumCycles r; Bidirectional := Bidirectional r;
     BumpRate := BumpRate r; BumpSwap := BumpSwap r; AxisToMove := AxisToMove
     r; EdgePassed := EdgePassed r; PositiveSignal := PositiveSignal r;
     LimbThreshold := LimbThreshold r; FrameInterval := FrameInterval r;
     FrameCount := FrameCount r; ROIX := ROIX r; ROIY := ROIY r;
     FrameHandlingDone := FrameHandlingDone r; SunWidth := SunWidth r;
     SunDecenter := SunDecenter r; sunDecenter := sunDecenter r; AmSlewing :=
     v; BumpSlew := BumpSlew r; FrameRate := FrameRate r; TaskAbortFlag :=
     TaskAbortFlag r; SavedCoords := SavedCoords r; sunWidth_Text :=
     sunWidth_Text r; cycleSleep_Text := cycleSleep_Text r; goButton_Enabled
     := goButton_Enabled r; abortButton_Enabled := abortButton_Enabled r;
     progBar := progBar r |}.

Definition set_BumpSlew (v : Z) (r : SHGForm) : SHGForm :=
  {| SlewFactor := SlewFactor r; SlewPad := SlewPad r; CycleSleep :=
     CycleSleep r; NumCycles := NumCycles r; Bidirectional := Bidirectional r;
     BumpRate := BumpRate r; BumpSwap := BumpSwap r; AxisToMove := AxisToMove
     r; EdgePassed := EdgePassed r; PositiveSignal := PositiveSignal r;
     LimbThreshold := LimbThreshold r; FrameInterval := FrameInterval r;
     FrameCount := FrameCount r; ROIX := ROIX r; ROIY := ROIY r;
     FrameHandlingDone := FrameHandlingDone r; SunWidth := SunWidth r;
     SunDecenter := SunDecenter r; sunDecenter := sunDecenter r; AmSlewing :=
     AmSlewing r; BumpSlew := v; FrameRate := FrameRate r; TaskAbortFlag :=
     TaskAbortFlag r; SavedCoords := SavedCoords r; sunWidth_Text :=
     sunWidth_Text r; cycleSleep_Text := cycleSleep_Text r; goButton_Enabled
     := goButton_Enabled r; abortButton_Enabled := abortButton_Enabled r;
     progBar := progBar r |}.

Definition set_TaskAbortFlag (v : bool) (r : SHGForm) : SHGForm :=
  {| SlewFactor := SlewFactor r; SlewPad := SlewPad r; CycleSleep :=
     CycleSleep r; NumCycles := NumCycles r; Bidirectional := Bidirectional r;
     BumpRate := BumpRate r; BumpSwap := BumpSwap r; AxisToMove := AxisToMove
     r; EdgePassed := EdgePassed r; PositiveSignal := PositiveSignal r;
     LimbThreshold := LimbThreshold r; FrameInterval := FrameInterval r;
     FrameCount := FrameCount r; ROIX := ROIX r; ROIY := ROIY r;
     FrameHandlingDone := FrameHandlingDone r; SunWidth := SunWidth r;
     SunDecenter := SunDecenter r; sunDecenter := sunDecenter r; AmSlewing :=
     AmSlewing r; BumpSlew := BumpSlew r; FrameRate := FrameRate r;
     TaskAbortFlag := v; SavedCoords := SavedCoords r; sunWidth_Text :=
     sunWidth_Text r; cycleSleep_Text := cycleSleep_Text r; goButton_Enabled
     := goButton_Enabled r; abortButton_Enabled := abortButton_Enabled r;
     progBar := progBar r |}.

Definition set_SavedCoords (v : option coords) (r : SHGForm) : SHGForm :=
  {| SlewFactor := SlewFactor r; SlewPad := SlewPad r; CycleSleep :=
     CycleSleep r; NumCycles := NumCycles r; Bidirectional := Bidirectional r;
     BumpRate := BumpRate r; BumpSwap := BumpSwap r; AxisToMove := AxisToMove
     r; EdgePassed := EdgePassed r; PositiveSignal := PositiveSignal r;
     LimbThreshold := LimbThreshold r; FrameInterval := FrameInterval r;
     FrameCount := FrameCount r; ROIX := ROIX r; ROIY := ROIY r;
     FrameHandlingDone := FrameHandlingDone r; SunWidth := SunWidth r;
     SunDecenter := SunDecenter r; sunDecenter := sunDecenter r; AmSlewing :=
     AmSlewing r; BumpSlew := BumpSlew r; FrameRate := FrameRate r;
     TaskAbortFlag := TaskAbortFlag r; SavedCoords := v; sunWidth_Text :=
     sunWidth_Text r; cycleSleep_Text := cycleSleep_Text r; goButton_Enabled
     := goButton_Enabled r; abortButton_Enabled := abortButton_Enabled r;
     progBar := progBar r |}.

Definition set_goButton_Enabled (v : bool) (r : SHGForm) : SHGForm :=
  {| SlewFactor := SlewFactor r; SlewPad := SlewPad r; CycleSleep :=
     CycleSleep r; NumCycles := NumCycles r; Bidirectional := Bidirectional r;
     BumpRate := BumpRate r; BumpSwap := BumpSwap r; AxisToMove := AxisToMove
     r; EdgePassed := EdgePassed r; PositiveSignal := PositiveSignal r;
     LimbThreshold := LimbThreshold r; FrameInterval := FrameInterval r;
     FrameCount := FrameCount r; ROIX := ROIX r; ROIY := ROIY r;
     FrameHandlingDone := FrameHandlingDone r; SunWidth := SunWidth r;
     SunDecenter := SunDecenter r; sunDecenter := sunDecenter r; AmSlewing :=
     AmSlewing r; BumpSlew := BumpSlew r; FrameRate := FrameRate r;
     TaskAbortFlag := TaskAbortFlag r; SavedCoords := SavedCoords r;
     sunWidth_Text := sunWidth_Text r; cycleSleep_Text := cycleSleep_Text r;
     goButton_Enabled := v; abortButton_Enabled := abortButton_Enabled r;
     progBar := progBar r |}.

Definition set_abortButton_Enabled (v : bool) (r : SHGForm) : SHGForm :=
  {| SlewFactor := SlewFactor r; SlewPad := SlewPad r; CycleSleep :=
     CycleSleep r; NumCycles := NumCycles r; Bidirectional := Bidirectional r;
     BumpRate := BumpRate r; BumpSwap := BumpSwap r; AxisToMove := AxisToMove
     r; EdgePassed := EdgePassed r; PositiveSignal := PositiveSignal r;
     LimbThreshold := LimbThreshold r; FrameInterval := FrameInterval r;
     FrameCount := FrameCount r; ROIX := ROIX r; ROIY := ROIY r;
     FrameHandlingDone := FrameHandlingDone r; SunWidth := SunWidth r;
     SunDecenter := SunDecenter r; sunDecenter := sunDecenter r; AmSlewing :=
     AmSlewing r; BumpSlew := BumpSlew r; FrameRate := FrameRate r;
     TaskAbortFlag := TaskAbortFlag r; SavedCoords := SavedCoords r;
     sunWidth_Text := sunWidth_Text r; cycleSleep_Text := cycleSleep_Text r;
     goButton_Enabled := goButton_Enabled r; abortButton_Enabled := v;
     progBar := progBar r |}.


Definition set_FrameInterval (v : Z) (r : SHGForm) : SHGForm :=
  {| SlewFactor := SlewFactor r; SlewPad := SlewPad r; CycleSleep :=
     CycleSleep r; NumCycles := NumCycles r; Bidirectional := Bidirectional r;
     BumpRate := BumpRate r; BumpSwap := BumpSwap r; AxisToMove := AxisToMove
     r; EdgePassed := EdgePassed r; PositiveSignal := PositiveSignal r;
     LimbThreshold := LimbThreshold r; FrameInterval := v; FrameCount :=
     FrameCount r; ROIX := ROIX r; ROIY := ROIY r; FrameHandlingDone :=
     FrameHandlingDone r; SunWidth := SunWidth r; SunDecenter := SunDecenter
     r; sunDecenter := sunDecenter r; AmSlewing := AmSlewing r; BumpSlew :=
     BumpSlew r; FrameRate := FrameRate r; TaskAbortFlag := TaskAbortFlag r;
     SavedCoords := SavedCoords r; sunWidth_Text := sunWidth_Text r;
     cycleSleep_Text := cycleSleep_Text r; goButton_Enabled :=
     goButton_Enabled r; abortButton_Enabled := abortButton_Enabled r;
     progBar := progBar r |}.

Definition set_FrameRate (v : Py.num) (r : SHGForm) : SHGForm :=
  {| SlewFactor := SlewFactor r; SlewPad := SlewPad r; CycleSleep :=
     CycleSleep r; NumCycles := NumCycles r; Bidirectional := Bidirectional r;
     BumpRate := BumpRate r; BumpSwap := BumpSwap r; AxisToMove := AxisToMove
     r; EdgePassed := EdgePassed r; PositiveSignal := PositiveSignal r;
     LimbThreshold := LimbThreshold r; FrameInterval := FrameInterval r;
     FrameCount := FrameCount r; ROIX := ROIX r; ROIY := ROIY r;
     FrameHandlingDone := FrameHandlingDone r; SunWidth := SunWidth r;
     SunDecenter := SunDecenter r; sunDecenter := sunDecenter r; AmSlewing :=
     AmSlewing r; BumpSlew := BumpSlew r; FrameRate := v; TaskAbortFlag :=
     TaskAbortFlag r; SavedCoords := SavedCoords r; sunWidth_Text :=
     sunWidth_Text r; cycleSleep_Text := cycleSleep_Text r; goButton_Enabled
     := goButton_Enabled r; abortButton_Enabled := abortButton_Enabled r;
     progBar := progBar r |}.

Definition set_sunWidth_Text (v : string) (r : SHGForm) : SHGForm :=
  {| SlewFactor := SlewFactor r; SlewPad := SlewPad r; CycleSleep :=
     CycleSleep r; NumCycles := NumCycles r; Bidirectional := Bidirectional r;
     BumpRate := BumpRate r; BumpSwap := BumpSwap r; AxisToMove := AxisToMove
     r; EdgePassed := EdgePassed r; PositiveSignal := PositiveSignal r;
     LimbThreshold := LimbThreshold r; FrameInterval := FrameInterval r;
     FrameCount := FrameCount r; ROIX := ROIX r; ROIY := ROIY r;
     FrameHandlingDone := FrameHandlingDone r; SunWidth := SunWidth r;
     SunDecenter := SunDecenter r; sunDecenter := sunDecenter r; AmSlewing :=
     AmSlewing r; BumpSlew := BumpSlew r; FrameRate := FrameRate r;
     TaskAbortFlag := TaskAbortFlag r; SavedCoords := SavedCoords r;
     sunWidth_Text := v; cycleSleep_Text := cycleSleep_Text r;
     goButton_Enabled := goButton_Enabled r; abortButton_Enabled :=
     abortButton_Enabled r;
     progBar := progBar r |}.

Definition set_cycleSleep_Text (v : string) (r : SHGForm) : SHGForm :=
  {| SlewFactor := SlewFactor r; SlewPad := SlewPad r; CycleSleep :=
     CycleSleep r; NumCycles := NumCycles r; Bidirectional := Bidirectional r;
     BumpRate := BumpRate r; BumpSwap := BumpSwap r; AxisToMove := AxisToMove
     r; EdgePassed := EdgePassed r; PositiveSignal := PositiveSignal r;
     LimbThreshold := LimbThreshold r; FrameInterval := FrameInterval r;
     FrameCount := FrameCount r; ROIX := ROIX r; ROIY := ROIY r;
     FrameHandlingDone := FrameHandlingDone r; SunWidth := SunWidth r;
     SunDecenter := SunDecenter r; sunDecenter := sunDecenter r; AmSlewing :=
     AmSlewing r; BumpSlew := BumpSlew r; FrameRate := FrameRate r;
     TaskAbortFlag := TaskAbortFlag r; SavedCoords := SavedCoords r;
     sunWidth_Text := sunWidth_Text r; cycleSleep_Text := v; goButton_Enabled
     := goButton_Enabled r; abortButton_Enabled := abortButton_Enabled r;
     progBar := progBar r |}.

Definition set_progBar (v : ProgressBar) (r : SHGForm) : SHGForm :=
  {| SlewFactor := SlewFactor r; SlewPad := SlewPad r; CycleSleep :=
     CycleSleep r; NumCycles := NumCycles r; Bidirectional := Bidirectional r;
     BumpRate := BumpRate r; BumpSwap := BumpSwap r; AxisToMove := AxisToMove
     r; EdgePassed := EdgePassed r; PositiveSignal := PositiveSignal r;
     LimbThreshold := LimbThreshold r; FrameInterval := FrameInterval r;
     FrameCount := FrameCount r; ROIX := ROIX r; ROIY := ROIY r;
     FrameHandlingDone := FrameHandlingDone r; SunWidth := SunWidth r;
     SunDecenter := SunDecenter r; sunDecenter := sunDecenter r; AmSlewing :=
     AmSlewing r; BumpSlew := BumpSlew r; FrameRate := FrameRate r;
     TaskAbortFlag := TaskAbortFlag r; SavedCoords := SavedCoords r;
     sunWidth_Text := sunWidth_Text r; cycleSleep_Text := cycleSleep_Text r;
     goButton_Enabled := goButton_Enabled r; abortButton_Enabled :=
     abortButton_Enabled r; progBar := v |}.

Record SharpCapT : Type := Build_SharpCapT {
  log : list call;  (* every external call, oldest first *)
  FrameCaptured : list handler;  (* the camera's FrameCaptured subscribers *)
  Capturing : bool;  (* a capture is running *)
  ROI_Width : Z;  (* SelectedCamera.ROI.Width *)
  ROI_Height : Z;  (* SelectedCamera.ROI.Height *)
  SelectedRate : axis_rate;  (* SelectedMount.SelectedRate *)
  Coordinates : coords;  (* SelectedMount.Coordinates *)
  AxisRate : Z -> Py.num;  (* rate last commanded on each axis *)
  now : float  (* what time.time() reads *)
}.

Definition set_log (v : list call) (r : SharpCapT) : SharpCapT :=
  {| log := v; FrameCaptured := FrameCaptured r; Capturing := Capturing r;
     ROI_Width := ROI_Width r; ROI_Height := ROI_Height r; SelectedRate :=
     SelectedRate r; Coordinates := Coordinates r; AxisRate := AxisRate r; now
     := now r |}.

Definition set_FrameCaptured (v : list handler) (r : SharpCapT) : SharpCapT :=
  {| log := log r; FrameCaptured := v; Capturing := Capturing r; ROI_Width :=
     ROI_Width r; ROI_Height := ROI_Height r; SelectedRate := SelectedRate r;
     Coordinates := Coordinates r; AxisRate := AxisRate r; now := now r |}.

Definition set_Capturing (v : bool) (r : SharpCapT) : SharpCapT :=
  {| log := log r; FrameCaptured := FrameCaptured r; Capturing := v; ROI_Width
     := ROI_Width r; ROI_Height := ROI_Height r; SelectedRate := SelectedRate
     r; Coordinates := Coordinates r; AxisRate := AxisRate r; now := now r |}.

Definition set_SelectedRate (v : axis_rate) (r : SharpCapT) : SharpCapT :=
  {| log := log r; FrameCaptured := FrameCaptured r; Capturing := Capturing r;
     ROI_Width := ROI_Width r; ROI_Height := ROI_Height r; SelectedRate := v;
     Coordinates := Coordinates r; AxisRate := AxisRate r; now := now r |}.

Definition set_Coordinates (v : coords) (r : SharpCapT) : SharpCapT :=
  {| log := log r; FrameCaptured := FrameCaptured r; Capturing := Capturing r;
     ROI_Width := ROI_Width r; ROI_Height := ROI_Height r; SelectedRate :=
     SelectedRate r; Coordinates := v; AxisRate := AxisRate r; now := now r
     |}.

Definition set_AxisRate (v : Z -> Py.num) (r : SharpCapT) : SharpCapT :=
  {| log := log r; FrameCaptured := FrameCaptured r; Capturing := Capturing r;
     ROI_Width := ROI_Width r; ROI_Height := ROI_Height r; SelectedRate :=
     SelectedRate r; Coordinates := Coordinates r; AxisRate := v; now := now r
     |}.

Definition set_now (v : float) (r : SharpCapT) : SharpCapT :=
  {| log := log r; FrameCaptured := FrameCaptured r; Capturing := Capturing r;
     ROI_Width := ROI_Width r; ROI_Height := ROI_Height r; SelectedRate :=
     SelectedRate r; Coordinates := Coordinates r; AxisRate := AxisRate r; now
     := v |}.


(** The state the script runs in: the form ([self]), the application
    object and the settings file [SHG.cfg] ([None] while it does not
    exist). *)
Record World : Type := Build_World {
  self : SHGForm;
  SharpCap : SharpCapT;
  SHG_cfg : option string
}.

Definition upd_self (f : SHGForm -> SHGForm) (w : World) : World :=
  {| self := f (self w); SharpCap := SharpCap w; SHG_cfg := SHG_cfg w |}.

Definition upd_app (f : SharpCapT -> SharpCapT) (w : World) : World :=
  {| self := self w; SharpCap := f (SharpCap w); SHG_cfg := SHG_cfg w |}.

Definition set_SHG_cfg (v : option string) (w : World) : World :=
  {| self := self w; SharpCap := SharpCap w; SHG_cfg := v |}.

(** *** Globals *)

Definition MAX_BRIGHT : Z := 65535.
Definition DEFAULT_SUN_WIDTH : Z := 2300.
Definition DEFAULT_CYCLE_SLEEP : float := 0.5.
Definition DEFAULT_SLEWPAD : float := 0.5.
Definition DEFAULT_THRESHOLD : float := 0x1.999999999999ap-4.  (* 0.1 *)
Definition DEFAULT_CYCLES : Z := 15.
Definition DEFAULT_BIDIRECTIONAL : bool := false.
Definition DEFAULT_BUMPSWAP : bool := false.
Definition DEFAULT_AXISTOMOVE : Z := 0.

(** The class attributes of [SHGForm]; the two text boxes and the
    progress bar hold what [setupForm] puts in them. *)
Definition SHGForm_class : SHGForm :=
  {| SlewFactor := Py.Int 1;
     SlewPad := DEFAULT_SLEWPAD;
     CycleSleep := DEFAULT_CYCLE_SLEEP;
     NumCycles := DEFAULT_CYCLES;
     Bidirectional := DEFAULT_BIDIRECTIONAL;
     BumpRate := 8;
     BumpSwap := DEFAULT_BUMPSWAP;
     AxisToMove := DEFAULT_AXISTOMOVE;
     EdgePassed := false;
     PositiveSignal := false;
     LimbThreshold := (Py.float_of_Z MAX_BRIGHT * DEFAULT_THRESHOLD)%float;
     FrameInterval := 10;
     FrameCount := 10;
     ROIX := 0;
     ROIY := 0;
     FrameHandlingDone := false;
     SunWidth := 2300;
     SunDecenter := Py.Int 0;
     sunDecenter := None;
     AmSlewing := false;
     BumpSlew := 0;
     FrameRate := Py.Int (-1);
     TaskAbortFlag := false;
     SavedCoords := None;
     sunWidth_Text := "2300";
     cycleSleep_Text := "0.5";
     goButton_Enabled := true;
     abortButton_Enabled := false;
     progBar := {| Minimum := 1; Maximum := DEFAULT_CYCLES; Value := 1 |} |}.

(** *** The notification texts *)

Definition SunNotInFrame : string := "*** Sun is not in frame ***".
Definition LimbTimeout : string :=
  String (ascii_of_nat 13)  (* the carriage return the text starts with *)
    "*** Limb passage not detected within 30 seconds - repositioning mount ***".
Definition CaptureROITooSmall : string :=
  "*** Capture ROI must be at least 100x100 pixels ***".
Definition FrameRateTooSlow : string :=
  "*** Frame rate too slow! FPS indicator must be displayed ***".
Definition SettingsReadError : string := "Error reading settings file".
Definition ConfigParseWarning (item : string) : string :=
  ("Ignored invalid settings keyword " ++ item)%string.

(** *** Calls on the application object *)

Definition record (c : call) (w : World) : World :=
  upd_app (fun a => set_log (log a ++ [c]) a) w.

(** [SharpCap.Mounts.SelectedMount.MoveAxis(axis, rate)]. *)
Definition Mount_MoveAxis (axis : Z) (rate : Py.num) (w : World) : World :=
  upd_app (fun a =>
             set_AxisRate (fun x => if x =? axis then rate else AxisRate a x) a)
          (record (MoveAxis axis rate) w).

Definition Camera_PrepareToCapture (w : World) : World :=
  record PrepareToCapture w.

Definition Camera_RunCapture (w : World) : World :=
  upd_app (set_Capturing true) (record RunCapture w).

Definition Camera_StopCapture (w : World) : World :=
  upd_app (set_Capturing false) (record StopCapture w).

Definition Mount_set_SelectedRate (r : axis_rate) (w : World) : World :=
  upd_app (set_SelectedRate r) (record (SetSelectedRate r) w).

(** [SlewTo(c)]: the mount ends at [c]. *)
Definition Mount_SlewTo (c : option coords) (w : World) : World :=
  let w1 := record (SlewTo c) w in
  match c with
  | Some p => upd_app (set_Coordinates p) w1
  | None => w1
  end.

Definition ShowNotification_ (text : string) (st : NotificationStatus)
  (w : World) : World :=
  record (ShowNotification text st) w.

(** [FrameCaptured += h] and [FrameCaptured -= h]: the subscriber list of a
    .NET event; removal takes out the last occurrence. *)
Definition subscribe (h : handler) (w : World) : World :=
  upd_app (fun a => set_FrameCaptured (FrameCaptured a ++ [h]) a) w.

Fixpoint remove_first (h : handler) (l : list handler) : list handler :=
  match l with
  | [] => []
  | x :: l' => if handler_eqb h x then l' else x :: remove_first h l'
  end.

Definition remove_last (h : handler) (l : list handler) : list handler :=
  rev (remove_first h (rev l)).

Definition unsubscribe (h : handler) (w : World) : World :=
  upd_app (fun a => set_FrameCaptured (remove_last h (FrameCaptured a)) a) w.

(** A frame whose every cutout has the same mean. *)
Definition flat_frame (mean : float) : Frame :=
  {| GetStats_Item1 := mean; CutROI_Item1 := fun _ => Some mean |}.

(** ** The frame handlers *)

(** [acquireFramehandler]: the limb-crossing detector.  The countdown
    [FrameCount] gates the evaluation; an exception inside the [try] is
    swallowed, leaving the countdown where it was. *)
Definition acquireFramehandler (fr : Frame) (w : World) : World :=
  let s := self w in
  let w1 :=
    if FrameCount s =? 0 then
      match CutROI_Item1 fr (Rect (ROIX s) (ROIY s) 100 100) with
      | Some mean =>
          let w2 :=
            if negb (PositiveSignal s) then
              upd_self (set_PositiveSignal (LimbThreshold s <? mean)%float) w
            else if negb (EdgePassed s) then
              upd_self (set_EdgePassed (mean <? LimbThreshold s)%float) w
            else w in
          upd_self (set_FrameCount (FrameInterval s)) w2
      | None => w
      end
    else upd_self (set_FrameCount (FrameCount s - 1)) w in
  upd_self (set_FrameHandlingDone true) w1.

(** The first loop of [measureSunFramehandler]: [x] runs upward from 0 while
    [x < imgWidth]; [n] counts the positions left.  The result is
    [startEdge], -1 when no window reaches the threshold. *)
Fixpoint find_startEdge (fr : Frame) (thr : float) (n : nat) (x : Z)
  : Py.res Z :=
  match n with
  | O => Py.Val (-1)
  | S n' =>
      match CutROI_Item1 fr (Rect x 0 10 100) with
      | None => Py.Raise Py.SharpCapError
      | Some mean =>
          if (mean <? thr)%float then find_startEdge fr thr n' (x + 1)
          else Py.Val x
      end
  end.

(** The second loop: [x] runs downward from [imgWidth] while [x >= 0]. *)
Fixpoint find_endEdge (fr : Frame) (thr : float) (n : nat) (x : Z)
  : Py.res Z :=
  match n with
  | O => Py.Val (-1)
  | S n' =>
      match CutROI_Item1 fr (Rect x 0 10 100) with
      | None => Py.Raise Py.SharpCapError
      | Some mean =>
          if (mean <? thr)%float then find_endEdge fr thr n' (x - 1)
          else Py.Val x
      end
  end.

(** [(SunWidth/2 + startEdge) - (imgWidth+10)/2]. *)
Definition decenter_of (width startEdge imgWidth : Z) : Py.res Py.num :=
  Py.bind (Py.truediv (Py.Int width) (Py.Int 2)) (fun half =>
  Py.bind (Py.add half (Py.Int startEdge)) (fun mid =>
  Py.bind (Py.truediv (Py.Int (imgWidth + 10)) (Py.Int 2)) (fun centre =>
  Py.sub mid centre))).

(** [measureSunFramehandler].  An exception leaves the handler with the
    state as it is at that point. *)
Definition measureSunFramehandler (fr : Frame) (w : World) : World :=
  let thr := LimbThreshold (self w) in
  if (GetStats_Item1 fr <? thr)%float then
    upd_self (set_FrameHandlingDone true)
             (ShowNotification_ SunNotInFrame Error w)
  else
    let imgWidth := ROI_Width (SharpCap w) - 10 in
    match find_startEdge fr thr (Z.to_nat imgWidth) 0 with
    | Py.Raise _ => w
    | Py.Val startEdge =>
        match find_endEdge fr thr (Z.to_nat (imgWidth + 1)) imgWidth with
        | Py.Raise _ => w
        | Py.Val endEdge =>
            if (0 <? startEdge) && (0 <? endEdge) then
              let w1 := upd_self (set_SunWidth (endEdge - startEdge)) w in
              match decenter_of (SunWidth (self w1)) startEdge imgWidth with
              | Py.Raise _ => w1
              | Py.Val d =>
                  upd_self (set_FrameHandlingDone true)
                           (upd_self (set_SunDecenter d) w1)
              end
            else
              upd_self (set_FrameHandlingDone true)
                (upd_self (set_sunDecenter (Some (Py.Int 0)))
                   (upd_self (set_SunWidth DEFAULT_SUN_WIDTH) w))
        end
    end.

(** ** Bump nudges and the abort button *)

(** [DoBumpSlew].  Its quarter-second pause is recorded in the log; what
    arrives during it is delivered at the next observation point. *)
Definition DoBumpSlew (w : World) : World :=
  let other := Z.abs (1 - AxisToMove (self w)) in
  let w1 := Mount_MoveAxis other (Py.Int (BumpSlew (self w))) w in
  let w2 := record (Sleep (Py.Flt 0.25)) w1 in
  let w3 := Mount_MoveAxis (Z.abs (1 - AxisToMove (self w2))) (Py.Int 0) w2 in
  upd_self (set_BumpSlew 0) w3.

(** [DoBumpL], [DoBumpLFast], [DoBumpR], [DoBumpRFast] differ in the rate
    requested only. *)
Definition DoBump (requested : Z) (w : World) : World :=
  let w1 := upd_self (set_BumpSlew requested) w in
  let w2 :=
    if BumpSwap (self w1) then
      upd_self (set_BumpSlew (BumpSlew (self w1) * -1)) w1
    else w1 in
  if negb (AmSlewing (self w2)) then DoBumpSlew w2 else w2.

Definition DoBumpL (w : World) : World := DoBump (- BumpRate (self w)) w.
Definition DoBumpLFast (w : World) : World :=
  DoBump (-2 * BumpRate (self w)) w.
Definition DoBumpR (w : World) : World := DoBump (BumpRate (self w)) w.
Definition DoBumpRFast (w : World) : World :=
  DoBump (2 * BumpRate (self w)) w.

(** [DoAbort]: the abort button only raises the flag. *)
Definition DoAbort (w : World) : World := upd_self (set_TaskAbortFlag true) w.

(** ** What happens around the acquisition task

    The acquisition runs as one background task; the camera delivers
    frames and the user presses buttons while it polls or sleeps.  The
    environment of a run is the list of what happens between two
    consecutive observation points of the task (one iteration of the
    polling loop of [SlewPastLimb], or one [time.sleep]). *)
Inductive event : Type :=
| FrameArrives (fr : Frame)      (* the camera raises FrameCaptured *)
| AbortClick
| BumpLClick
| BumpLFastClick
| BumpRClick
| BumpRFastClick
| MountReports (c : coords)      (* the mount is now at c *)
| ClockReads (t : float).        (* time.time() now returns t *)

Definition env : Type := list (list event).

Definition run_handler (fr : Frame) (w : World) (h : handler) : World :=
  match h with
  | h_acquireFramehandler => acquireFramehandler fr w
  | h_measureSunFramehandler => measureSunFramehandler fr w
  end.

Definition deliver1 (w : World) (ev : event) : World :=
  match ev with
  | FrameArrives fr => fold_left (run_handler fr) (FrameCaptured (SharpCap w)) w
  | AbortClick => DoAbort w
  | BumpLClick => DoBumpL w
  | BumpLFastClick => DoBumpLFast w
  | BumpRClick => DoBumpR w
  | BumpRFastClick => DoBumpRFast w
  | MountReports c => upd_app (set_Coordinates c) w
  | ClockReads t => upd_app (set_now t) w
  end.

Definition deliver (evs : list event) (w : World) : World :=
  fold_left deliver1 evs w.

(** ** The task monad: state, exceptions, and the environment *)

Inductive outcome (A : Type) : Type :=
| Ret (a : A)          (* the statement completed *)
| Exc (e : Py.exn)     (* it raised *)
| Starved.             (* the environment given is too short to go on *)
Arguments Ret {A} a.
Arguments Exc {A} e.
Arguments Starved {A}.

Definition M (A : Type) : Type := env -> World -> outcome A * World * env.

Definition ret {A : Type} (a : A) : M A := fun e w => (Ret a, w, e).

Definition mbind {A B : Type} (c : M A) (k : A -> M B) : M B :=
  fun e w =>
    match c e w with
    | (Ret a, w1, e1) => k a e1 w1
    | (Exc x, w1, e1) => (Exc x, w1, e1)
    | (Starved, w1, e1) => (Starved, w1, e1)
    end.

Notation "x <- c ;; k" := (mbind c (fun x => k))
  (at level 61, c at next level, right associativity).
Notation "c ;;; k" := (mbind c (fun _ => k))
  (at level 61, right associativity).

Definition lift {A : Type} (r : Py.res A) : M A :=
  fun e w =>
    match r with
    | Py.Val a => (Ret a, w, e)
    | Py.Raise x => (Exc x, w, e)
    end.

Definition modify (f : World -> World) : M unit :=
  fun e w => (Ret tt, f w, e).

Definition gets {A : Type} (f : World -> A) : M A :=
  fun e w => (Ret (f w), w, e).

(** An observation point: what happened since the previous one is
    delivered. *)
Definition observe : M unit :=
  fun e w =>
    match e with
    | [] => (Starved, w, [])
    | batch :: e' => (Ret tt, deliver batch w, e')
    end.

(** [time.sleep(d)], for a duration the call takes.  The call itself
    refuses a duration that is NaN, negative or too long; the model records
    and waits whatever the duration, so what it says of a sleep is what the
    code does only where [sleep_takes] holds. *)
Definition time_sleep (d : Py.num) : M unit :=
  modify (record (Sleep d)) ;;; observe.

(** A duration [time.sleep] takes: not NaN, not negative, and of at most
    2147483 seconds, whose milliseconds still fit a 32-bit count. *)
Definition sleep_takes (d : Py.num) : bool :=
  match d with
  | Py.Int z => (0 <=? z) && (z <=? 2147483)
  | Py.Flt x => ((0 <=? x) && (x <=? 2147483))%float
  end.

(** [time.time()]. *)
Definition time_time : M float := gets (fun w => now (SharpCap w)).

(** ** The slew controller *)

(** How the polling loop of [SlewPastLimb] is left. *)
Inductive loop_exit : Set :=
| ConditionFalse           (* [EdgePassed] was seen true *)
| Break                    (* the 30 second branch ran *)
| Return (b : bool).       (* [return False] on the abort flag *)

(** The 30 second branch of the loop: notification, stop, reverse for
    [int(endTime - startTime)] seconds, stop. *)
Definition limb_timeout (rate : Py.num) (elapsed : float) : M unit :=
  modify (ShowNotification_ LimbTimeout Error) ;;;
  modify (fun w => Mount_MoveAxis (AxisToMove (self w)) (Py.Int 0) w) ;;;
  modify (fun w => Mount_MoveAxis (AxisToMove (self w)) (Py.neg rate) w) ;;;
  d <- lift (Py.int_of (Py.Flt elapsed)) ;;
  time_sleep (Py.Int d) ;;;
  modify (fun w => Mount_MoveAxis (AxisToMove (self w)) (Py.Int 0) w).

(** [while (not self.EdgePassed): ...].  Each iteration is one observation
    point; the loop runs as long as the environment has something to
    say. *)
Fixpoint wait_past_limb (rate : Py.num) (startTime : float)
  (e : env) (w : World) {struct e} : outcome loop_exit * World * env :=
  match e with
  | [] => (Starved, w, [])
  | batch :: e' =>
      let w1 := deliver batch w in
      if EdgePassed (self w1) then (Ret ConditionFalse, w1, e')
      else
        let endTime := now (SharpCap w1) in
        if TaskAbortFlag (self w1) then (Ret (Return false), w1, e')
        else if Py.gt (Py.Flt (endTime - startTime)) (Py.Int 30) then
          (limb_timeout rate (endTime - startTime) ;;; ret Break) e' w1
        else wait_past_limb rate startTime e' w1
  end.

(** [SlewPastLimb(rate)], in the three phases its body has: the statements
    before the polling loop, the loop, and the statements after it. *)
Definition slew_start (rate : Py.num) : M (Py.num * float) :=
  modify (upd_self (set_AmSlewing true)) ;;;
  modify (upd_self (set_EdgePassed false)) ;;;
  modify (upd_self (set_PositiveSignal false)) ;;;
  modify (fun w => upd_self (set_FrameCount (FrameInterval (self w))) w) ;;;
  pad_rate <- gets (fun w => SlewFactor (self w)) ;;
  _ <- lift (Py.copysign pad_rate rate) ;;   (* the value is dropped *)
  modify (subscribe h_acquireFramehandler) ;;;
  startTime <- time_time ;;
  modify (fun w => Mount_MoveAxis (AxisToMove (self w)) rate w) ;;;
  ret (pad_rate, startTime).

Definition slew_finish (pad_rate : Py.num) : M bool :=
  modify (unsubscribe h_acquireFramehandler) ;;;
  passed <- gets (fun w => EdgePassed (self w)) ;;
  (if passed then
     modify (fun w => Mount_MoveAxis (AxisToMove (self w)) pad_rate w) ;;;
     pad <- gets (fun w => SlewPad (self w)) ;;
     time_sleep (Py.Flt pad) ;;;
     modify (fun w => Mount_MoveAxis (AxisToMove (self w)) (Py.Int 0) w)
   else ret tt) ;;;
  bump <- gets (fun w => BumpSlew (self w)) ;;
  (if negb (bump =? 0) then modify DoBumpSlew else ret tt) ;;;
  modify (upd_self (set_AmSlewing false)) ;;;
  gets (fun w => EdgePassed (self w)).

Definition SlewPastLimb (rate : Py.num) : M bool :=
  st <- slew_start rate ;;
  x <- wait_past_limb rate (snd st) ;;
  match x with
  | Return b => ret b
  | ConditionFalse | Break => slew_finish (fst st)
  end.

(** The polls that leave the loop running: the state after the batches
    [pre] when none of them shows the edge, the abort flag or the
    timeout. *)
Fixpoint keep_waiting (startTime : float) (pre : env) (w : World)
  : option World :=
  match pre with
  | [] => Some w
  | batch :: pre' =>
      let w1 := deliver batch w in
      if EdgePassed (self w1) || TaskAbortFlag (self w1)
         || Py.gt (Py.Flt (now (SharpCap w1) - startTime)) (Py.Int 30)
      then None
      else keep_waiting startTime pre' w1
  end.

(** The detector alone: the value of [EdgePassed] after each sample of a
    sequence of cutout means, from the reset [SlewPastLimb] performs. *)
Definition detector_reset (w : World) : World :=
  upd_self (fun s => set_FrameCount (FrameInterval s)
                       (set_PositiveSignal false (set_EdgePassed false s))) w.

(** A sample below, respectively above, the limb threshold. *)
Definition below (w : World) (mean : float) : Prop :=
  (mean <? LimbThreshold (self w))%float = true.

Definition above (w : World) (mean : float) : Prop :=
  (LimbThreshold (self w) <? mean)%float = true.

Fixpoint feed (samples : list float) (w : World) : list bool :=
  match samples with
  | [] => []
  | m :: rest =>
      let w' := acquireFramehandler (flat_frame m) w in
      EdgePassed (self w') :: feed rest w'
  end.

(** ** The acquisition sequencer *)

Definition enableGo (w : World) : World :=
  upd_self (set_abortButton_Enabled false)
           (upd_self (set_goButton_Enabled true) w).

Definition enableAbort (w : World) : World :=
  upd_self (set_goButton_Enabled false)
           (upd_self (set_abortButton_Enabled true) w).

Definition SavePos (w : World) : World :=
  upd_self (set_SavedCoords (Some (Coordinates (SharpCap w)))) w.

Definition RestorePos (w : World) : World :=
  let saveRate := SelectedRate (SharpCap w) in
  let w1 := Mount_set_SelectedRate (ForSiderealRate 32) w in
  let w2 := Mount_SlewTo (SavedCoords (self w1)) w1 in
  Mount_set_SelectedRate saveRate w2.

Definition DoAbortTask (w : World) : World :=
  let w1 := Camera_StopCapture w in
  let w2 := Mount_MoveAxis (AxisToMove (self w1)) (Py.Int 0) w1 in
  let w3 := RestorePos w2 in
  let w4 := upd_self (set_AmSlewing false) w3 in
  let w5 := upd_self (set_BumpSlew (-1)) w4 in
  let w6 := upd_self (set_TaskAbortFlag false) w5 in
  enableGo w6.

(** The two locals of [DoGo] that are bound inside the cycle loop only. *)
Record locals : Set := Build_locals {
  startTime : option float;
  endTime : option float
}.

(** How one pass of the cycle body ends: it falls through to the next
    cycle, or [DoGo] returns from inside it. *)
Inductive body_exit : Set :=
| NextCycle (l : locals)
| Returned.

(** An assignment to a property of [self.progBar]. *)
Definition progBar_assign (f : ProgressBar -> Py.res ProgressBar) : M unit :=
  p <- gets (fun w => progBar (self w)) ;;
  p' <- lift (f p) ;;
  modify (upd_self (set_progBar p')).

(** [self.progBar.Increment(1)]. *)
Definition progBar_Increment (w : World) : World :=
  upd_self (fun s => set_progBar (Increment 1 (progBar s)) s) w.

(** The body of [for cycle in range(Num_cycles)].  The console output is
    outside the model. *)
Definition cycle_body (l : locals) : M body_exit :=
  t0 <- time_time ;;
  modify Camera_PrepareToCapture ;;;
  modify Camera_RunCapture ;;;
  f <- gets (fun w => SlewFactor (self w)) ;;
  _ <- SlewPastLimb f ;;
  modify Camera_StopCapture ;;;
  t1 <- time_time ;;
  let l' := {| startTime := Some t0; endTime := Some t1 |} in
  abort <- gets (fun w => TaskAbortFlag (self w)) ;;
  if abort then modify DoAbortTask ;;; ret Returned
  else
    bidir <- gets (fun w => Bidirectional (self w)) ;;
    (if bidir then
       modify Camera_PrepareToCapture ;;;
       modify Camera_RunCapture ;;;
       f <- gets (fun w => SlewFactor (self w)) ;;
       _ <- SlewPastLimb (Py.neg f) ;;
       modify Camera_StopCapture
     else
       f <- gets (fun w => SlewFactor (self w)) ;;
       back <- lift (Py.mul (Py.Int (-8)) f) ;;
       _ <- SlewPastLimb back ;;
       ret tt) ;;;
    abort <- gets (fun w => TaskAbortFlag (self w)) ;;
    if abort then modify DoAbortTask ;;; ret Returned
    else
      txt <- gets (fun w => cycleSleep_Text (self w)) ;;
      d <- lift (Py.parse_float txt) ;;
      time_sleep (Py.Flt d) ;;;
      modify progBar_Increment ;;;
      ret (NextCycle l').

Fixpoint cycles (n : nat) (l : locals) : M body_exit :=
  match n with
  | O => ret (NextCycle l)
  | S n' =>
      x <- cycle_body l ;;
      match x with
      | Returned => ret Returned
      | NextCycle l' => cycles n' l'
      end
  end.

(** Reading a local that may not have been bound yet. *)
Definition local (v : option float) : M float :=
  match v with
  | Some t => ret t
  | None => lift (Py.Raise Py.UnboundLocalError)
  end.

(** How [DoGo] ends: at one of the three [return] statements that follow
    [DoAbortTask], or at the end of its body. *)
Inductive run_end : Set :=
| Aborted
| Completed.

(** The body of [DoGo], with the way it ended as its result. *)
Definition DoGo_run : M run_end :=
  modify SavePos ;;;
  f <- gets (fun w => SlewFactor (self w)) ;;
  _ <- SlewPastLimb (Py.neg f) ;;
  abort <- gets (fun w => TaskAbortFlag (self w)) ;;
  if abort then modify DoAbortTask ;;; ret Aborted
  else
    progBar_assign (assign_Value 1) ;;;
    Num_cycles <- gets (fun w => NumCycles (self w)) ;;
    x <- cycles (Z.to_nat Num_cycles) {| startTime := None; endTime := None |} ;;
    match x with
    | Returned => ret Aborted
    | NextCycle l =>
        modify (fun w =>
                  Mount_MoveAxis (AxisToMove (self w)) (SlewFactor (self w)) w) ;;;
        t1 <- local (endTime l) ;;
        t0 <- local (startTime l) ;;
        d <- lift (Py.truediv (Py.Flt (t1 - t0)) (Py.Int 2)) ;;
        time_sleep d ;;;
        modify (fun w => Mount_MoveAxis (AxisToMove (self w)) (Py.Int 0) w) ;;;
        modify enableGo ;;;
        ret Completed
    end.

(** [DoGo]. *)
Definition DoGo : M unit := DoGo_run ;;; ret tt.

(** [asyncDoGo]: the Go button; the task itself is [DoGo]. *)
Definition asyncDoGo (w : World) : World :=
  upd_self (set_TaskAbortFlag false) (enableAbort w).

(** ** The scan parameters *)

(** [int(n/2 - 50)]. *)
Definition centred_corner (n : Z) : Py.res Z :=
  Py.bind (Py.truediv (Py.Int n) (Py.Int 2)) (fun half =>
  Py.bind (Py.sub half (Py.Int 50)) Py.int_of).

(** [-(FrameRate * 120) / sunWidth]. *)
Definition slew_factor (frameRate : Py.num) (sunWidth : Z) : Py.res Py.num :=
  Py.bind (Py.mul frameRate (Py.Int 120)) (fun p =>
  Py.truediv (Py.neg p) (Py.Int sunWidth)).

(** [SlewPad * 2 + SunWidth/FrameRate]. *)
Definition cycle_duration (slewPad : float) (sunWidth : Z) (frameRate : Py.num)
  : Py.res Py.num :=
  Py.bind (Py.mul (Py.Flt slewPad) (Py.Int 2)) (fun pads =>
  Py.bind (Py.truediv (Py.Int sunWidth) frameRate) (fun across =>
  Py.add pads across)).

(** [CalcScanParams].  The text written to the [FPSInfo] label is outside
    the model; the duration it shows is still computed. *)
Definition CalcScanParams : M bool :=
  width <- gets (fun w => ROI_Width (SharpCap w)) ;;
  height <- gets (fun w => ROI_Height (SharpCap w)) ;;
  if (width <? 100) || (height <? 100) then
    modify (ShowNotification_ CaptureROITooSmall Error) ;;;
    ret false
  else
    x <- lift (centred_corner width) ;;
    modify (upd_self (set_ROIX x)) ;;;
    y <- lift (centred_corner height) ;;
    modify (upd_self (set_ROIY y)) ;;;
    rate <- gets (fun w => FrameRate (self w)) ;;
    p <- lift (Py.mul rate (Py.Int 120)) ;;
    txt <- gets (fun w => sunWidth_Text (self w)) ;;
    n <- lift (Py.parse_int txt) ;;
    f <- lift (Py.truediv (Py.neg p) (Py.Int n)) ;;
    modify (upd_self (set_SlewFactor f)) ;;;
    if Py.eq f (Py.Int 0) then
      modify (ShowNotification_ FrameRateTooSlow Error) ;;;
      ret false
    else
      pad <- gets (fun w => SlewPad (self w)) ;;
      sw <- gets (fun w => SunWidth (self w)) ;;
      rate <- gets (fun w => FrameRate (self w)) ;;
      _ <- lift (cycle_duration pad sw rate) ;;
      ret true.

(** ** The settings file *)

Definition nl : string := String (ascii_of_nat 10) EmptyString.

(** [saveSettings].  The threshold written is the module global
    [DEFAULT_THRESHOLD].  Writing the file always succeeds here. *)
Definition saveSettings (w : World) : World :=
  let s := self w in
  let config :=
    ("NumCycles=" ++ Py.str_int (NumCycles s) ++ nl ++
     "SunWidth=" ++ Py.str_int (SunWidth s) ++ nl ++
     "CycleSleep=" ++ Py.fmt2f (CycleSleep s) ++ nl ++
     "SlewPad=" ++ Py.fmt2f (SlewPad s) ++ nl ++
     "LimbThreshold=" ++ Py.fmt2f DEFAULT_THRESHOLD ++ nl ++
     "Bidirectional=" ++ Py.str_bool (Bidirectional s) ++ nl ++
     "BumpSwap=" ++ Py.str_bool (BumpSwap s) ++ nl ++
     "BumpRate=" ++ Py.str_int (BumpRate s) ++ nl ++
     "AxisToMove=" ++ Py.str_int (AxisToMove s))%string in
  set_SHG_cfg (Some config) w.

(** [config.split('\n')]. *)
Fixpoint split_lines (s : string) : list string :=
  match s with
  | EmptyString => [EmptyString]
  | String c s' =>
      if Ascii.eqb c (ascii_of_nat 10) then EmptyString :: split_lines s'
      else
        match split_lines s' with
        | l :: ls => String c l :: ls
        | [] => [String c EmptyString]
        end
  end.

Definition is_letter (c : ascii) : bool := Py.is_upper c || Py.is_lower c.

Definition is_value_char (c : ascii) : bool :=
  Py.is_digit c || Ascii.eqb c "." || is_letter c.

Fixpoint take_while (p : ascii -> bool) (s : string) : string :=
  match s with
  | String c s' => if p c then String c (take_while p s') else EmptyString
  | EmptyString => EmptyString
  end.

Definition starts_with (p : ascii -> bool) (s : string) : bool :=
  match s with
  | String c _ => p c
  | EmptyString => false
  end.

(** [re.search("([a-zA-Z]+)=([0-9.a-zA-Z]+)", item)]: the two groups of
    the leftmost match.  [key] is the run of letters read so far; the
    match is at the first [=] that has such a run before it and a value
    character after it. *)
Fixpoint re_search_from (key : string) (s : string) : option (string * string) :=
  match s with
  | EmptyString => None
  | String c rest =>
      if is_letter c then re_search_from (key ++ String c EmptyString) rest
      else if Ascii.eqb c "=" && negb (String.eqb key EmptyString)
              && starts_with is_value_char rest
      then Some (key, take_while is_value_char rest)
      else re_search_from EmptyString rest
  end.

Definition re_search (item : string) : option (string * string) :=
  re_search_from EmptyString item.

(** One pass of the [for item in items] loop of [getSettings].  The
    assignment to [DEFAULT_THRESHOLD] in that loop binds a local of
    [getSettings]: the module global is not touched. *)
Definition settings_item (item : string) (w : World) : Py.res World :=
  match re_search item with
  | None => Py.Val (ShowNotification_ (ConfigParseWarning item) Warning w)
  | Some (key, value) =>
      if String.eqb key "NumCycles" then
        Py.bind (Py.parse_int value) (fun n =>
        Py.Val (upd_self (set_NumCycles n) w))
      else if String.eqb key "SunWidth" then
        Py.bind (Py.parse_int value) (fun n =>
        Py.Val (upd_self (set_SunWidth n) w))
      else if String.eqb key "CycleSleep" then
        Py.bind (Py.parse_float value) (fun x =>
        Py.Val (upd_self (set_CycleSleep x) w))
      else if String.eqb key "SlewPad" then
        Py.bind (Py.parse_float value) (fun x =>
        Py.Val (upd_self (set_SlewPad x) w))
      else if String.eqb key "LimbThreshold" then
        Py.bind (Py.parse_float value) (fun _ =>
        Py.bind (Py.parse_float value) (fun x =>
        Py.Val (upd_self (set_LimbThreshold (Py.float_of_Z MAX_BRIGHT * x)%float) w)))
      else if String.eqb key "Bidirectional" then
        Py.Val (upd_self (set_Bidirectional (String.eqb value "True")) w)
      else if String.eqb key "BumpSwap" then
        Py.Val (upd_self (set_BumpSwap (String.eqb value "True")) w)
      else if String.eqb key "BumpRate" then
        Py.bind (Py.parse_int value) (fun n =>
        Py.Val (upd_self (set_BumpRate n) w))
      else if String.eqb key "AxisToMove" then
        Py.bind (Py.parse_int value) (fun n =>
        Py.Val (upd_self (set_AxisToMove n) w))
      else Py.Val w
  end.

(** The loop inside the [try]: an exception ends it with the notification
    of the [except] clause, keeping what the earlier lines assigned. *)
Fixpoint settings_items (items : list string) (w : World) : World :=
  match items with
  | [] => w
  | item :: rest =>
      match settings_item item w with
      | Py.Val w' => settings_items rest w'
      | Py.Raise _ => ShowNotification_ SettingsReadError Error w
      end
  end.

(** [getSettings].  Reading an existing file always succeeds here. *)
Definition getSettings (w : World) : World :=
  match SHG_cfg w with
  | Some config => settings_items (split_lines config) w
  | None => saveSettings w
  end.

(** ** Frames given by their pixels *)

(** The sum of [f] over [n] consecutive integers from [x]. *)
Fixpoint sum_range (f : Z -> Z) (n : nat) (x : Z) : Z :=
  match n with
  | O => 0
  | S n' => f x + sum_range f n' (x + 1)
  end.

Definition rect_sum (pix : Z -> Z -> Z) (r : Rectangle) : Z :=
  sum_range (fun y => sum_range (fun x => pix x y) (Z.to_nat (rwidth r)) (rx r))
            (Z.to_nat (rheight r)) (ry r).

Definition rect_mean (pix : Z -> Z -> Z) (r : Rectangle) : float :=
  (Py.float_of_Z (rect_sum pix r) / Py.float_of_Z (rwidth r * rheight r))%float.

Definition rect_inside (width height : Z) (r : Rectangle) : bool :=
  (0 <=? rx r) && (0 <=? ry r) && (0 <? rwidth r) && (0 <? rheight r)
  && (rx r + rwidth r <=? width) && (ry r + rheight r <=? height).

(** Modelled from the spec: the camera collaborator's frame exposes
    [meanOf(rect) -> float]; SharpCap's own statistics code is not part of
    the script.  The mean taken here is the sum of the pixel values of the
    rectangle divided by their number, and a rectangle that does not lie
    inside the frame makes the call fail. *)
Definition frame_of_pixels (width height : Z) (pix : Z -> Z -> Z) : Frame :=
  {| GetStats_Item1 := rect_mean pix (Rect 0 0 width height);
     CutROI_Item1 := fun r =>
       if rect_inside width height r then Some (rect_mean pix r) else None |}.

(** A frame with one bright band: the columns [a <= x < a + w] have the
    value [bright] on every row, all other pixels the value [dark]. *)
Definition band_pixels (a w bright dark : Z) (x y : Z) : Z :=
  if (a <=? x) && (x <? a + w) then bright else dark.

Definition band_frame (width height a w bright dark : Z) : Frame :=
  frame_of_pixels width height (band_pixels a w bright dark).

(** ** Starting states *)

Definition SharpCap_start (width height : Z) : SharpCapT :=
  {| log := [];
     FrameCaptured := [];
     Capturing := false;
     ROI_Width := width;
     ROI_Height := height;
     SelectedRate := ForSiderealRate 1;
     Coordinates := At 0;
     AxisRate := fun _ => Py.Int 0;
     now := 0 |}.

Definition World_start (width height : Z) : World :=
  {| self := SHGForm_class;
     SharpCap := SharpCap_start width height;
     SHG_cfg := None |}.

(** ** Windows of the width measurement *)

(** The mean of the 10x100 window whose left column is [x]. *)
Definition window (fr : Frame) (x : Z) : option float :=
  CutROI_Item1 fr (Rect x 0 10 100).

(** The window at [x] can be read and its mean is below the threshold,
    respectively reaches it. *)
Definition window_dark (fr : Frame) (thr : float) (x : Z) : bool :=
  match window fr x with
  | Some mean => (mean <? thr)%float
  | None => false
  end.

Definition window_bright (fr : Frame) (thr : float) (x : Z) : bool :=
  match window fr x with
  | Some mean => negb (mean <? thr)%float
  | None => false
  end.

(** [p] holds at the [n] positions from [x] upward. *)
Fixpoint all_from (p : Z -> bool) (n : nat) (x : Z) : bool :=
  match n with
  | O => true
  | S n' => p x && all_from p n' (x + 1)
  end.

Definition window_readable (fr : Frame) (x : Z) : bool :=
  match window fr x with
  | Some _ => true
  | None => false
  end.

(** One bright band over the columns [a <= x < a + bw] of a frame
    [width] columns wide, as the measurement sees it: every window that
    lies inside the band reaches the threshold, every window clear of the
    band is below it, and the windows in between can be read. *)
Definition one_bright_band (fr : Frame) (thr : float) (width a bw : Z) : bool :=
  all_from (window_dark fr thr) (Z.to_nat (a - 9)) 0
  && all_from (window_readable fr) (Z.to_nat (width - 9)) 0
  && all_from (window_bright fr thr) (Z.to_nat (bw - 9)) a
  && all_from (window_dark fr thr) (Z.to_nat (width - 9 - (a + bw))) (a + bw).

(** The value [(width/2 + startEdge) - imageWidth/2] has when no
    conversion overflows. *)
Definition decenter_value (width startEdge imageWidth : Z) : float :=
  ((Py.float_of_Z width / 2 + Py.float_of_Z startEdge)
   - Py.float_of_Z imageWidth / 2)%float.

(** ** Describing a slew *)

(** The state in which the polling loop of [SlewPastLimb rate] starts. *)
Definition slew_started (rate : Py.num) (w : World) : World :=
  let w1 := upd_self (set_AmSlewing true) w in
  let w2 := upd_self (set_EdgePassed false) w1 in
  let w3 := upd_self (set_PositiveSignal false) w2 in
  let w4 := upd_self (set_FrameCount (FrameInterval (self w3))) w3 in
  let w5 := subscribe h_acquireFramehandler w4 in
  Mount_MoveAxis (AxisToMove (self w5)) rate w5.


(** The state in which the pad slew sleeps. *)
Definition slew_padding (pad_rate : Py.num) (w : World) : World :=
  let w1 := unsubscribe h_acquireFramehandler w in
  let w2 := Mount_MoveAxis (AxisToMove (self w1)) pad_rate w1 in
  record (Sleep (Py.Flt (SlewPad (self w2)))) w2.

(** The end of a slew: the pending bump nudge, then [AmSlewing] cleared. *)
Definition slew_finished (w : World) : World :=
  upd_self (set_AmSlewing false)
           (if negb (BumpSlew (self w) =? 0) then DoBumpSlew w else w).

(** The calls of the bump nudge that ends a slew, if one is pending. *)
Definition bump_calls (w : World) : list call :=
  if BumpSlew (self w) =? 0 then []
  else
    let other := Z.abs (1 - AxisToMove (self w)) in
    [MoveAxis other (Py.Int (BumpSlew (self w)));
     Sleep (Py.Flt 0.25);
     MoveAxis other (Py.Int 0)].

(** No width measurement is in progress: the camera event has no
    subscriber other than the limb-crossing handler. *)
Definition only_acquire (w : World) : Prop :=
  Forall (fun h => h = h_acquireFramehandler) (FrameCaptured (SharpCap w)).

(** What no event changes while a slew is in progress and no measurement
    runs: the state with the detector latches, the countdown, the two
    flags the buttons set, the mount position and the clock blanked. *)
Definition blank_transient (w : World) : World :=
  upd_app (fun a => set_now 0 (set_Coordinates (At 0) a))
    (upd_self (fun s => set_BumpSlew 0
                          (set_TaskAbortFlag false
                             (set_FrameHandlingDone false
                                (set_FrameCount 0
                                   (set_PositiveSignal false
                                      (set_EdgePassed false s))))))
              w).

(** The settings of a run that nothing but the settings file and the form's
    input handlers change. *)
Definition run_settings (w : World)
  : Z * option coords * Z * Py.num * float * bool * string :=
  (NumCycles (self w), SavedCoords (self w), AxisToMove (self w),
   SlewFactor (self w), SlewPad (self w), Bidirectional (self w),
   cycleSleep_Text (self w)).

(** A slew is in progress and no measurement runs. *)
Definition slewing (w : World) : Prop :=
  AmSlewing (self w) = true /\ only_acquire w.

(** ** Reasoning about the task monad *)

(** [triple P c Q]: from a state satisfying [P], whenever [c] completes
    with a result, the result and the state reached satisfy [Q]. *)
Definition triple {A : Type} (P : World -> Prop) (c : M A)
  (Q : A -> World -> Prop) : Prop :=
  forall (e : env) (w : World),
    P w ->
    match c e w with
    | (Ret a, w', _) => Q a w'
    | _ => True
    end.

(** The invariant "the settings of the run are [s]". *)
Definition has_settings
  (s : Z * option coords * Z * Py.num * float * bool * string) (w : World)
  : Prop :=
  run_settings w = s.

(** The state is the one abort recovery leaves, entered with the abort flag
    set from a state with the settings [s]. *)
Definition aborted_from
  (s : Z * option coords * Z * Py.num * float * bool * string) (w' : World)
  : Prop :=
  exists w1 : World,
    w' = DoAbortTask w1
    /\ TaskAbortFlag (self w1) = true
    /\ has_settings s w1.

(** ** More of the detector *)

(** A run of frames reaching the limb-crossing handler one after the
    other. *)
Definition frames_arrive (frs : list Frame) (w : World) : World :=
  fold_left (fun w fr => acquireFramehandler fr w) frs w.

(** The centre cutout the handler looks at. *)
Definition centre_cutout (w : World) : Rectangle :=
  Rect (ROIX (self w)) (ROIY (self w)) 100 100.

(** ** What events leave alone *)

(** The camera's capture switch, the two task buttons and the mount's
    selected rate: only the task and abort recovery change them. *)
Definition capture_state (w : World) : bool * bool * bool * axis_rate :=
  (Capturing (SharpCap w), goButton_Enabled (self w),
   abortButton_Enabled (self w), SelectedRate (SharpCap w)).

(** The axis a bump nudge moves. *)
Definition bump_axis (w : World) : Z := Z.abs (1 - AxisToMove (self w)).

(** ** Describing the lines of the settings file *)

Fixpoint all_chars (p : ascii -> bool) (s : string) : bool :=
  match s with
  | EmptyString => true
  | String c s' => p c && all_chars p s'
  end.

(** A text the value group of the settings pattern matches as a whole. *)
Definition value_text (s : string) : bool :=
  starts_with is_value_char s && all_chars is_value_char s.

Definition not_equals_sign (c : ascii) : bool := negb (Ascii.eqb c "=").

Definition not_newline (c : ascii) : bool :=
  negb (Ascii.eqb c (ascii_of_nat 10)).

(** The keys [getSettings] knows, by the conversion applied to the value. *)
Definition int_keys : list string :=
  ["NumCycles"; "SunWidth"; "BumpRate"; "AxisToMove"]%string.

Definition float_keys : list string :=
  ["CycleSleep"; "SlewPad"; "LimbThreshold"]%string.

Definition bool_keys : list string := ["Bidirectional"; "BumpSwap"]%string.

Definition known_keys : list string := int_keys ++ float_keys ++ bool_keys.

(** The four counts of the form are not negative. *)
Definition counts_not_negative (w : World) : Prop :=
  0 <= NumCycles (self w) /\ 0 <= SunWidth (self w)
  /\ 0 <= BumpRate (self w) /\ 0 <= AxisToMove (self w).

(** An amount of seconds that is finite and not negative. *)
Definition plain_amount (x : float) : bool :=
  match Prim2SF x with
  | S754_zero false => true
  | S754_finite false _ _ => true
  | _ => false
  end.

(** ** The input handlers of the form

    A handler is called with the control that raised the event as its
    [sender]; [MeasureSun] and [launch_SHGForm] call two of the handlers
    themselves, with [None].  A text box is given here by the text its
    [Undo()] puts back.  The boxes [numCycles], [slewPad] and [frameRate]
    are not part of the form state modelled: their text is an argument of
    the handler, and undoing them changes nothing here. *)
Definition sender : Type := option string.

(** How a handler ends: it returns, or the [AttributeError] of
    [None.Undo()] leaves it. *)
Inductive handled : Type :=
| Returns (w : World)
| AttributeError (w : World).

Definition state_of (h : handled) : World :=
  match h with
  | Returns w => w
  | AttributeError w => w
  end.

(** [sender.Undo()], in the [else] branch or in the [except] clause: on
    [None] the call in the [else] branch raises inside the [try], and the
    call in the [except] clause raises out of the handler. *)
Definition Undo (put_back : string -> World -> World) (s : sender) (w : World)
  : handled :=
  match s with
  | Some text => Returns (put_back text w)
  | None => AttributeError w
  end.

Definition doNumCyclesChange (text : string) (s : sender) (w : World)
  : handled :=
  match Py.parse_int text with
  | Py.Val n =>
      if 0 <=? n then
        let w1 := upd_self (set_NumCycles n) w in
        match assign_Maximum n (progBar (self w1)) with
        | Py.Val p => Returns (upd_self (set_progBar p) w1)
        | Py.Raise _ => Undo (fun _ w => w) s w1
        end
      else Undo (fun _ w => w) s w
  | Py.Raise _ => Undo (fun _ w => w) s w
  end.

Definition doBidirectionalChange (checked : bool) (w : World) : World :=
  upd_self (set_Bidirectional checked) w.

Definition doSlewPadChange (text : string) (s : sender) (w : World)
  : handled :=
  match Py.parse_float text with
  | Py.Val n =>
      if Py.gt (Py.Flt n) (Py.Int 0) then Returns (upd_self (set_SlewPad n) w)
      else Undo (fun _ w => w) s w
  | Py.Raise _ => Undo (fun _ w => w) s w
  end.

Definition doCycleSleepChange (s : sender) (w : World) : handled :=
  let put_back text := upd_self (set_cycleSleep_Text text) in
  match Py.parse_float (cycleSleep_Text (self w)) with
  | Py.Val n =>
      if Py.gt (Py.Flt n) (Py.Int 0) then Returns (upd_self (set_CycleSleep n) w)
      else Undo put_back s w
  | Py.Raise _ => Undo put_back s w
  end.

Definition doBumpSwapChange (checked : bool) (w : World) : World :=
  upd_self (set_BumpSwap checked) w.

Definition doSunWidthChange (s : sender) (w : World) : handled :=
  let put_back text := upd_self (set_sunWidth_Text text) in
  match Py.parse_int (sunWidth_Text (self w)) with
  | Py.Val n =>
      if 100 <? n then Returns (upd_self (set_SunWidth n) w)
      else Undo put_back s w
  | Py.Raise _ => Undo put_back s w
  end.

(** [doAxisToMoveChange]: ticked is RA (axis 0), not ticked is Dec. *)
Definition doAxisToMoveChange (checked : bool) (w : World) : World :=
  upd_self (set_AxisToMove (if checked then 0 else 1)) w.

(** The four parameters the text handlers guard are in their ranges. *)
Definition parameters_valid (w : World) : Prop :=
  0 <= NumCycles (self w)
  /\ Py.gt (Py.Flt (SlewPad (self w))) (Py.Int 0) = true
  /\ Py.gt (Py.Flt (CycleSleep (self w))) (Py.Int 0) = true
  /\ 100 < SunWidth (self w).

(** ** The frame rate box and the width measurement *)

(** How a handler run inside the task monad ends. *)
Inductive ended : Set :=
| Normally
| ByAttributeError.

Definition run_handled (h : World -> handled) : M ended :=
  fun e w =>
    match h w with
    | Returns w' => (Ret Normally, w', e)
    | AttributeError w' => (Ret ByAttributeError, w', e)
    end.

(** [try: body / except: handler]. *)
Definition try_except {A : Type} (body handler : M A) : M A :=
  fun e w =>
    match body e w with
    | (Exc _, w1, e1) => handler e1 w1
    | r => r
    end.

(** [doFrameRateChange].  The guard [if (self)] of its two [Undo()] calls
    is always taken: the form is an object without [__bool__] or
    [__len__]. *)
Definition doFrameRateChange (text : string) (s : sender) : M ended :=
  let undo := run_handled (Undo (fun _ w => w) s) in
  try_except
    (n <- lift (Py.parse_float text) ;;
     if Py.gt (Py.Flt n) (Py.Int 0) then
       modify (upd_self (set_FrameRate (Py.Flt n))) ;;;
       _ <- CalcScanParams ;;
       ret Normally
     else undo)
    undo.

(** [while (not self.FrameHandlingDone): pass]: the button handler spins
    until a frame handler has set the flag. *)
Fixpoint wait_measured (e : env) (w : World) {struct e}
  : outcome unit * World * env :=
  match e with
  | [] => if FrameHandlingDone (self w) then (Ret tt, w, []) else (Starved, w, [])
  | batch :: e' =>
      if FrameHandlingDone (self w) then (Ret tt, w, e)
      else wait_measured e' (deliver batch w)
  end.

(** [MeasureSun], in two parts: up to the end of the wait, and after it.
    [fps] is what [getCamFramerate] gave for the status line of the
    camera; the [decenter] box is outside the model. *)
Definition measure_finish : M ended :=
  modify (fun w =>
            upd_self (set_sunWidth_Text (Py.str_int (SunWidth (self w)))) w) ;;;
  r <- run_handled (doSunWidthChange None) ;;
  match r with
  | ByAttributeError => ret ByAttributeError
  | Normally =>
      modify (unsubscribe h_measureSunFramehandler) ;;;
      _ <- CalcScanParams ;;
      ret Normally
  end.

Definition MeasureSun (fps : Py.res float) : M ended :=
  f <- lift fps ;;
  r <- doFrameRateChange (Py.fmt2f f) None ;;
  match r with
  | ByAttributeError => ret ByAttributeError
  | Normally =>
      modify (upd_self (set_FrameHandlingDone false)) ;;;
      modify (subscribe h_measureSunFramehandler) ;;;
      wait_measured ;;;
      measure_finish
  end.

(** [BeforeClosing]. *)
Definition BeforeClosing (w : World) : World := saveSettings w.

(** What [CalcScanParams] leaves alone. *)
Definition measurement_state (w : World)
  : list handler * Z * string * bool * Py.num :=
  (FrameCaptured (SharpCap w), SunWidth (self w), sunWidth_Text (self w),
   FrameHandlingDone (self w), FrameRate (self w)).

(** [settles P c Q]: from a state satisfying [P], [c] comes to an end
    without an observation point, by a result or by an exception, in a
    state satisfying [Q]. *)
Definition settles {A : Type} (P : World -> Prop) (c : M A)
  (Q : World -> Prop) : Prop :=
  forall (e : env) (w : World),
    P w ->
    match c e w with
    | (Starved, _, _) => False
    | (_, w', e') => Q w' /\ e' = e
    end.

(** ** The cutout of the detector *)

(** The corner [int(n/2 - 50)] computed with the machine conversion of
    [n], and the test that it is [n / 2 - 50], the division rounding
    down. *)
Definition corner_of_side (n : Z) : Py.res Z :=
  Py.trunc (of_uint63 (Uint63Axioms.of_Z n) / 2 - 50)%float.

Definition corner_as_expected (n : Z) : bool :=
  match corner_of_side n with
  | Py.Val x => x =? n / 2 - 50
  | Py.Raise _ => false
  end.

(** The largest side of a capture area considered. *)
Definition MAX_SIDE : Z := 16384.

(** ** The capture calls of a run *)

Definition is_capture_call (c : call) : bool :=
  match c with
  | PrepareToCapture | RunCapture | StopCapture => true
  | _ => false
  end.

(** The calls made on the camera's capture, in the order they were made. *)
Definition capture_calls (w : World) : list call :=
  filter is_capture_call (log (SharpCap w)).

(** The capture calls of one cycle. *)
Definition cycle_captures (bidirectional : bool) : list call :=
  if bidirectional then
    [PrepareToCapture; RunCapture; StopCapture;
     PrepareToCapture; RunCapture; StopCapture]
  else [PrepareToCapture; RunCapture; StopCapture].

Definition settings_Bidirectional
  (s : Z * option coords * Z * Py.num * float * bool * string) : bool :=
  let '(_, _, _, _, _, b, _) := s in b.

Definition settings_NumCycles
  (s : Z * option coords * Z * Py.num * float * bool * string) : Z :=
  let '(n, _, _, _, _, _, _) := s in n.

(** The invariant "the settings of the run are [s] and the capture calls
    made so far are [k]". *)
Definition run_at
  (s : Z * option coords * Z * Py.num * float * bool * string)
  (k : list call) (w : World) : Prop :=
  has_settings s w /\ capture_calls w = k.

(** ** Reading the frame rate from the status line *)

(** [s.find(sub)]: the index of the first occurrence of [sub] in [s], or
    -1.  [i] is the index of the character [s] starts at. *)
Fixpoint find_from (sub s : string) (i : Z) : Z :=
  if String.prefix sub s then i
  else
    match s with
    | EmptyString => -1
    | String _ s' => find_from sub s' (i + 1)
    end.

Definition find (sub s : string) : Z := find_from sub s 0.

(** [s[a:b]]: a negative index counts from the end, and both are clipped
    to the text. *)
Definition slice (s : string) (a b : Z) : string :=
  let n := Z.of_nat (String.length s) in
  let clip i := if i <? 0 then Z.max 0 (i + n) else Z.min i n in
  substring (Z.to_nat (clip a)) (Z.to_nat (clip b - clip a)) s.

(** [s.strip(chars)], [p] telling the characters of [chars]. *)
Fixpoint strip_left (p : ascii -> bool) (s : string) : string :=
  match s with
  | String c s' => if p c then strip_left p s' else s
  | EmptyString => EmptyString
  end.

Fixpoint strip_right (p : ascii -> bool) (s : string) : string :=
  match s with
  | String c s' =>
      match strip_right p s' with
      | EmptyString => if p c then EmptyString else String c EmptyString
      | r => String c r
      end
  | EmptyString => EmptyString
  end.

(** The ASCII blanks [float] strips from both ends of its argument. *)
Definition is_blank (c : ascii) : bool :=
  let n := nat_of_ascii c in (n =? 32)%nat || ((9 <=? n)%nat && (n <=? 13)%nat).

(** [float(s)] with the blanks around the number. *)
Definition float_of_text (s : string) : Py.res float :=
  Py.parse_float (strip_right is_blank (strip_left is_blank s)).

(** [getCamFramerate], given the status line of the camera. *)
Definition getCamFramerate (status : string) : Py.res float :=
  let text := slice status (find ", " status + 2) (find " fps" status) in
  Py.bind (float_of_text text) (fun f => Py.Val (f * 1)%float).

Definition not_comma (c : ascii) : bool := negb (Ascii.eqb c ",").

(** A digit or the decimal point. *)
Definition is_number_char (c : ascii) : bool :=
  Py.is_digit c || Ascii.eqb c ".".

(** ** The bump rate box *)

Definition blank_or_x (c : ascii) : bool :=
  Ascii.eqb c " " || Ascii.eqb c "x".

(** [doBumpRateChange], given the item selected in the box. *)
Definition doBumpRateChange (item : string) (w : World) : Py.res World :=
  Py.bind (Py.parse_int (strip_right blank_or_x (strip_left blank_or_x item)))
          (fun n => Py.Val (upd_self (set_BumpRate n) w)).

(** The item [setupForm] selects in the box for a bump rate. *)
Definition bump_item (rate : Z) : string := (Py.str_int rate ++ "x")%string.

(** ** The countdown of the detector *)

(** The countdown is between 0 and [FrameInterval]. *)
Definition countdown_in_range (w : World) : Prop :=
  0 <= FrameCount (self w) <= FrameInterval (self w).

(** ** The progress bar and the cycle count *)

(** The value of the bar is within its bounds, as the control keeps it. *)
Definition bar_in_bounds (p : ProgressBar) : Prop :=
  Minimum p <= Value p <= Maximum p.

(** The bar is in bounds and its maximum is the cycle count, as lines 220
    and 233 leave them for every count that fits 32 bits. *)
Definition bar_follows_count (w : World) : Prop :=
  bar_in_bounds (progBar (self w))
  /\ (NumCycles (self w) <= 2147483647 ->
      Maximum (progBar (self w)) = NumCycles (self w)).

(** Every sleep among the calls made so far was for a duration
    [time.sleep] takes. *)
Definition sleeps_taken (w : World) : bool :=
  forallb (fun c => match c with Sleep d => sleep_takes d | _ => true end)
          (log (SharpCap w)).

(** The two task buttons and the progress bar. *)
Definition task_controls (w : World) : bool * bool * ProgressBar :=
  (goButton_Enabled (self w), abortButton_Enabled (self w), progBar (self w)).

(** * Properties *)

(** ** Binary64 comparisons *)

Lemma SFcompare_Lt_Gt (x y : spec_float) :
  SFcompare x y = Some Lt -> SFcompare y x = Some Gt.
Proof.
  destruct x as [sx|sx| |sx mx ex], y as [sy|sy| |sy my ey]; simpl;
    try discriminate;
    try (destruct sx; try destruct sy; simpl; congruence).
  pose proof (Pos.compare_cont_antisym mx my Eq) as A. simpl in A.
  destruct sx, sy; simpl; try congruence;
    rewrite (Z.compare_antisym ex ey);
    destruct (ex ?= ey); simpl; try congruence;
    rewrite <- A;
    destruct (Pos.compare_cont Eq mx my); simpl; congruence.
Qed.

Lemma ltb_asym (x y : float) :
  (x <? y)%float = true -> (y <? x)%float = false.
Proof.
  rewrite !ltb_spec. unfold SFltb. intros H.
  destruct (SFcompare (Prim2SF x) (Prim2SF y)) as [[ | | ]|] eqn:E;
    try discriminate.
  now rewrite (SFcompare_Lt_Gt _ _ E).
Qed.

(** ** The limb-crossing detector *)

(** A call with the countdown not at zero only counts down. *)
Lemma acquire_counts_down (fr : Frame) (w : World) :
  FrameCount (self w) <> 0 ->
  acquireFramehandler fr w =
  upd_self (set_FrameHandlingDone true)
           (upd_self (set_FrameCount (FrameCount (self w) - 1)) w).
Proof.
  intros H. unfold acquireFramehandler.
  destruct (Z.eqb_spec (FrameCount (self w)) 0); [contradiction | reflexivity].
Qed.

(** A call with the countdown at zero, still waiting for the positive
    transition, latches [PositiveSignal] on a sample above the threshold
    and rearms the countdown. *)
Lemma acquire_waiting_positive (mean : float) (w : World) :
  FrameCount (self w) = 0 -> PositiveSignal (self w) = false ->
  acquireFramehandler (flat_frame mean) w =
  upd_self (set_FrameHandlingDone true)
    (upd_self (set_FrameCount (FrameInterval (self w)))
       (upd_self (set_PositiveSignal (LimbThreshold (self w) <? mean)%float) w)).
Proof.
  intros H P. unfold acquireFramehandler. rewrite H, P. reflexivity.
Qed.

(** Once armed, it latches [EdgePassed] on a sample below the threshold. *)
Lemma acquire_waiting_negative (mean : float) (w : World) :
  FrameCount (self w) = 0 -> PositiveSignal (self w) = true ->
  EdgePassed (self w) = false ->
  acquireFramehandler (flat_frame mean) w =
  upd_self (set_FrameHandlingDone true)
    (upd_self (set_FrameCount (FrameInterval (self w)))
       (upd_self (set_EdgePassed (mean <? LimbThreshold (self w))%float) w)).
Proof.
  intros H P E. unfold acquireFramehandler. rewrite H, P, E. reflexivity.
Qed.

Lemma feed_cons (m : float) (rest : list float) (w : World) :
  feed (m :: rest) w
  = EdgePassed (self (acquireFramehandler (flat_frame m) w))
    :: feed rest (acquireFramehandler (flat_frame m) w).
Proof. reflexivity. Qed.

(** C2 (what the code does): with [FrameInterval = 1] the countdown lets
    every second call through, so of the samples below, below, above,
    above, below, below only the second, fourth and sixth are looked at,
    and [EdgePassed] is first true after the sixth sample, not the
    fifth. *)
Theorem gate_one_reaches_edge_at_sixth_sample
  (w : World) (b1 b2 a1 a2 b3 b4 : float) :
  FrameInterval (self w) = 1 ->
  below w b1 -> below w b2 -> above w a1 -> above w a2 ->
  below w b3 -> below w b4 ->
  feed [b1; b2; a1; a2; b3; b4] (detector_reset w)
  = [false; false; false; false; false; true].
Proof.
  unfold below, above. intros HN B1 B2 A1 A2 B3 B4.
  apply ltb_asym in B2.
  unfold detector_reset.
  rewrite feed_cons, acquire_counts_down by (simpl; lia).
  rewrite feed_cons, acquire_waiting_positive by (simpl; lia || reflexivity).
  simpl self. simpl LimbThreshold. simpl FrameCount. simpl FrameInterval.
  simpl EdgePassed. rewrite B2, HN.
  rewrite feed_cons, acquire_counts_down by (simpl; lia).
  rewrite feed_cons, acquire_waiting_positive by (simpl; lia || reflexivity).
  simpl self. simpl LimbThreshold. simpl FrameCount. simpl FrameInterval.
  simpl EdgePassed. rewrite A2, HN.
  rewrite feed_cons, acquire_counts_down by (simpl; lia).
  rewrite feed_cons, acquire_waiting_negative by (simpl; lia || reflexivity).
  simpl. rewrite B4. reflexivity.
Qed.

Lemma gate_one_reaches_edge_at_sixth_sample_witness :
  feed [0; 0; 10000; 10000; 0; 0]%float
       (detector_reset (upd_self (set_FrameInterval 1) (World_start 3840 2160)))
  = [false; false; false; false; false; true].
Proof.
  apply gate_one_reaches_edge_at_sixth_sample; reflexivity.
Defined.

(** With [FrameInterval = 0] every call is looked at, and the edge is
    reached at the fifth sample. *)
Lemma gate_zero_reaches_edge_at_fifth_sample
  (w : World) (b1 b2 a1 a2 b3 b4 : float) :
  FrameInterval (self w) = 0 ->
  below w b1 -> below w b2 -> above w a1 -> above w a2 ->
  below w b3 -> below w b4 ->
  feed [b1; b2; a1; a2; b3; b4] (detector_reset w)
  = [false; false; false; false; true; true].
Proof.
  unfold below, above. intros HN B1 B2 A1 A2 B3 B4.
  pose proof (ltb_asym _ _ B1) as B1'. pose proof (ltb_asym _ _ B2) as B2'.
  pose proof (ltb_asym _ _ A2) as A2'.
  unfold detector_reset.
  rewrite feed_cons, acquire_waiting_positive by (simpl; lia || reflexivity).
  simpl self. simpl LimbThreshold. simpl FrameCount. simpl FrameInterval.
  simpl EdgePassed. rewrite B1', HN.
  rewrite feed_cons, acquire_waiting_positive by (simpl; lia || reflexivity).
  simpl self. simpl LimbThreshold. simpl FrameCount. simpl FrameInterval.
  simpl EdgePassed. rewrite B2', HN.
  rewrite feed_cons, acquire_waiting_positive by (simpl; lia || reflexivity).
  simpl self. simpl LimbThreshold. simpl FrameCount. simpl FrameInterval.
  simpl EdgePassed. rewrite A1, HN.
  rewrite feed_cons, acquire_waiting_negative by (simpl; lia || reflexivity).
  simpl self. simpl LimbThreshold. simpl FrameCount. simpl FrameInterval.
  simpl EdgePassed. rewrite A2', HN.
  rewrite feed_cons, acquire_waiting_negative by (simpl; lia || reflexivity).
  simpl self. simpl LimbThreshold. simpl FrameCount. simpl FrameInterval.
  simpl EdgePassed. rewrite B3, HN.
  rewrite feed_cons. unfold acquireFramehandler. simpl. reflexivity.
Qed.

(** ** Integers as binary64 numbers *)

Lemma digits2_size (p : positive) : digits2_pos p = Pos.size p.
Proof. induction p; simpl; congruence. Qed.

Lemma digits2_bound (p : positive) :
  Zpos p < 2 ^ 53 -> Zpos (digits2_pos p) <= 53.
Proof.
  intros H. rewrite digits2_size.
  destruct (Z_le_gt_dec (Zpos (Pos.size p)) 53) as [L|G]; [exact L|exfalso].
  pose proof (Pos.size_le p) as S.
  assert (2 ^ 54 <= 2 ^ Zpos (Pos.size p)) as P by (apply Z.pow_le_mono_r; lia).
  assert (Zpos (2 ^ Pos.size p) = 2 ^ Zpos (Pos.size p)) as Q
      by apply Pos2Z.inj_pow.
  assert (Zpos (2 ^ Pos.size p) <= Zpos p~0) as R by exact S.
  rewrite Q in R. change (2 ^ 54) with 18014398509481984 in P.
  change (2 ^ 53) with 9007199254740992 in H. lia.
Qed.

Lemma digits2_iter_xO (k p : positive) :
  digits2_pos (Pos.iter xO p k) = (digits2_pos p + k)%positive.
Proof.
  induction k using Pos.peano_ind.
  - simpl. lia.
  - rewrite Pos.iter_succ. simpl. rewrite IHk. lia.
Qed.

(** An integer below 2^53 in magnitude is a finite binary64 number of the
    same sign: its mantissa is the integer shifted to 53 bits. *)
Lemma binary_round_small (s : bool) (p : positive) :
  Zpos p < 2 ^ 53 ->
  exists m e, binary_round prec emax s p 0 = S754_finite s m e
              /\ valid_binary (S754_finite s m e) = true.
Proof.
  intros H. apply digits2_bound in H.
  set (d := Zpos (digits2_pos p)) in *.
  assert (1 <= d) by (unfold d; lia).
  unfold binary_round.
  assert (F : forall e, -1000 <= e -> fexp prec emax e = e - 53).
  { intros e He. unfold fexp, SpecFloat.emin, prec, emax. lia. }
  rewrite F by lia. fold d.
  assert (exists mz, shl_align p 0 (d + 0 - 53) = (mz, d - 53)
                     /\ Zpos (digits2_pos mz) = 53) as (mz & -> & D).
  { unfold shl_align. replace (d + 0 - 53 - 0) with (d - 53) by lia.
    destruct (d - 53) as [|q|q] eqn:E; try lia.
    - exists p. split; [f_equal; lia| fold d; lia].
    - eexists. split; [f_equal; lia|]. rewrite digits2_iter_xO.
      rewrite Pos2Z.inj_add. fold d. lia. }
  clearbody d.
  assert (F' : fexp prec emax (53 + (d - 53)) - (d - 53) = 0)
    by (rewrite F; lia).
  unfold binary_round_aux, shr_fexp. simpl Zdigits2. rewrite D, F'.
  unfold shr at 1. cbv beta iota zeta.
  cbn [shr_record_of_loc loc_of_shr_record round_nearest_even shr_m Zdigits2].
  rewrite D, F'. unfold shr. cbn [shr_m].
  destruct (Z.leb_spec (d - 53) (emax - prec)) as [L|L];
    [|unfold emax, prec in L; lia].
  exists mz, (d - 53). split; [reflexivity|].
  unfold SpecFloat.valid_binary, bounded, canonical_mantissa.
  rewrite D, F by lia.
  replace (53 + (d - 53) - 53) with (d - 53) by lia.
  rewrite Z.eqb_refl. simpl. apply Z.leb_le. exact L.
Qed.

Lemma float_of_Z_finite (z : Z) :
  z <> 0 -> Z.abs z < 2 ^ 53 ->
  exists m e, Prim2SF (Py.float_of_Z z) = S754_finite (z <? 0) m e.
Proof.
  intros NZ B. unfold Py.float_of_Z.
  destruct z as [|p|p]; [congruence| |].
  - destruct (binary_round_small false p B) as (m & e & E & V).
    exists m, e. unfold binary_normalize. rewrite E.
    now apply Prim2SF_SF2Prim.
  - destruct (binary_round_small true p B) as (m & e & E & V).
    exists m, e. unfold binary_normalize. rewrite E.
    now apply Prim2SF_SF2Prim.
Qed.

Lemma is_zero_spec (x : float) :
  is_zero x = true <-> exists s, Prim2SF x = S754_zero s.
Proof.
  unfold is_zero. rewrite eqb_spec.
  change (Prim2SF zero) with (S754_zero false). unfold SFeqb.
  destruct (Prim2SF x) as [s|s| |s m e]; simpl; split;
    try (intros [? ?]); try discriminate; eauto;
    destruct s; discriminate.
Qed.

Lemma is_infinity_finite (x : float) (s : bool) (m : positive) (e : Z) :
  Prim2SF x = S754_finite s m e -> is_infinity x = false.
Proof.
  intros H. unfold is_infinity. rewrite eqb_spec, abs_spec, H.
  reflexivity.
Qed.

Lemma is_zero_finite (x : float) (s : bool) (m : positive) (e : Z) :
  Prim2SF x = S754_finite s m e -> is_zero x = false.
Proof.
  intros H. unfold is_zero. rewrite eqb_spec, H.
  destruct s; reflexivity.
Qed.

(** Converting an integer below 2^53 never overflows. *)
Lemma to_float_small (z : Z) :
  Z.abs z < 2 ^ 53 -> Py.to_float (Py.Int z) = Py.Val (Py.float_of_Z z).
Proof.
  intros B. unfold Py.to_float.
  destruct (Z.eq_dec z 0) as [->|NZ]; [reflexivity|].
  destruct (float_of_Z_finite z NZ B) as (m & e & E).
  now rewrite (is_infinity_finite _ _ _ _ E).
Qed.

(** A zero divided by a non-zero integer below 2^53 is a zero. *)
Lemma zero_div_small (x : float) (z : Z) :
  is_zero x = true -> z <> 0 -> Z.abs z < 2 ^ 53 ->
  is_zero (x / Py.float_of_Z z) = true.
Proof.
  intros Z0 NZ B. apply is_zero_spec in Z0 as [s Z0].
  destruct (float_of_Z_finite z NZ B) as (m & e & E).
  apply is_zero_spec. rewrite div_spec, Z0, E. simpl. eauto.
Qed.

Lemma zero_mul_120 (x : float) :
  is_zero x = true -> is_zero (- (x * Py.float_of_Z 120)) = true.
Proof.
  intros Z0. apply is_zero_spec in Z0 as [s Z0].
  apply is_zero_spec. rewrite opp_spec, mul_spec, Z0.
  change (Prim2SF (Py.float_of_Z 120)) with (S754_finite false 8444249301319680 (-46)).
  simpl. eauto.
Qed.

(** ** The width measurement *)

(** C7: a frame whose overall mean is below the threshold is reported as
    "Sun is not in frame" and nothing else happens: the handler ends
    before looking at any window (its result does not depend on the
    cutouts of the frame), and the stored sun width and decenter keep
    their values. *)
Theorem measureSun_sun_not_in_frame (fr : Frame) (w : World) :
  (GetStats_Item1 fr <? LimbThreshold (self w))%float = true ->
  measureSunFramehandler fr w
  = upd_self (set_FrameHandlingDone true)
             (ShowNotification_ SunNotInFrame Error w)
  /\ log (SharpCap (measureSunFramehandler fr w))
     = log (SharpCap w) ++ [ShowNotification SunNotInFrame Error]
  /\ SunWidth (self (measureSunFramehandler fr w)) = SunWidth (self w)
  /\ SunDecenter (self (measureSunFramehandler fr w)) = SunDecenter (self w)
  /\ forall fr' : Frame,
       GetStats_Item1 fr' = GetStats_Item1 fr ->
       measureSunFramehandler fr' w = measureSunFramehandler fr w.
Proof.
  intros H.
  assert (E : forall f, GetStats_Item1 f = GetStats_Item1 fr ->
                        measureSunFramehandler f w
                        = upd_self (set_FrameHandlingDone true)
                            (ShowNotification_ SunNotInFrame Error w)).
  { intros f Hf. unfold measureSunFramehandler. now rewrite Hf, H. }
  rewrite (E fr eq_refl). repeat split.
  intros fr' Hf. now apply E.
Qed.

Lemma measureSun_sun_not_in_frame_witness :
  SunWidth (self (measureSunFramehandler (flat_frame 0) (World_start 3840 2160)))
  = 2300.
Proof.
  pose proof (measureSun_sun_not_in_frame (flat_frame 0) (World_start 3840 2160))
    as H.
  destruct H as (_ & _ & H & _); [reflexivity|].
  rewrite H. reflexivity.
Defined.

Lemma all_from_spec (p : Z -> bool) (n : nat) (x : Z) :
  all_from p n x = true <-> forall i, x <= i < x + Z.of_nat n -> p i = true.
Proof.
  revert x. induction n as [|n IH]; intros x.
  - simpl. split; [intros _ i Hi; lia | reflexivity].
  - cbn [all_from]. rewrite andb_true_iff, IH. split.
    + intros [H0 H] i Hi. destruct (Z.eq_dec i x) as [->|]; [exact H0|].
      apply H. lia.
    + intros H. split; [apply H; lia|]. intros i Hi. apply H. lia.
Qed.

Lemma dark_not_bright (fr : Frame) (thr : float) (x : Z) :
  window_dark fr thr x = true -> window_bright fr thr x = false.
Proof.
  unfold window_dark, window_bright. destruct (window fr x); [|reflexivity].
  now intros ->.
Qed.

(** The scan from the left stops at the first window that is not dark. *)
Lemma find_startEdge_first (fr : Frame) (thr : float) (a : Z) :
  window_bright fr thr a = true ->
  forall (n : nat) (x : Z),
    x <= a < x + Z.of_nat n ->
    (forall i, x <= i < a -> window_readable fr i = true) ->
    exists s, find_startEdge fr thr n x = Py.Val s
              /\ x <= s <= a
              /\ window_bright fr thr s = true
              /\ forall i, x <= i < s -> window_dark fr thr i = true.
Proof.
  intros Ha. induction n as [|n IH]; intros x Hx Hr; [lia|].
  cbn [find_startEdge]. fold (window fr x).
  destruct (Z.eq_dec x a) as [->|Hne].
  - pose proof Ha as Ha'. unfold window_bright in Ha'.
    destruct (window fr a) as [m|]; [|discriminate].
    destruct (m <? thr)%float eqn:E; [discriminate|].
    exists a. repeat split; try lia. exact Ha.
  - pose proof (Hr x ltac:(lia)) as R. unfold window_readable in R.
    destruct (window fr x) as [m|] eqn:W; [|discriminate].
    destruct (m <? thr)%float eqn:E.
    + destruct (IH (x + 1)) as (s & F & B & Hs & D); [lia| |].
      * intros i Hi. apply Hr. lia.
      * exists s. repeat split; try lia; try assumption.
        intros i Hi. destruct (Z.eq_dec i x) as [->|];
          [unfold window_dark; now rewrite W | apply D; lia].
    + exists x. repeat split; try lia.
      unfold window_bright. now rewrite W, E.
Qed.

(** The scan from the right stops at the last window that is not dark. *)
Lemma find_endEdge_last (fr : Frame) (thr : float) (b : Z) :
  window_bright fr thr b = true ->
  forall (n : nat) (x : Z),
    x - Z.of_nat n < b <= x ->
    (forall i, b < i <= x -> window_readable fr i = true) ->
    exists e, find_endEdge fr thr n x = Py.Val e
              /\ b <= e <= x
              /\ window_bright fr thr e = true
              /\ forall i, e < i <= x -> window_dark fr thr i = true.
Proof.
  intros Hb. induction n as [|n IH]; intros x Hx Hr; [lia|].
  cbn [find_endEdge]. fold (window fr x).
  destruct (Z.eq_dec x b) as [->|Hne].
  - pose proof Hb as Hb'. unfold window_bright in Hb'.
    destruct (window fr b) as [m|]; [|discriminate].
    destruct (m <? thr)%float eqn:E; [discriminate|].
    exists b. repeat split; try lia. exact Hb.
  - pose proof (Hr x ltac:(lia)) as R. unfold window_readable in R.
    destruct (window fr x) as [m|] eqn:W; [|discriminate].
    destruct (m <? thr)%float eqn:E.
    + destruct (IH (x - 1)) as (e & F & B & He & D); [lia| |].
      * intros i Hi. apply Hr. lia.
      * exists e. repeat split; try lia; try assumption.
        intros i Hi. destruct (Z.eq_dec i x) as [->|];
          [unfold window_dark; now rewrite W | apply D; lia].
    + exists x. repeat split; try lia.
      unfold window_bright. now rewrite W, E.
Qed.

(** The decenter expression, when every integer in it is below 2^53. *)
Lemma decenter_of_small (width s imgWidth : Z) :
  Z.abs width < 2 ^ 53 -> Z.abs s < 2 ^ 53 -> Z.abs (imgWidth + 10) < 2 ^ 53 ->
  decenter_of width s imgWidth
  = Py.Val (Py.Flt (decenter_value width s (imgWidth + 10))).
Proof.
  intros B1 B2 B3. unfold decenter_of, decenter_value.
  assert (T : forall z, Z.abs z < 2 ^ 53 ->
                        Py.truediv (Py.Int z) (Py.Int 2)
                        = Py.Val (Py.Flt (Py.float_of_Z z / 2))).
  { intros z B. unfold Py.truediv. rewrite (to_float_small z B). reflexivity. }
  assert (A : forall f z, Z.abs z < 2 ^ 53 ->
                          Py.add (Py.Flt f) (Py.Int z)
                          = Py.Val (Py.Flt (f + Py.float_of_Z z))).
  { intros f z B. unfold Py.add.
    change (Py.to_float (Py.Flt f)) with (Py.Val f). cbn [Py.bind].
    rewrite (to_float_small z B). reflexivity. }
  rewrite (T width B1). cbn [Py.bind]. rewrite (A _ s B2). cbn [Py.bind].
  rewrite (T _ B3). reflexivity.
Qed.

(** C6 (as amended): on a frame whose overall mean is not below the
    threshold and that shows one bright band over the columns
    [a <= x < a + bw], with [10 <= a], [20 <= bw] and the band inside the
    frame, the measurement stores [endEdge - startEdge] as the width and
    [(width/2 + startEdge) - imageWidth/2] as the decenter, where
    [startEdge] and [endEdge] are the left columns of the first 10x100
    windows reaching the threshold met from the left and from the right.
    These lie within a window width of the band's edges
    ([a - 9 <= startEdge <= a] and [a + bw - 10 <= endEdge <= a + bw - 1]),
    so the width stored is between [bw - 10] and [bw + 8].  When one of
    the two edges is not found (is not positive) the width stored is the
    default 2300. *)
Theorem measureSun_band_width :
  (forall (fr : Frame) (w : World) (a bw : Z),
      let thr := LimbThreshold (self w) in
      let width := ROI_Width (SharpCap w) in
      (GetStats_Item1 fr <? thr)%float = false ->
      10 <= a -> 20 <= bw -> a + bw <= width -> width < 2 ^ 53 ->
      one_bright_band fr thr width a bw = true ->
      exists startEdge endEdge : Z,
        (window_bright fr thr startEdge = true
         /\ forall i, 0 <= i < startEdge -> window_dark fr thr i = true)
        /\ (window_bright fr thr endEdge = true
            /\ forall i, endEdge < i <= width - 10 ->
                         window_dark fr thr i = true)
        /\ a - 9 <= startEdge <= a
        /\ a + bw - 10 <= endEdge <= a + bw - 1
        /\ SunWidth (self (measureSunFramehandler fr w)) = endEdge - startEdge
        /\ SunDecenter (self (measureSunFramehandler fr w))
           = Py.Flt (decenter_value (endEdge - startEdge) startEdge width)
        /\ bw - 10 <= SunWidth (self (measureSunFramehandler fr w)) <= bw + 8)
  /\
  (forall (fr : Frame) (w : World) (startEdge endEdge : Z),
      let thr := LimbThreshold (self w) in
      let imgWidth := ROI_Width (SharpCap w) - 10 in
      (GetStats_Item1 fr <? thr)%float = false ->
      find_startEdge fr thr (Z.to_nat imgWidth) 0 = Py.Val startEdge ->
      find_endEdge fr thr (Z.to_nat (imgWidth + 1)) imgWidth = Py.Val endEdge ->
      (0 <? startEdge) && (0 <? endEdge) = false ->
      SunWidth (self (measureSunFramehandler fr w)) = DEFAULT_SUN_WIDTH).
Proof.
  split.
  - intros fr w a bw thr width Hm Ha Hbw Hin Hsmall Hband.
    unfold one_bright_band in Hband.
    apply andb_true_iff in Hband as [Hband DR].
    apply andb_true_iff in Hband as [Hband BR].
    apply andb_true_iff in Hband as [DL RD].
    rewrite all_from_spec in DL, RD, BR, DR.
    assert (Ba : window_bright fr thr a = true) by (apply BR; lia).
    assert (Bb : window_bright fr thr (a + bw - 10) = true) by (apply BR; lia).
    destruct (find_startEdge_first fr thr a Ba (Z.to_nat (width - 10)) 0)
      as (s & Fs & Bs & Hs & Ds).
    { lia. }
    { intros i Hi. apply RD. lia. }
    destruct (find_endEdge_last fr thr (a + bw - 10) Bb
                (Z.to_nat (width - 10 + 1)) (width - 10))
      as (e & Fe & Be & He & De).
    { lia. }
    { intros i Hi. apply RD. lia. }
    assert (a - 9 <= s).
    { destruct (Z_le_gt_dec (a - 9) s) as [L|G]; [exact L|].
      rewrite (dark_not_bright fr thr s) in Hs; [discriminate|].
      apply DL. lia. }
    assert (e <= a + bw - 1).
    { destruct (Z_le_gt_dec e (a + bw - 1)) as [L|G]; [exact L|].
      rewrite (dark_not_bright fr thr e) in He; [discriminate|].
      apply DR. lia. }
    assert (R : measureSunFramehandler fr w
                = upd_self (set_FrameHandlingDone true)
                    (upd_self (set_SunDecenter
                                 (Py.Flt (decenter_value (e - s) s width)))
                       (upd_self (set_SunWidth (e - s)) w))).
    { unfold measureSunFramehandler. fold thr. fold width. rewrite Hm, Fs, Fe.
      destruct (Z.ltb_spec 0 s); [|lia]. destruct (Z.ltb_spec 0 e); [|lia].
      cbn [andb]. cbn [self upd_self SunWidth set_SunWidth].
      rewrite decenter_of_small by lia.
      replace (width - 10 + 10) with width by lia. reflexivity. }
    exists s, e. rewrite R. cbn. repeat split; try assumption; lia.
  - intros fr w s e thr imgWidth Hm Fs Fe Hno.
    unfold measureSunFramehandler. fold thr. fold imgWidth.
    rewrite Hm, Fs, Fe, Hno. reflexivity.
Qed.

Lemma measureSun_band_width_witness :
  exists startEdge endEdge : Z,
    15 - 9 <= startEdge <= 15
    /\ 15 + 20 - 10 <= endEdge <= 15 + 20 - 1
    /\ SunWidth (self (measureSunFramehandler (band_frame 60 100 15 20 65535 0)
                         (World_start 60 100)))
       = endEdge - startEdge.
Proof.
  destruct (proj1 measureSun_band_width
              (band_frame 60 100 15 20 65535 0) (World_start 60 100) 15 20)
    as (s & e & _ & _ & Hs & He & Hw & _).
  all: try lia.
  - vm_compute. reflexivity.
  - simpl. lia.
  - simpl. lia.
  - vm_compute. reflexivity.
  - exists s, e. repeat split; lia.
Defined.

(** C6 (as stated) fails: a band 100 columns wide, saturated over a dark
    background, in a frame 200 columns wide, is measured 108 columns wide
    with a decenter of -5, although it sits in the middle of the frame. *)
Lemma measureSun_band_not_within_one_pixel :
  let fr := band_frame 200 100 50 100 65535 0 in
  let w := World_start 200 100 in
  (GetStats_Item1 fr <? LimbThreshold (self w))%float = false
  /\ SunWidth (self (measureSunFramehandler fr w)) = 108
  /\ ~ (Z.abs (SunWidth (self (measureSunFramehandler fr w)) - 100) <= 1)
  /\ SunDecenter (self (measureSunFramehandler fr w)) = Py.Flt (-5)
  /\ decenter_value 100 50 200 = 0%float.
Proof.
  assert (E : measureSunFramehandler (band_frame 200 100 50 100 65535 0)
                                     (World_start 200 100)
              = upd_self (set_FrameHandlingDone true)
                  (upd_self (set_SunDecenter (Py.Flt (-5)))
                     (upd_self (set_SunWidth 108) (World_start 200 100))))
    by (vm_compute; reflexivity).
  cbv zeta. rewrite E. cbn [self upd_self SunWidth SunDecenter set_SunWidth
                            set_SunDecenter set_FrameHandlingDone].
  repeat split; try (vm_compute; reflexivity). lia.
Qed.

(** ** Events during a slew *)

Lemma acquire_blank (fr : Frame) (w : World) :
  blank_transient (acquireFramehandler fr w) = blank_transient w.
Proof.
  unfold acquireFramehandler.
  destruct (FrameCount (self w) =? 0); [|reflexivity].
  destruct (CutROI_Item1 fr _); [|reflexivity].
  destruct (negb (PositiveSignal (self w))); [reflexivity|].
  destruct (negb (EdgePassed (self w))); reflexivity.
Qed.

Lemma DoBump_blank (requested : Z) (w : World) :
  AmSlewing (self w) = true ->
  blank_transient (DoBump requested w) = blank_transient w.
Proof.
  intros H. unfold DoBump. cbn [self upd_self BumpSwap set_BumpSlew].
  destruct (BumpSwap (self w)); cbn [self upd_self AmSlewing set_BumpSlew];
    rewrite H; reflexivity.
Qed.

Lemma blank_AmSlewing (w w' : World) :
  blank_transient w' = blank_transient w ->
  AmSlewing (self w') = AmSlewing (self w).
Proof.
  intros H. change (AmSlewing (self (blank_transient w'))
                    = AmSlewing (self (blank_transient w))).
  now rewrite H.
Qed.

Lemma blank_FrameCaptured (w w' : World) :
  blank_transient w' = blank_transient w ->
  FrameCaptured (SharpCap w') = FrameCaptured (SharpCap w).
Proof.
  intros H. change (FrameCaptured (SharpCap (blank_transient w'))
                    = FrameCaptured (SharpCap (blank_transient w))).
  now rewrite H.
Qed.

Lemma blank_log (w w' : World) :
  blank_transient w' = blank_transient w ->
  log (SharpCap w') = log (SharpCap w).
Proof.
  intros H. change (log (SharpCap (blank_transient w'))
                    = log (SharpCap (blank_transient w))).
  now rewrite H.
Qed.

Lemma blank_AxisToMove (w w' : World) :
  blank_transient w' = blank_transient w ->
  AxisToMove (self w') = AxisToMove (self w).
Proof.
  intros H. change (AxisToMove (self (blank_transient w'))
                    = AxisToMove (self (blank_transient w))).
  now rewrite H.
Qed.

Lemma blank_SlewPad (w w' : World) :
  blank_transient w' = blank_transient w ->
  SlewPad (self w') = SlewPad (self w).
Proof.
  intros H. change (SlewPad (self (blank_transient w'))
                    = SlewPad (self (blank_transient w))).
  now rewrite H.
Qed.

Lemma fire_acquire_blank (fr : Frame) (hs : list handler) (w : World) :
  Forall (fun h => h = h_acquireFramehandler) hs ->
  blank_transient (fold_left (run_handler fr) hs w) = blank_transient w.
Proof.
  intros H. revert w. induction H as [|h hs -> _ IH]; intros w; [reflexivity|].
  cbn [fold_left run_handler]. rewrite IH. apply acquire_blank.
Qed.

(** While [AmSlewing] is set and no measurement runs, an event changes
    nothing but the transient fields: in particular it makes no call on
    the mount or the camera. *)
Lemma deliver1_blank (w : World) (ev : event) :
  AmSlewing (self w) = true -> only_acquire w ->
  blank_transient (deliver1 w ev) = blank_transient w.
Proof.
  intros A O. destruct ev; cbn [deliver1].
  - now apply fire_acquire_blank.
  - reflexivity.
  - now apply DoBump_blank.
  - now apply DoBump_blank.
  - now apply DoBump_blank.
  - now apply DoBump_blank.
  - reflexivity.
  - reflexivity.
Qed.

Lemma deliver_blank (evs : list event) (w : World) :
  AmSlewing (self w) = true -> only_acquire w ->
  blank_transient (deliver evs w) = blank_transient w.
Proof.
  revert w. unfold deliver.
  induction evs as [|ev evs IH]; intros w A O; [reflexivity|].
  cbn [fold_left].
  pose proof (deliver1_blank w ev A O) as B.
  rewrite IH; [exact B | |].
  - now rewrite (blank_AmSlewing _ _ B).
  - unfold only_acquire. now rewrite (blank_FrameCaptured _ _ B).
Qed.

(** ** Calls and the log *)

Lemma self_record (c : call) (w : World) : self (record c w) = self w.
Proof. reflexivity. Qed.

Lemma self_MoveAxis (axis : Z) (rate : Py.num) (w : World) :
  self (Mount_MoveAxis axis rate w) = self w.
Proof. reflexivity. Qed.

Lemma self_ShowNotification (t : string) (st : NotificationStatus) (w : World) :
  self (ShowNotification_ t st w) = self w.
Proof. reflexivity. Qed.

Lemma self_subscribe (h : handler) (w : World) : self (subscribe h w) = self w.
Proof. reflexivity. Qed.

Lemma self_unsubscribe (h : handler) (w : World) :
  self (unsubscribe h w) = self w.
Proof. reflexivity. Qed.

Lemma log_record (c : call) (w : World) :
  log (SharpCap (record c w)) = log (SharpCap w) ++ [c].
Proof. reflexivity. Qed.

Lemma log_MoveAxis (axis : Z) (rate : Py.num) (w : World) :
  log (SharpCap (Mount_MoveAxis axis rate w))
  = log (SharpCap w) ++ [MoveAxis axis rate].
Proof. reflexivity. Qed.

Lemma log_ShowNotification (t : string) (st : NotificationStatus) (w : World) :
  log (SharpCap (ShowNotification_ t st w))
  = log (SharpCap w) ++ [ShowNotification t st].
Proof. reflexivity. Qed.

Lemma log_upd_self (f : SHGForm -> SHGForm) (w : World) :
  log (SharpCap (upd_self f w)) = log (SharpCap w).
Proof. reflexivity. Qed.

Lemma log_subscribe (h : handler) (w : World) :
  log (SharpCap (subscribe h w)) = log (SharpCap w).
Proof. reflexivity. Qed.

Lemma log_unsubscribe (h : handler) (w : World) :
  log (SharpCap (unsubscribe h w)) = log (SharpCap w).
Proof. reflexivity. Qed.

Lemma subscribers_record (c : call) (w : World) :
  FrameCaptured (SharpCap (record c w)) = FrameCaptured (SharpCap w).
Proof. reflexivity. Qed.

Lemma subscribers_MoveAxis (axis : Z) (rate : Py.num) (w : World) :
  FrameCaptured (SharpCap (Mount_MoveAxis axis rate w))
  = FrameCaptured (SharpCap w).
Proof. reflexivity. Qed.

Lemma subscribers_ShowNotification
  (t : string) (st : NotificationStatus) (w : World) :
  FrameCaptured (SharpCap (ShowNotification_ t st w))
  = FrameCaptured (SharpCap w).
Proof. reflexivity. Qed.

Lemma subscribers_upd_self (f : SHGForm -> SHGForm) (w : World) :
  FrameCaptured (SharpCap (upd_self f w)) = FrameCaptured (SharpCap w).
Proof. reflexivity. Qed.

Lemma subscribers_subscribe (h : handler) (w : World) :
  FrameCaptured (SharpCap (subscribe h w)) = FrameCaptured (SharpCap w) ++ [h].
Proof. reflexivity. Qed.

Lemma subscribers_unsubscribe (h : handler) (w : World) :
  FrameCaptured (SharpCap (unsubscribe h w))
  = remove_last h (FrameCaptured (SharpCap w)).
Proof. reflexivity. Qed.

Create Rewrite HintDb world.
#[local] Hint Rewrite self_record self_MoveAxis self_ShowNotification
  self_subscribe self_unsubscribe log_record log_MoveAxis
  log_ShowNotification log_upd_self log_subscribe log_unsubscribe
  subscribers_record subscribers_MoveAxis subscribers_ShowNotification
  subscribers_upd_self subscribers_subscribe subscribers_unsubscribe : world.

Lemma handler_eqb_refl (h : handler) : handler_eqb h h = true.
Proof. destruct h; reflexivity. Qed.

(** Unsubscribing what was subscribed last gives the list back. *)
Lemma remove_last_app (h : handler) (l : list handler) :
  remove_last h (l ++ [h]) = l.
Proof.
  unfold remove_last. rewrite rev_app_distr. cbn [rev app remove_first].
  rewrite handler_eqb_refl. apply rev_involutive.
Qed.

(** ** The phases of [SlewPastLimb] *)

Lemma slew_start_eq (rate : Py.num) (c : float) (e : env) (w : World) :
  Py.copysign (SlewFactor (self w)) rate = Py.Val c ->
  slew_start rate e w
  = (Ret (SlewFactor (self w), now (SharpCap w)), slew_started rate w, e).
Proof.
  intros H. unfold slew_start, mbind, modify, gets, lift, time_time, ret.
  change (SlewFactor (self (upd_self _ _))) with (SlewFactor (self w)).
  rewrite H. reflexivity.
Qed.

Lemma slew_started_AmSlewing (rate : Py.num) (w : World) :
  AmSlewing (self (slew_started rate w)) = true.
Proof. reflexivity. Qed.

Lemma slew_started_only_acquire (rate : Py.num) (w : World) :
  only_acquire w -> only_acquire (slew_started rate w).
Proof.
  unfold only_acquire, slew_started. autorewrite with world.
  intros H. apply Forall_app. split; [exact H|]. now constructor.
Qed.

Lemma slew_started_log (rate : Py.num) (w : World) :
  log (SharpCap (slew_started rate w))
  = log (SharpCap w) ++ [MoveAxis (AxisToMove (self w)) rate].
Proof. reflexivity. Qed.

Lemma slew_started_subscribers (rate : Py.num) (w : World) :
  FrameCaptured (SharpCap (slew_started rate w))
  = FrameCaptured (SharpCap w) ++ [h_acquireFramehandler].
Proof. reflexivity. Qed.

(** Polls that see nothing leave the loop where it was. *)
Lemma wait_keep (rate : Py.num) (t0 : float) (pre e : env) (w wk : World) :
  keep_waiting t0 pre w = Some wk ->
  wait_past_limb rate t0 (pre ++ e) w = wait_past_limb rate t0 e wk.
Proof.
  revert w. induction pre as [|b pre IH]; intros w H.
  - cbn in H. now injection H as ->.
  - cbn [keep_waiting] in H. cbn [app wait_past_limb].
    destruct (EdgePassed (self (deliver b w))); [discriminate|].
    destruct (TaskAbortFlag (self (deliver b w))); [discriminate|].
    cbn [orb] in H.
    destruct (Py.gt _ _); [discriminate|]. now apply IH.
Qed.

Lemma keep_waiting_blank (t0 : float) (pre : env) (w wk : World) :
  AmSlewing (self w) = true -> only_acquire w ->
  keep_waiting t0 pre w = Some wk ->
  blank_transient wk = blank_transient w.
Proof.
  revert w. induction pre as [|b pre IH]; intros w A O H.
  - cbn in H. now injection H as ->.
  - cbn [keep_waiting] in H.
    destruct (_ || _ || _); [discriminate|].
    pose proof (deliver_blank b w A O) as B.
    assert (A' : AmSlewing (self (deliver b w)) = true)
      by now rewrite (blank_AmSlewing _ _ B).
    assert (O' : only_acquire (deliver b w))
      by (unfold only_acquire; now rewrite (blank_FrameCaptured _ _ B)).
    now rewrite (IH _ A' O' H).
Qed.

Lemma slew_finished_log (w : World) :
  log (SharpCap (slew_finished w)) = log (SharpCap w) ++ bump_calls w.
Proof.
  unfold slew_finished, bump_calls. rewrite log_upd_self.
  destruct (BumpSlew (self w) =? 0); cbn [negb].
  - now rewrite app_nil_r.
  - unfold DoBumpSlew. autorewrite with world.
    rewrite <- !app_assoc. reflexivity.
Qed.

Lemma slew_finished_subscribers (w : World) :
  FrameCaptured (SharpCap (slew_finished w)) = FrameCaptured (SharpCap w).
Proof.
  unfold slew_finished. rewrite subscribers_upd_self.
  destruct (negb _); reflexivity.
Qed.

Lemma slew_finished_EdgePassed (w : World) :
  EdgePassed (self (slew_finished w)) = EdgePassed (self w).
Proof. unfold slew_finished. destruct (negb _); reflexivity. Qed.

Lemma slew_finished_AmSlewing (w : World) :
  AmSlewing (self (slew_finished w)) = false.
Proof. reflexivity. Qed.


Lemma slewing_blank (w w' : World) :
  blank_transient w' = blank_transient w -> slewing w -> slewing w'.
Proof.
  intros B [A O]. split.
  - now rewrite (blank_AmSlewing _ _ B).
  - unfold only_acquire. now rewrite (blank_FrameCaptured _ _ B).
Qed.

Lemma slewing_started (rate : Py.num) (w : World) :
  only_acquire w -> slewing (slew_started rate w).
Proof.
  intros O. split; [reflexivity | now apply slew_started_only_acquire].
Qed.

Lemma slewing_deliver (evs : list event) (w : World) :
  slewing w ->
  blank_transient (deliver evs w) = blank_transient w
  /\ slewing (deliver evs w).
Proof.
  intros S. pose proof (deliver_blank evs w (proj1 S) (proj2 S)) as B.
  split; [exact B | exact (slewing_blank _ _ B S)].
Qed.

Lemma slewing_kept (t0 : float) (pre : env) (w wk : World) :
  slewing w -> keep_waiting t0 pre w = Some wk ->
  blank_transient wk = blank_transient w /\ slewing wk.
Proof.
  intros S K. pose proof (keep_waiting_blank t0 pre w wk (proj1 S) (proj2 S) K) as B.
  split; [exact B | exact (slewing_blank _ _ B S)].
Qed.







(** The frame handler stays subscribed during the reverse slew of the
    timeout branch: when the reverse slew leaves the disk the detector
    latches, and the call that timed out returns [True] after a pad
    slew. *)
Lemma SlewPastLimb_timeout_can_return_true :
  let w := upd_self (set_SlewFactor (Py.Flt (-0.5))) (World_start 3840 2160) in
  let bright := FrameArrives (flat_frame 10000) in
  let dark := FrameArrives (flat_frame 0) in
  let run := SlewPastLimb (Py.Flt 0.5)
               [repeat bright 11 ++ [ClockReads 30.5]; repeat dark 11; []] w in
  fst (fst run) = Ret true
  /\ log (SharpCap (snd (fst run)))
     = [MoveAxis 0 (Py.Flt 0.5);
        ShowNotification LimbTimeout Error;
        MoveAxis 0 (Py.Int 0);
        MoveAxis 0 (Py.Flt (-0.5));
        Sleep (Py.Int 30);
        MoveAxis 0 (Py.Int 0);
        MoveAxis 0 (Py.Flt (-0.5));
        Sleep (Py.Flt 0.5);
        MoveAxis 0 (Py.Int 0)].
Proof. vm_compute. repeat split. Qed.

(** ** The edge and abort exits of [SlewPastLimb] *)

Lemma wait_edge (rate : Py.num) (t0 : float) (b : list event) (rest : env)
  (wk : World) :
  EdgePassed (self (deliver b wk)) = true ->
  wait_past_limb rate t0 (b :: rest) wk = (Ret ConditionFalse, deliver b wk, rest).
Proof. intros E. cbn [wait_past_limb]. now rewrite E. Qed.

Lemma wait_abort (rate : Py.num) (t0 : float) (b : list event) (rest : env)
  (wk : World) :
  EdgePassed (self (deliver b wk)) = false ->
  TaskAbortFlag (self (deliver b wk)) = true ->
  wait_past_limb rate t0 (b :: rest) wk = (Ret (Return false), deliver b wk, rest).
Proof. intros E A. cbn [wait_past_limb]. now rewrite E, A. Qed.

(** The statements after the loop when the edge was seen: the handler is
    released, the pad slew runs at [pad_rate] for [SlewPad] seconds and the
    axis is stopped. *)
Lemma slew_finish_edge (pad_rate : Py.num) (during : list event) (rest : env)
  (w : World) :
  EdgePassed (self w) = true ->
  slew_finish pad_rate (during :: rest) w
  = (Ret (EdgePassed (self (deliver during (slew_padding pad_rate w)))),
     slew_finished
       (Mount_MoveAxis
          (AxisToMove (self (deliver during (slew_padding pad_rate w))))
          (Py.Int 0)
          (deliver during (slew_padding pad_rate w))),
     rest).
Proof.
  intros H.
  unfold slew_finish, time_sleep, observe. unfold mbind, modify, gets, ret.
  rewrite self_unsubscribe, H. cbv beta iota.
  fold (slew_padding pad_rate w).
  set (wp := deliver during (slew_padding pad_rate w)).
  unfold slew_finished. rewrite self_MoveAxis.
  destruct (negb (BumpSlew (self wp) =? 0)); reflexivity.
Qed.

Lemma slew_padding_log (pad_rate : Py.num) (w : World) :
  log (SharpCap (slew_padding pad_rate w))
  = log (SharpCap w)
    ++ [MoveAxis (AxisToMove (self w)) pad_rate;
        Sleep (Py.Flt (SlewPad (self w)))].
Proof.
  unfold slew_padding. cbv zeta. autorewrite with world.
  rewrite <- !app_assoc. reflexivity.
Qed.

Lemma acquire_keeps_EdgePassed (fr : Frame) (w : World) :
  EdgePassed (self w) = true ->
  EdgePassed (self (acquireFramehandler fr w)) = true.
Proof.
  intros H. unfold acquireFramehandler.
  destruct (FrameCount (self w) =? 0); [|exact H].
  destruct (CutROI_Item1 fr _); [|exact H].
  destruct (negb (PositiveSignal (self w))); [exact H|].
  rewrite H. exact H.
Qed.

Lemma fire_acquire_keeps_EdgePassed (fr : Frame) (hs : list handler) (w : World) :
  Forall (fun h => h = h_acquireFramehandler) hs ->
  EdgePassed (self w) = true ->
  EdgePassed (self (fold_left (run_handler fr) hs w)) = true.
Proof.
  intros H. revert w. induction H as [|h hs -> _ IH]; intros w E; [exact E|].
  cbn [fold_left run_handler]. apply IH. now apply acquire_keeps_EdgePassed.
Qed.

Lemma DoBump_EdgePassed (requested : Z) (w : World) :
  EdgePassed (self (DoBump requested w)) = EdgePassed (self w).
Proof.
  unfold DoBump. cbn [self upd_self BumpSwap set_BumpSlew].
  destruct (BumpSwap (self w)); cbn [self upd_self AmSlewing set_BumpSlew];
    destruct (negb (AmSlewing (self w))); reflexivity.
Qed.

Lemma DoBump_subscribers (requested : Z) (w : World) :
  FrameCaptured (SharpCap (DoBump requested w)) = FrameCaptured (SharpCap w).
Proof.
  unfold DoBump. cbn [self upd_self BumpSwap set_BumpSlew].
  destruct (BumpSwap (self w)); cbn [self upd_self AmSlewing set_BumpSlew];
    destruct (negb (AmSlewing (self w))); reflexivity.
Qed.

Lemma acquire_subscribers (fr : Frame) (w : World) :
  FrameCaptured (SharpCap (acquireFramehandler fr w))
  = FrameCaptured (SharpCap w).
Proof.
  unfold acquireFramehandler.
  destruct (FrameCount (self w) =? 0); [|reflexivity].
  destruct (CutROI_Item1 fr _); [|reflexivity].
  destruct (negb (PositiveSignal (self w))); [reflexivity|].
  destruct (negb (EdgePassed (self w))); reflexivity.
Qed.

Lemma measureSun_subscribers (fr : Frame) (w : World) :
  FrameCaptured (SharpCap (measureSunFramehandler fr w))
  = FrameCaptured (SharpCap w).
Proof.
  unfold measureSunFramehandler.
  destruct (_ <? _)%float; [reflexivity|].
  destruct (find_startEdge _ _ _ _); [|reflexivity].
  destruct (find_endEdge _ _ _ _); [|reflexivity].
  destruct (_ && _); [|reflexivity].
  destruct (decenter_of _ _ _); reflexivity.
Qed.

Lemma fire_subscribers (fr : Frame) (hs : list handler) (w : World) :
  FrameCaptured (SharpCap (fold_left (run_handler fr) hs w))
  = FrameCaptured (SharpCap w).
Proof.
  revert w. induction hs as [|h hs IH]; intros w; [reflexivity|].
  cbn [fold_left]. rewrite IH.
  destruct h; [apply acquire_subscribers | apply measureSun_subscribers].
Qed.

(** No event changes who is subscribed to the camera. *)
Lemma deliver1_subscribers (w : World) (ev : event) :
  FrameCaptured (SharpCap (deliver1 w ev)) = FrameCaptured (SharpCap w).
Proof.
  destruct ev; cbn [deliver1].
  - apply fire_subscribers.
  - reflexivity.
  - apply DoBump_subscribers.
  - apply DoBump_subscribers.
  - apply DoBump_subscribers.
  - apply DoBump_subscribers.
  - reflexivity.
  - reflexivity.
Qed.

Lemma deliver_subscribers (evs : list event) (w : World) :
  FrameCaptured (SharpCap (deliver evs w)) = FrameCaptured (SharpCap w).
Proof.
  revert w. unfold deliver. induction evs as [|ev evs IH]; intros w;
    [reflexivity|].
  cbn [fold_left]. rewrite IH. apply deliver1_subscribers.
Qed.

(** Once latched, [EdgePassed] stays latched until the next slew resets
    it. *)
Lemma deliver_keeps_EdgePassed (evs : list event) (w : World) :
  only_acquire w -> EdgePassed (self w) = true ->
  EdgePassed (self (deliver evs w)) = true.
Proof.
  revert w. unfold deliver.
  induction evs as [|ev evs IH]; intros w O E; [exact E|].
  cbn [fold_left]. apply IH.
  - unfold only_acquire. now rewrite deliver1_subscribers.
  - destruct ev; cbn [deliver1].
    + now apply fire_acquire_keeps_EdgePassed.
    + exact E.
    + unfold DoBumpL. now rewrite DoBump_EdgePassed.
    + unfold DoBumpLFast. now rewrite DoBump_EdgePassed.
    + unfold DoBumpR. now rewrite DoBump_EdgePassed.
    + unfold DoBumpRFast. now rewrite DoBump_EdgePassed.
    + exact E.
    + exact E.
Qed.

Lemma DoBump_AmSlewing (requested : Z) (w : World) :
  AmSlewing (self (DoBump requested w)) = AmSlewing (self w).
Proof.
  unfold DoBump. cbn [self upd_self BumpSwap set_BumpSlew].
  destruct (BumpSwap (self w)); cbn [self upd_self AmSlewing set_BumpSlew];
    destruct (negb (AmSlewing (self w))); reflexivity.
Qed.

Lemma acquire_AmSlewing (fr : Frame) (w : World) :
  AmSlewing (self (acquireFramehandler fr w)) = AmSlewing (self w).
Proof.
  unfold acquireFramehandler.
  destruct (FrameCount (self w) =? 0); [|reflexivity].
  destruct (CutROI_Item1 fr _); [|reflexivity].
  destruct (negb (PositiveSignal (self w))); [reflexivity|].
  destruct (negb (EdgePassed (self w))); reflexivity.
Qed.

Lemma measureSun_AmSlewing (fr : Frame) (w : World) :
  AmSlewing (self (measureSunFramehandler fr w)) = AmSlewing (self w).
Proof.
  unfold measureSunFramehandler.
  destruct (_ <? _)%float; [reflexivity|].
  destruct (find_startEdge _ _ _ _); [|reflexivity].
  destruct (find_endEdge _ _ _ _); [|reflexivity].
  destruct (_ && _); [|reflexivity].
  destruct (decenter_of _ _ _); reflexivity.
Qed.

Lemma fire_AmSlewing (fr : Frame) (hs : list handler) (w : World) :
  AmSlewing (self (fold_left (run_handler fr) hs w)) = AmSlewing (self w).
Proof.
  revert w. induction hs as [|h hs IH]; intros w; [reflexivity|].
  cbn [fold_left]. rewrite IH.
  destruct h; [apply acquire_AmSlewing | apply measureSun_AmSlewing].
Qed.

Lemma deliver_AmSlewing (evs : list event) (w : World) :
  AmSlewing (self (deliver evs w)) = AmSlewing (self w).
Proof.
  revert w. unfold deliver. induction evs as [|ev evs IH]; intros w;
    [reflexivity|].
  cbn [fold_left]. rewrite IH.
  destruct ev; cbn [deliver1]; try reflexivity;
    [apply fire_AmSlewing | apply DoBump_AmSlewing | apply DoBump_AmSlewing
     | apply DoBump_AmSlewing | apply DoBump_AmSlewing].
Qed.

Lemma keep_waiting_subscribers (t0 : float) (pre : env) (w wk : World) :
  keep_waiting t0 pre w = Some wk ->
  FrameCaptured (SharpCap wk) = FrameCaptured (SharpCap w)
  /\ AmSlewing (self wk) = AmSlewing (self w).
Proof.
  revert w. induction pre as [|b pre IH]; intros w H.
  - cbn in H. injection H as ->. now split.
  - cbn [keep_waiting] in H.
    destruct (_ || _ || _); [discriminate|].
    destruct (IH _ H) as [F A]. rewrite F, A.
    now rewrite deliver_subscribers, deliver_AmSlewing.
Qed.

(** C4 (what the code does): when the edge is detected, the pad slew is
    commanded at [self.SlewFactor] as it was read at the start of the call,
    whatever the sign of [rate]: the value of [math.copysign(pad_rate,
    rate)] is computed and dropped.  For a [SlewPad] that [time.sleep]
    takes, the pad lasts [SlewPad] seconds and is followed by rate 0; the
    call returns [True]. *)
Theorem SlewPastLimb_pad_at_SlewFactor
  (rate : Py.num) (w : World) (pre : env) (b during : list event)
  (rest : env) (c : float) (wk : World) :
  only_acquire w ->
  sleep_takes (Py.Flt (SlewPad (self w))) = true ->
  Py.copysign (SlewFactor (self w)) rate = Py.Val c ->
  keep_waiting (now (SharpCap w)) pre (slew_started rate w) = Some wk ->
  EdgePassed (self (deliver b wk)) = true ->
  let wp := deliver during (slew_padding (SlewFactor (self w)) (deliver b wk)) in
  exists w' : World,
    SlewPastLimb rate (pre ++ b :: during :: rest) w = (Ret true, w', rest)
    /\ log (SharpCap w')
       = log (SharpCap w)
         ++ [MoveAxis (AxisToMove (self w)) rate;
             MoveAxis (AxisToMove (self w)) (SlewFactor (self w));
             Sleep (Py.Flt (SlewPad (self w)));
             MoveAxis (AxisToMove (self w)) (Py.Int 0)]
         ++ bump_calls wp
    /\ FrameCaptured (SharpCap w') = FrameCaptured (SharpCap w)
    /\ AmSlewing (self w') = false.
Proof.
  intros O _ C K E wp.
  pose proof (slewing_started rate w O) as S0.
  destruct (slewing_kept _ _ _ _ S0 K) as [Bk Sk].
  destruct (slewing_deliver b wk Sk) as [Bt St].
  set (wt := deliver b wk) in *.
  assert (Ft : FrameCaptured (SharpCap wt)
               = FrameCaptured (SharpCap w) ++ [h_acquireFramehandler]).
  { rewrite (blank_FrameCaptured _ _ Bt), (blank_FrameCaptured _ _ Bk).
    apply slew_started_subscribers. }
  assert (Fp : FrameCaptured (SharpCap (slew_padding (SlewFactor (self w)) wt))
               = FrameCaptured (SharpCap w)).
  { unfold slew_padding. cbv zeta. autorewrite with world.
    rewrite Ft. apply remove_last_app. }
  assert (Sp : slewing (slew_padding (SlewFactor (self w)) wt)).
  { split; [exact (proj1 St)|]. unfold only_acquire. now rewrite Fp. }
  destruct (slewing_deliver during _ Sp) as [Bp Spp]. fold wp in Bp, Spp.
  assert (Ax : AxisToMove (self wt) = AxisToMove (self w)).
  { rewrite (blank_AxisToMove _ _ Bt), (blank_AxisToMove _ _ Bk). reflexivity. }
  assert (Axp : AxisToMove (self wp) = AxisToMove (self w)).
  { rewrite (blank_AxisToMove _ _ Bp). exact Ax. }
  assert (Pd : SlewPad (self wt) = SlewPad (self w)).
  { rewrite (blank_SlewPad _ _ Bt), (blank_SlewPad _ _ Bk). reflexivity. }
  assert (Ep : EdgePassed (self wp) = true).
  { apply deliver_keeps_EdgePassed; [exact (proj2 Sp) | exact E]. }
  eexists. split; [|split; [|split]].
  - unfold SlewPastLimb, mbind. rewrite (slew_start_eq rate c _ _ C).
    cbn [snd fst]. rewrite (wait_keep rate _ pre _ _ wk K).
    rewrite (wait_edge rate _ b (during :: rest) wk E). fold wt.
    rewrite (slew_finish_edge _ during rest wt E). fold wp.
    rewrite Ep. reflexivity.
  - rewrite slew_finished_log. autorewrite with world.
    rewrite (blank_log _ _ Bp), slew_padding_log.
    rewrite (blank_log _ _ Bt), (blank_log _ _ Bk), slew_started_log.
    rewrite Ax, Axp, Pd. rewrite <- !app_assoc. reflexivity.
  - rewrite slew_finished_subscribers. autorewrite with world.
    rewrite (blank_FrameCaptured _ _ Bp). exact Fp.
  - reflexivity.
Qed.

Lemma SlewPastLimb_pad_at_SlewFactor_witness :
  let bright := FrameArrives (flat_frame 10000) in
  let dark := FrameArrives (flat_frame 0) in
  Py.copysign (Py.Flt (-0.5)) (Py.Flt 0.5) = Py.Val 0.5%float
  /\ exists w' : World,
       SlewPastLimb (Py.Flt 0.5) [repeat bright 11; repeat dark 11; []]
         (upd_self (set_SlewFactor (Py.Flt (-0.5))) (World_start 3840 2160))
       = (Ret true, w', [])
       /\ log (SharpCap w')
          = [MoveAxis 0 (Py.Flt 0.5);
             MoveAxis 0 (Py.Flt (-0.5));
             Sleep (Py.Flt 0.5);
             MoveAxis 0 (Py.Int 0)].
Proof.
  intros bright dark. split; [vm_compute; reflexivity|].
  destruct (SlewPastLimb_pad_at_SlewFactor (Py.Flt 0.5)
              (upd_self (set_SlewFactor (Py.Flt (-0.5))) (World_start 3840 2160))
              [repeat bright 11] (repeat dark 11) [] [] 0.5
              (deliver (repeat bright 11)
                 (slew_started (Py.Flt 0.5)
                    (upd_self (set_SlewFactor (Py.Flt (-0.5)))
                       (World_start 3840 2160)))))
    as (w' & R & L & _).
  - constructor.
  - vm_compute. reflexivity.
  - vm_compute. reflexivity.
  - vm_compute. reflexivity.
  - vm_compute. reflexivity.
  - exists w'. split; [exact R | exact L].
Defined.

Lemma DoAbortTask_subscribers (w : World) :
  FrameCaptured (SharpCap (DoAbortTask w)) = FrameCaptured (SharpCap w).
Proof.
  unfold DoAbortTask, RestorePos, Mount_SlewTo. cbv zeta.
  destruct (SavedCoords _); reflexivity.
Qed.

(** C9 (what the code does): when the abort flag is seen in the polling
    loop, [SlewPastLimb] returns [False] from inside the loop: the frame
    handler subscribed at the start of the call is still subscribed on
    return, [AmSlewing] is still set, and [DoAbortTask], which the caller
    runs next, does not unsubscribe it either. *)
Theorem SlewPastLimb_abort_keeps_handler
  (rate : Py.num) (w : World) (pre : env) (b : list event)
  (rest : env) (c : float) (wk : World) :
  Py.copysign (SlewFactor (self w)) rate = Py.Val c ->
  keep_waiting (now (SharpCap w)) pre (slew_started rate w) = Some wk ->
  EdgePassed (self (deliver b wk)) = false ->
  TaskAbortFlag (self (deliver b wk)) = true ->
  SlewPastLimb rate (pre ++ b :: rest) w = (Ret false, deliver b wk, rest)
  /\ FrameCaptured (SharpCap (deliver b wk))
     = FrameCaptured (SharpCap w) ++ [h_acquireFramehandler]
  /\ FrameCaptured (SharpCap (DoAbortTask (deliver b wk)))
     = FrameCaptured (SharpCap w) ++ [h_acquireFramehandler]
  /\ AmSlewing (self (deliver b wk)) = true.
Proof.
  intros C K E A.
  destruct (keep_waiting_subscribers _ _ _ _ K) as [Fk Ak].
  assert (F : FrameCaptured (SharpCap (deliver b wk))
              = FrameCaptured (SharpCap w) ++ [h_acquireFramehandler]).
  { rewrite deliver_subscribers, Fk. apply slew_started_subscribers. }
  split; [|split; [|split]].
  - unfold SlewPastLimb, mbind. rewrite (slew_start_eq rate c _ _ C).
    cbn [snd fst]. rewrite (wait_keep rate _ pre _ _ wk K).
    rewrite (wait_abort rate _ b rest wk E A). reflexivity.
  - exact F.
  - rewrite DoAbortTask_subscribers. exact F.
  - rewrite deliver_AmSlewing, Ak. reflexivity.
Qed.

Lemma SlewPastLimb_abort_keeps_handler_witness :
  exists w' : World,
    SlewPastLimb (Py.Flt 0.5)
      [[FrameArrives (flat_frame 10000)]; [AbortClick]]
      (upd_self (set_SlewFactor (Py.Flt (-0.5))) (World_start 3840 2160))
    = (Ret false, w', [])
    /\ FrameCaptured (SharpCap w') = [h_acquireFramehandler]
    /\ FrameCaptured (SharpCap (DoAbortTask w')) = [h_acquireFramehandler].
Proof.
  destruct (SlewPastLimb_abort_keeps_handler (Py.Flt 0.5)
              (upd_self (set_SlewFactor (Py.Flt (-0.5))) (World_start 3840 2160))
              [[FrameArrives (flat_frame 10000)]] [AbortClick] [] 0.5
              (deliver [FrameArrives (flat_frame 10000)]
                 (slew_started (Py.Flt 0.5)
                    (upd_self (set_SlewFactor (Py.Flt (-0.5)))
                       (World_start 3840 2160)))))
    as (R & F & F' & _).
  - vm_compute. reflexivity.
  - vm_compute. reflexivity.
  - vm_compute. reflexivity.
  - vm_compute. reflexivity.
  - eexists. split; [exact R | split; [exact F | exact F']].
Defined.

(** ** Rules for the task monad *)

Lemma triple_ret {A : Type} (P : World -> Prop) (a : A)
  (Q : A -> World -> Prop) :
  (forall w, P w -> Q a w) -> triple P (ret a) Q.
Proof. intros H e w Hw. cbn. now apply H. Qed.

Lemma triple_bind {A B : Type} (P : World -> Prop) (c : M A) (k : A -> M B)
  (Q : A -> World -> Prop) (R : B -> World -> Prop) :
  triple P c Q -> (forall a, triple (Q a) (k a) R) -> triple P (mbind c k) R.
Proof.
  intros Hc Hk e w Hw. unfold mbind. specialize (Hc e w Hw).
  destruct (c e w) as [[[a|x|] w1] e1]; [|exact I|exact I].
  exact (Hk a e1 w1 Hc).
Qed.

Lemma triple_modify (P : World -> Prop) (f : World -> World)
  (Q : unit -> World -> Prop) :
  (forall w, P w -> Q tt (f w)) -> triple P (modify f) Q.
Proof. intros H e w Hw. cbn. now apply H. Qed.

Lemma triple_gets {A : Type} (P : World -> Prop) (f : World -> A)
  (Q : A -> World -> Prop) :
  (forall w, P w -> Q (f w) w) -> triple P (gets f) Q.
Proof. intros H e w Hw. cbn. now apply H. Qed.

Lemma triple_lift {A : Type} (P : World -> Prop) (r : Py.res A)
  (Q : A -> World -> Prop) :
  (forall a w, r = Py.Val a -> P w -> Q a w) -> triple P (lift r) Q.
Proof.
  intros H e w Hw. unfold lift. destruct r as [a|x]; [|exact I].
  now apply H.
Qed.

Lemma triple_observe (P : World -> Prop) (Q : unit -> World -> Prop) :
  (forall b w, P w -> Q tt (deliver b w)) -> triple P observe Q.
Proof.
  intros H e w Hw. unfold observe. destruct e as [|b e]; [exact I|].
  now apply H.
Qed.

Lemma triple_sleep (P : World -> Prop) (d : Py.num)
  (Q : unit -> World -> Prop) :
  (forall b w, P w -> Q tt (deliver b (record (Sleep d) w))) ->
  triple P (time_sleep d) Q.
Proof.
  intros H. unfold time_sleep.
  apply triple_bind with (Q := fun _ w => exists w0, P w0 /\ w = record (Sleep d) w0).
  - apply triple_modify. intros w Hw. now exists w.
  - intros _. apply triple_observe. intros b w (w0 & Hw0 & ->). now apply H.
Qed.

Lemma triple_weaken {A : Type} (P P' : World -> Prop) (c : M A)
  (Q Q' : A -> World -> Prop) :
  (forall w, P' w -> P w) -> (forall a w, Q a w -> Q' a w) ->
  triple P c Q -> triple P' c Q'.
Proof.
  intros HP HQ H e w Hw. specialize (H e w (HP w Hw)).
  destruct (c e w) as [[[a|x|] w1] e1]; [|exact I|exact I].
  now apply HQ.
Qed.

(** A completed computation gives what its triple promises. *)
Lemma triple_run {A : Type} (P : World -> Prop) (c : M A)
  (Q : A -> World -> Prop) (e e' : env) (w w' : World) (a : A) :
  triple P c Q -> P w -> c e w = (Ret a, w', e') -> Q a w'.
Proof. intros H Hw E. specialize (H e w Hw). now rewrite E in H. Qed.

(** ** The settings of a run are not touched by events or by the task *)

Lemma acquire_settings (fr : Frame) (w : World) :
  run_settings (acquireFramehandler fr w) = run_settings w.
Proof.
  unfold acquireFramehandler.
  destruct (FrameCount (self w) =? 0); [|reflexivity].
  destruct (CutROI_Item1 fr _); [|reflexivity].
  destruct (negb (PositiveSignal (self w))); [reflexivity|].
  destruct (negb (EdgePassed (self w))); reflexivity.
Qed.

Lemma measureSun_settings (fr : Frame) (w : World) :
  run_settings (measureSunFramehandler fr w) = run_settings w.
Proof.
  unfold measureSunFramehandler.
  destruct (_ <? _)%float; [reflexivity|].
  destruct (find_startEdge _ _ _ _); [|reflexivity].
  destruct (find_endEdge _ _ _ _); [|reflexivity].
  destruct (_ && _); [|reflexivity].
  destruct (decenter_of _ _ _); reflexivity.
Qed.

Lemma DoBump_settings (requested : Z) (w : World) :
  run_settings (DoBump requested w) = run_settings w.
Proof.
  unfold DoBump. cbn [self upd_self BumpSwap set_BumpSlew].
  destruct (BumpSwap (self w)); cbn [self upd_self AmSlewing set_BumpSlew];
    destruct (negb (AmSlewing (self w))); reflexivity.
Qed.

Lemma fire_settings (fr : Frame) (hs : list handler) (w : World) :
  run_settings (fold_left (run_handler fr) hs w) = run_settings w.
Proof.
  revert w. induction hs as [|h hs IH]; intros w; [reflexivity|].
  cbn [fold_left]. rewrite IH.
  destruct h; [apply acquire_settings | apply measureSun_settings].
Qed.

Lemma deliver_settings (evs : list event) (w : World) :
  run_settings (deliver evs w) = run_settings w.
Proof.
  revert w. unfold deliver. induction evs as [|ev evs IH]; intros w;
    [reflexivity|].
  cbn [fold_left]. rewrite IH.
  destruct ev; cbn [deliver1]; try reflexivity;
    [apply fire_settings | apply DoBump_settings | apply DoBump_settings
     | apply DoBump_settings | apply DoBump_settings].
Qed.

Lemma DoAbortTask_settings (w : World) :
  run_settings (DoAbortTask w) = run_settings w.
Proof.
  unfold DoAbortTask, RestorePos, Mount_SlewTo. cbv zeta.
  destruct (SavedCoords _); reflexivity.
Qed.

Lemma DoBumpSlew_settings (w : World) :
  run_settings (DoBumpSlew w) = run_settings w.
Proof. reflexivity. Qed.

Lemma inv_bind {A B : Type} (P : World -> Prop) (c : M A) (k : A -> M B)
  (R : B -> World -> Prop) :
  triple P c (fun _ => P) -> (forall a, triple P (k a) R) ->
  triple P (mbind c k) R.
Proof. intros Hc Hk. eapply triple_bind; [exact Hc | exact Hk]. Qed.

(** Atomic statements that keep the settings. *)
Ltac settings_atom :=
  match goal with
  | |- triple _ (modify DoAbortTask) _ =>
      apply triple_modify; unfold has_settings; intros ? ?;
      rewrite DoAbortTask_settings; assumption
  | |- triple _ (modify _) _ =>
      apply triple_modify; unfold has_settings; intros ? H; exact H
  | |- triple _ (gets _) _ => apply triple_gets; intros ? H; exact H
  | |- triple _ time_time _ => apply triple_gets; intros ? H; exact H
  | |- triple _ (lift _) _ => apply triple_lift; intros ? ? ? H; exact H
  | |- triple _ (ret _) _ => apply triple_ret; intros ? H; exact H
  | |- triple _ (time_sleep _) _ =>
      apply triple_sleep; unfold has_settings; intros ? ? H;
      rewrite deliver_settings; exact H
  end.

Ltac settings_seq :=
  repeat (first [ settings_atom
                | apply inv_bind; [|intros ?] ]).

Lemma settings_limb_timeout
  (s : Z * option coords * Z * Py.num * float * bool * string)
  (rate : Py.num) (elapsed : float) :
  triple (has_settings s) (limb_timeout rate elapsed)
         (fun _ => has_settings s).
Proof. unfold limb_timeout. settings_seq. Qed.

Lemma settings_wait
  (s : Z * option coords * Z * Py.num * float * bool * string)
  (rate : Py.num) (t0 : float) :
  triple (has_settings s) (wait_past_limb rate t0) (fun _ => has_settings s).
Proof.
  intros e. induction e as [|b e IH]; intros w Hw; [exact I|].
  cbn [wait_past_limb].
  assert (Hd : has_settings s (deliver b w))
    by (unfold has_settings; now rewrite deliver_settings).
  destruct (EdgePassed (self (deliver b w))); [exact Hd|].
  destruct (TaskAbortFlag (self (deliver b w))); [exact Hd|].
  destruct (Py.gt _ _); [|now apply IH].
  assert (T : triple (has_settings s)
                (limb_timeout rate (now (SharpCap (deliver b w)) - t0);;; ret Break)
                (fun _ => has_settings s)).
  { apply inv_bind; [apply settings_limb_timeout|].
    intros _. apply triple_ret. auto. }
  exact (T e (deliver b w) Hd).
Qed.

Lemma settings_SlewPastLimb
  (s : Z * option coords * Z * Py.num * float * bool * string)
  (rate : Py.num) :
  triple (has_settings s) (SlewPastLimb rate) (fun _ => has_settings s).
Proof.
  unfold SlewPastLimb.
  apply inv_bind; [unfold slew_start; settings_seq|]. intros st.
  apply inv_bind; [apply settings_wait|]. intros x.
  destruct x; [| |apply triple_ret; auto];
    unfold slew_finish;
    (apply inv_bind; [settings_atom|]; intros _;
     apply inv_bind; [settings_atom|]; intros passed;
     apply inv_bind;
       [destruct passed; settings_seq|]; intros _;
     apply inv_bind; [settings_atom|]; intros bump;
     apply inv_bind;
       [destruct (negb (bump =? 0)); settings_seq|]; intros _;
     settings_seq).
Qed.

Ltac settings_atom2 :=
  first [ settings_atom
        | match goal with
          | |- triple _ (SlewPastLimb _) _ => apply settings_SlewPastLimb
          end ].

Ltac settings_seq2 :=
  repeat (first [ settings_atom2
                | apply inv_bind; [|intros ?] ]).

(** Reading the abort flag and branching on it. *)
Lemma triple_abort_check {A : Type}
  (s : Z * option coords * Z * Py.num * float * bool * string)
  (on_abort : A) (otherwise : M A) (R : A -> World -> Prop) :
  (forall w, aborted_from s w -> R on_abort w) ->
  triple (has_settings s) otherwise R ->
  triple (has_settings s)
    (abort <- gets (fun w => TaskAbortFlag (self w)) ;;
     if abort then modify DoAbortTask ;;; ret on_abort else otherwise)
    R.
Proof.
  intros Hab Hot.
  eapply triple_bind
    with (Q := fun abort w => has_settings s w /\ TaskAbortFlag (self w) = abort).
  { apply triple_gets. intros w H. now split. }
  intros [|].
  - eapply triple_bind with (Q := fun _ w => aborted_from s w).
    + apply triple_modify. intros w [H Ab]. now exists w.
    + intros _. apply triple_ret. exact Hab.
  - eapply triple_weaken; [| |exact Hot]; [now intros w [H _] | auto].
Qed.

(** One pass of the cycle body either ends in abort recovery or leaves the
    settings as they were, with both timestamps bound. *)
Lemma cycle_body_exit
  (s : Z * option coords * Z * Py.num * float * bool * string) (l : locals) :
  triple (has_settings s) (cycle_body l)
    (fun x w' =>
       match x with
       | Returned => aborted_from s w'
       | NextCycle l' =>
           has_settings s w' /\ startTime l' <> None /\ endTime l' <> None
       end).
Proof.
  unfold cycle_body.
  apply inv_bind; [settings_atom2|]; intros t0.
  apply inv_bind; [settings_atom2|]; intros _.
  apply inv_bind; [settings_atom2|]; intros _.
  apply inv_bind; [settings_atom2|]; intros f.
  apply inv_bind; [settings_atom2|]; intros _.
  apply inv_bind; [settings_atom2|]; intros _.
  apply inv_bind; [settings_atom2|]; intros t1.
  apply triple_abort_check; [auto|].
  apply inv_bind; [settings_atom2|]; intros bidir.
  apply inv_bind; [destruct bidir; settings_seq2|]; intros _.
  apply triple_abort_check; [auto|].
  apply inv_bind; [settings_atom2|]; intros txt.
  apply inv_bind; [settings_atom2|]; intros d.
  apply inv_bind; [settings_atom2|]; intros _.
  apply inv_bind; [settings_atom2|]; intros _.
  apply triple_ret. intros w H. repeat split; [exact H | | ]; discriminate.
Qed.

Lemma cycles_exit
  (s : Z * option coords * Z * Py.num * float * bool * string)
  (n : nat) (l : locals) :
  triple (has_settings s) (cycles n l)
    (fun x w' =>
       match x with
       | Returned => aborted_from s w'
       | NextCycle l' =>
           has_settings s w'
           /\ (n <> O -> startTime l' <> None /\ endTime l' <> None)
       end).
Proof.
  revert l. induction n as [|n IH]; intros l; cbn [cycles].
  - apply triple_ret. intros w H. split; [exact H | congruence].
  - eapply triple_bind; [apply cycle_body_exit|].
    intros [l'|].
    + destruct n as [|n].
      * cbn [cycles]. intros e w (H & T0 & T1). cbn. auto.
      * eapply triple_weaken; [| |apply (IH l')].
        -- now intros w (H & _).
        -- intros [l''|] w; [|auto]. intros [H T]. split; [exact H|].
           intros _. apply T. discriminate.
    + apply triple_ret. auto.
Qed.

Lemma settings_SavedCoords (w1 w2 : World) :
  run_settings w1 = run_settings w2 ->
  SavedCoords (self w1) = SavedCoords (self w2)
  /\ NumCycles (self w1) = NumCycles (self w2)
  /\ AxisToMove (self w1) = AxisToMove (self w2)
  /\ SlewFactor (self w1) = SlewFactor (self w2).
Proof. unfold run_settings. intros H. injection H. auto. Qed.

Lemma triple_any {A : Type} (P : World -> Prop) (c : M A) :
  triple P c (fun _ _ => True).
Proof.
  intros e w _. destruct (c e w) as [[[a|x|] w1] e1]; exact I.
Qed.

(** A run that ends at one of the [return] statements went through abort
    recovery, entered with the abort flag set and with the coordinates
    saved at the start of the run. *)
Lemma DoGo_run_aborted (e e' : env) (w w' : World) :
  DoGo_run e w = (Ret Aborted, w', e') ->
  aborted_from (run_settings (SavePos w)) w'.
Proof.
  intros E.
  assert (T : triple (fun x => x = w) DoGo_run
                (fun x w' =>
                   match x with
                   | Aborted => aborted_from (run_settings (SavePos w)) w'
                   | Completed => True
                   end)).
  { unfold DoGo_run.
    eapply triple_bind
      with (Q := fun _ => has_settings (run_settings (SavePos w))).
    { apply triple_modify. intros x ->. reflexivity. }
    intros _.
    apply inv_bind; [settings_atom2|]; intros f.
    apply inv_bind; [settings_atom2|]; intros _.
    apply triple_abort_check; [auto|].
    apply inv_bind; [unfold progBar_assign; settings_seq|]; intros _.
    apply inv_bind; [settings_atom2|]; intros n.
    eapply triple_bind; [apply cycles_exit|].
    intros [l|].
    - do 7 (eapply triple_bind with (Q := fun _ _ => True);
              [apply triple_any | intros ?]).
      apply triple_ret. auto.
    - apply triple_ret. auto. }
  exact (triple_run _ _ _ _ _ _ _ _ T eq_refl E).
Qed.

(** ** Abort recovery *)

(** What [DoAbortTask] does when coordinates were saved. *)
Lemma DoAbortTask_effect (w : World) (c : coords) :
  SavedCoords (self w) = Some c ->
  log (SharpCap (DoAbortTask w))
  = log (SharpCap w)
    ++ [StopCapture;
        MoveAxis (AxisToMove (self w)) (Py.Int 0);
        SetSelectedRate (ForSiderealRate 32);
        SlewTo (Some c);
        SetSelectedRate (SelectedRate (SharpCap w))]
  /\ Capturing (SharpCap (DoAbortTask w)) = false
  /\ AxisRate (SharpCap (DoAbortTask w)) (AxisToMove (self w)) = Py.Int 0
  /\ Coordinates (SharpCap (DoAbortTask w)) = c
  /\ SelectedRate (SharpCap (DoAbortTask w)) = SelectedRate (SharpCap w)
  /\ AmSlewing (self (DoAbortTask w)) = false
  /\ TaskAbortFlag (self (DoAbortTask w)) = false
  /\ BumpSlew (self (DoAbortTask w)) = -1.
Proof.
  intros H. unfold DoAbortTask, RestorePos, Mount_SlewTo. cbv zeta.
  change (SavedCoords
            (self (Mount_set_SelectedRate (ForSiderealRate 32)
                     (Mount_MoveAxis (AxisToMove (self (Camera_StopCapture w)))
                        (Py.Int 0) (Camera_StopCapture w)))))
    with (SavedCoords (self w)).
  rewrite H. cbn. rewrite Z.eqb_refl. rewrite <- !app_assoc.
  repeat split.
Qed.

(** C1 (what the code does): a run that ends by abort, at the pre-slew or
    in any cycle, has stopped the capture, commanded rate 0 on the scan
    axis, set the 32x rate, slewed to the coordinates saved at the start
    of the run and put back the rate selected before, and has cleared
    [AmSlewing] and the abort flag.  The pending bump is not cleared: it
    is left at -1, which the next slew takes for a request. *)
Theorem abort_recovery (e e' : env) (w w' : World) :
  DoGo_run e w = (Ret Aborted, w', e') ->
  exists w1 : World,
    TaskAbortFlag (self w1) = true
    /\ log (SharpCap w')
       = log (SharpCap w1)
         ++ [StopCapture;
             MoveAxis (AxisToMove (self w)) (Py.Int 0);
             SetSelectedRate (ForSiderealRate 32);
             SlewTo (Some (Coordinates (SharpCap w)));
             SetSelectedRate (SelectedRate (SharpCap w1))]
    /\ Capturing (SharpCap w') = false
    /\ AxisRate (SharpCap w') (AxisToMove (self w)) = Py.Int 0
    /\ Coordinates (SharpCap w') = Coordinates (SharpCap w)
    /\ SelectedRate (SharpCap w') = SelectedRate (SharpCap w1)
    /\ AmSlewing (self w') = false
    /\ TaskAbortFlag (self w') = false
    /\ BumpSlew (self w') = -1.
Proof.
  intros E. destruct (DoGo_run_aborted _ _ _ _ E) as (w1 & -> & Ab & S).
  destruct (settings_SavedCoords _ _ S) as (Sc & _ & Ax & _).
  change (SavedCoords (self (SavePos w))) with (Some (Coordinates (SharpCap w)))
    in Sc.
  change (AxisToMove (self (SavePos w))) with (AxisToMove (self w)) in Ax.
  exists w1. split; [exact Ab|]. rewrite <- Ax.
  exact (DoAbortTask_effect w1 _ Sc).
Qed.

Lemma abort_recovery_witness :
  let bright := FrameArrives (flat_frame 10000) in
  let dark := FrameArrives (flat_frame 0) in
  let w := upd_self (set_NumCycles 2)
             (upd_self (set_SlewFactor (Py.Flt (-0.5))) (World_start 3840 2160)) in
  let run := DoGo_run [repeat bright 11; repeat dark 11; []; [bright]; [AbortClick]] w in
  fst (fst run) = Ret Aborted
  /\ BumpSlew (self (snd (fst run))) = -1
  /\ Coordinates (SharpCap (snd (fst run))) = Coordinates (SharpCap w).
Proof.
  intros bright dark w run.
  destruct (abort_recovery
              [repeat bright 11; repeat dark 11; []; [bright]; [AbortClick]]
              [] w (snd (fst run)))
    as (w1 & _ & _ & _ & _ & C & _ & _ & _ & B).
  - vm_compute. reflexivity.
  - split; [vm_compute; reflexivity | split; [exact B | exact C]].
Defined.

(** After an abort the next slew ends with a nudge of the other axis at
    rate -1 that nobody asked for. *)
Lemma bump_after_abort (w : World) (c : coords) :
  SavedCoords (self w) = Some c ->
  bump_calls (DoAbortTask w)
  = [MoveAxis (Z.abs (1 - AxisToMove (self w))) (Py.Int (-1));
     Sleep (Py.Flt 0.25);
     MoveAxis (Z.abs (1 - AxisToMove (self w))) (Py.Int 0)].
Proof.
  intros H. unfold bump_calls.
  destruct (DoAbortTask_effect w c H) as (_ & _ & _ & _ & _ & _ & _ & B).
  rewrite B. cbn [Z.eqb].
  destruct (settings_SavedCoords _ _ (DoAbortTask_settings w)) as (_ & _ & Ax & _).
  now rewrite Ax.
Qed.

(** ** A run of one cycle *)

(** With one cycle a run completes its reposition step. *)
Lemma DoGo_one_cycle_completes :
  let bright := FrameArrives (flat_frame 10000) in
  let dark := FrameArrives (flat_frame 0) in
  let pass := [repeat bright 11; repeat dark 11; []] in
  let w := upd_self (set_NumCycles 1)
             (upd_self (set_SlewFactor (Py.Flt (-0.5))) (World_start 3840 2160)) in
  let run := DoGo (pass ++ pass ++ pass ++ [[]; []]) w in
  fst (fst run) = Ret tt
  /\ goButton_Enabled (self (snd (fst run))) = true
  /\ AxisRate (SharpCap (snd (fst run))) 0 = Py.Int 0.
Proof. vm_compute. repeat split. Qed.

(** ** The slew factor *)

Lemma eq_zero_is_zero (x : float) :
  Py.eq (Py.Flt x) (Py.Int 0) = is_zero x.
Proof. reflexivity. Qed.

(** A frame rate of zero gives a zero slew factor, for every sun width
    that is not zero and below 2^53. *)
Lemma slew_factor_of_zero_rate (frameRate : Py.num) (n : Z) :
  Py.eq frameRate (Py.Int 0) = true -> n <> 0 -> Z.abs n < 2 ^ 53 ->
  exists f, slew_factor frameRate n = Py.Val f /\ Py.eq f (Py.Int 0) = true.
Proof.
  intros Z0 NZ B. unfold slew_factor.
  destruct (float_of_Z_finite n NZ B) as (m & ex & Fn).
  assert (D : forall a, is_zero a = true ->
                        Py.truediv (Py.Flt a) (Py.Int n)
                        = Py.Val (Py.Flt (a / Py.float_of_Z n))).
  { intros a _. unfold Py.truediv.
    change (Py.to_float (Py.Flt a)) with (Py.Val a). cbn [Py.bind].
    rewrite (to_float_small n B). cbn [Py.bind].
    now rewrite (is_zero_finite _ _ _ _ Fn). }
  destruct frameRate as [z|x].
  - cbn in Z0. apply Z.eqb_eq in Z0. subst z. cbn [Py.mul Py.bind Py.neg].
    change (- (0 * 120)) with 0.
    assert (T : Py.truediv (Py.Int 0) (Py.Int n)
                = Py.Val (Py.Flt (Py.float_of_Z 0 / Py.float_of_Z n))).
    { unfold Py.truediv. destruct n as [|p|p]; [congruence| |];
        rewrite (to_float_small 0) by (cbn; lia); cbn [Py.bind];
        rewrite (to_float_small _ B); cbn [Py.bind];
        now rewrite (is_zero_finite _ _ _ _ Fn). }
    rewrite T. eexists. split; [reflexivity|].
    rewrite eq_zero_is_zero. now apply zero_div_small.
  - rewrite eq_zero_is_zero in Z0.
    assert (M : Py.mul (Py.Flt x) (Py.Int 120)
                = Py.Val (Py.Flt (x * Py.float_of_Z 120))) by reflexivity.
    rewrite M. cbn [Py.bind Py.neg].
    rewrite (D _ (zero_mul_120 x Z0)).
    eexists. split; [reflexivity|].
    rewrite eq_zero_is_zero. apply zero_div_small; [|exact NZ|exact B].
    now apply zero_mul_120.
Qed.

(** C3 (as amended): with a capture area of at least 100x100 and a sun
    width text that reads as the integer [n], [CalcScanParams] stores
    [-(FrameRate * 120) / n] as the slew factor; it reports "Frame rate
    too slow" and returns [False] exactly when that factor compares equal
    to zero, and returns [True] otherwise.  For a frame rate of 10 and a
    width of 2400 the factor is exactly -0.5.  A frame rate of 0 gives a
    zero factor for every width that is not zero (a zero factor also
    comes from a positive frame rate so small that the quotient
    underflows). *)
Theorem CalcScanParams_slew_factor :
  (forall (e : env) (w : World) (n x y : Z) (f cd : Py.num),
      100 <= ROI_Width (SharpCap w) -> 100 <= ROI_Height (SharpCap w) ->
      centred_corner (ROI_Width (SharpCap w)) = Py.Val x ->
      centred_corner (ROI_Height (SharpCap w)) = Py.Val y ->
      Py.parse_int (sunWidth_Text (self w)) = Py.Val n ->
      slew_factor (FrameRate (self w)) n = Py.Val f ->
      (Py.eq f (Py.Int 0) = false ->
       cycle_duration (SlewPad (self w)) (SunWidth (self w)) (FrameRate (self w))
       = Py.Val cd) ->
      exists w' : World,
        CalcScanParams e w = (Ret (negb (Py.eq f (Py.Int 0))), w', e)
        /\ SlewFactor (self w') = f
        /\ ROIX (self w') = x /\ ROIY (self w') = y
        /\ log (SharpCap w')
           = log (SharpCap w)
             ++ (if Py.eq f (Py.Int 0)
                 then [ShowNotification FrameRateTooSlow Error] else []))
  /\ slew_factor (Py.Flt 10) 2400 = Py.Val (Py.Flt (-0.5))
  /\ (forall (frameRate : Py.num) (n : Z),
         Py.eq frameRate (Py.Int 0) = true -> n <> 0 -> Z.abs n < 2 ^ 53 ->
         exists f, slew_factor frameRate n = Py.Val f
                   /\ Py.eq f (Py.Int 0) = true).
Proof.
  split; [|split; [vm_compute; reflexivity | exact slew_factor_of_zero_rate]].
  intros e w n x y f cd Hw Hh Hx Hy Hn Hf Hcd.
  unfold slew_factor in Hf.
  destruct (Py.mul (FrameRate (self w)) (Py.Int 120)) as [p|] eqn:Hp;
    [|discriminate].
  cbn [Py.bind] in Hf.
  unfold CalcScanParams, mbind, gets, modify, lift, ret.
  destruct (Z.ltb_spec (ROI_Width (SharpCap w)) 100); [lia|].
  destruct (Z.ltb_spec (ROI_Height (SharpCap w)) 100); [lia|].
  cbn [orb]. rewrite Hx.
  change (ROI_Height (SharpCap (upd_self (set_ROIX x) w)))
    with (ROI_Height (SharpCap w)).
  rewrite Hy.
  change (FrameRate (self (upd_self (set_ROIY y) (upd_self (set_ROIX x) w))))
    with (FrameRate (self w)).
  rewrite Hp.
  change (sunWidth_Text (self (upd_self (set_ROIY y) (upd_self (set_ROIX x) w))))
    with (sunWidth_Text (self w)).
  rewrite Hn, Hf.
  destruct (Py.eq f (Py.Int 0)) eqn:Ez.
  - eexists. split; [reflexivity|]. repeat split.
  - cbn [negb].
    change (cycle_duration
              (SlewPad (self (upd_self (set_SlewFactor f)
                 (upd_self (set_ROIY y) (upd_self (set_ROIX x) w)))))
              (SunWidth (self (upd_self (set_SlewFactor f)
                 (upd_self (set_ROIY y) (upd_self (set_ROIX x) w)))))
              (FrameRate (self (upd_self (set_SlewFactor f)
                 (upd_self (set_ROIY y) (upd_self (set_ROIX x) w))))))
      with (cycle_duration (SlewPad (self w)) (SunWidth (self w))
              (FrameRate (self w))).
    rewrite (Hcd eq_refl).
    eexists. split; [reflexivity|]. repeat split.
    cbn. now rewrite app_nil_r.
Qed.

Lemma CalcScanParams_slew_factor_witness :
  let w := upd_self (fun s => set_sunWidth_Text "2400"
                                (set_FrameRate (Py.Flt 10) s))
             (World_start 3840 2160) in
  exists w' : World,
    CalcScanParams [] w = (Ret true, w', [])
    /\ SlewFactor (self w') = Py.Flt (-0.5).
Proof.
  intros w.
  destruct (proj1 CalcScanParams_slew_factor [] w 2400 1870 1030
              (Py.Flt (-0.5)) (Py.Flt 231))
    as (w' & R & F & _).
  - vm_compute. discriminate.
  - vm_compute. discriminate.
  - vm_compute. reflexivity.
  - vm_compute. reflexivity.
  - vm_compute. reflexivity.
  - vm_compute. reflexivity.
  - intros _. vm_compute. reflexivity.
  - exists w'. split; [exact R | exact F].
Defined.

(** C3 (as stated) fails: the smallest positive frame rate, with a sun
    width of 2400, is reported as "Frame rate too slow" although the frame
    rate is not 0: the quotient underflows to zero. *)
Lemma CalcScanParams_underflow_is_too_slow :
  let w := upd_self (fun s => set_sunWidth_Text "2400"
                                (set_FrameRate (Py.Flt 0x1p-1074) s))
             (World_start 3840 2160) in
  Py.eq (FrameRate (self w)) (Py.Int 0) = false
  /\ Py.gt (FrameRate (self w)) (Py.Int 0) = true
  /\ fst (fst (CalcScanParams [] w)) = Ret false
  /\ log (SharpCap (snd (fst (CalcScanParams [] w))))
     = [ShowNotification FrameRateTooSlow Error].
Proof. vm_compute. repeat split. Qed.

(** ** The settings file *)

(** C8 (what the code does): the threshold in the form is not what
    [saveSettings] writes: the file always carries the module global
    [DEFAULT_THRESHOLD], "0.10".  A form that read [LimbThreshold=0.25]
    from its file holds 16383.75; saving and reading back leaves it at
    6553.5, while the other eight keys come back as they were. *)
Theorem settings_round_trip_resets_threshold :
  (forall (w : World) (t : float),
      SHG_cfg (saveSettings (upd_self (set_LimbThreshold t) w))
      = SHG_cfg (saveSettings w))
  /\ let file := ("NumCycles=3" ++ nl ++ "SunWidth=2400" ++ nl
                  ++ "CycleSleep=1.50" ++ nl ++ "SlewPad=0.75" ++ nl
                  ++ "LimbThreshold=0.25" ++ nl ++ "Bidirectional=True" ++ nl
                  ++ "BumpSwap=True" ++ nl ++ "BumpRate=4" ++ nl
                  ++ "AxisToMove=1")%string in
     let w := getSettings (set_SHG_cfg (Some file) (World_start 3840 2160)) in
     let w' := getSettings (saveSettings w) in
     LimbThreshold (self w) = 16383.75%float
     /\ LimbThreshold (self w') = 6553.5%float
     /\ (NumCycles (self w'), SunWidth (self w'), CycleSleep (self w'),
         SlewPad (self w'), Bidirectional (self w'), BumpSwap (self w'),
         BumpRate (self w'), AxisToMove (self w'))
        = (3, 2400, 1.5%float, 0.75%float, true, true, 4, 1)
     /\ log (SharpCap w') = [].
Proof.
  split; [reflexivity|]. vm_compute. repeat split.
Qed.

(** ** More on the limb-crossing detector *)

Lemma frames_arrive_cons (fr : Frame) (frs : list Frame) (w : World) :
  frames_arrive (fr :: frs) w = frames_arrive frs (acquireFramehandler fr w).
Proof. reflexivity. Qed.

Lemma frames_arrive_app (frs frs' : list Frame) (w : World) :
  frames_arrive (frs ++ frs') w = frames_arrive frs' (frames_arrive frs w).
Proof. unfold frames_arrive. apply fold_left_app. Qed.

(** While the countdown runs, frames are not looked at: [n] frames take
    the countdown from [n] to 0 and change neither latch. *)
Lemma countdown_ignores_frames (frs : list Frame) (w : World) :
  FrameCount (self w) = Z.of_nat (List.length frs) ->
  FrameCount (self (frames_arrive frs w)) = 0
  /\ PositiveSignal (self (frames_arrive frs w)) = PositiveSignal (self w)
  /\ EdgePassed (self (frames_arrive frs w)) = EdgePassed (self w)
  /\ FrameInterval (self (frames_arrive frs w)) = FrameInterval (self w)
  /\ LimbThreshold (self (frames_arrive frs w)) = LimbThreshold (self w)
  /\ centre_cutout (frames_arrive frs w) = centre_cutout w.
Proof.
  revert w. induction frs as [|fr frs IH]; intros w H.
  - cbn in *. repeat split. exact H.
  - rewrite frames_arrive_cons.
    rewrite acquire_counts_down by (rewrite H; cbn [List.length]; lia).
    match goal with
    | |- context [frames_arrive frs ?w1] =>
        destruct (IH w1) as (C & P & E & N & T & R)
    end.
    { cbn [self upd_self FrameCount set_FrameCount set_FrameHandlingDone].
      rewrite H. cbn [List.length]. lia. }
    rewrite C, P, E, N, T, R. repeat split.
Qed.

(** X1: after the countdown is rearmed to [FrameInterval = N >= 0], the
    next [N] frames are ignored whatever they show, and the frame after
    them is the one evaluated: from the reset of a slew, it alone decides
    [PositiveSignal], and the countdown is rearmed to [N] again.  One
    frame in [N + 1] is looked at. *)
Theorem gate_skips_FrameInterval_frames
  (w : World) (skipped : list Frame) (fr : Frame) (mean : float) :
  Z.of_nat (List.length skipped) = FrameInterval (self w) ->
  CutROI_Item1 fr (centre_cutout w) = Some mean ->
  let w' := frames_arrive (skipped ++ [fr]) (detector_reset w) in
  PositiveSignal (self w') = (LimbThreshold (self w) <? mean)%float
  /\ EdgePassed (self w') = false
  /\ FrameCount (self w') = FrameInterval (self w)
  /\ PositiveSignal (self (frames_arrive skipped (detector_reset w))) = false.
Proof.
  intros HN Hc w'. unfold w'. rewrite frames_arrive_app.
  destruct (countdown_ignores_frames skipped (detector_reset w))
    as (C & P & E & N & T & R).
  { cbn. lia. }
  cbn [frames_arrive fold_left].
  set (w1 := frames_arrive skipped (detector_reset w)) in *.
  change (PositiveSignal (self (detector_reset w))) with false in P.
  change (EdgePassed (self (detector_reset w))) with false in E.
  change (FrameInterval (self (detector_reset w))) with (FrameInterval (self w)) in N.
  change (LimbThreshold (self (detector_reset w))) with (LimbThreshold (self w)) in T.
  change (centre_cutout (detector_reset w)) with (centre_cutout w) in R.
  unfold acquireFramehandler. rewrite C. cbn [Z.eqb].
  fold (centre_cutout w1). rewrite R, Hc, P. cbn [negb].
  cbn [self upd_self PositiveSignal EdgePassed FrameCount set_PositiveSignal
         set_FrameCount set_FrameHandlingDone].
  rewrite T, E, N. repeat split.
Qed.

Lemma gate_skips_FrameInterval_frames_witness :
  let w := World_start 3840 2160 in
  let w' := frames_arrive (repeat (flat_frame 0) 10 ++ [flat_frame 10000])
              (detector_reset w) in
  PositiveSignal (self w') = true /\ FrameCount (self w') = 10.
Proof.
  intros w w'.
  destruct (gate_skips_FrameInterval_frames w (repeat (flat_frame 0) 10)
              (flat_frame 10000) 10000)
    as (P & _ & C & _).
  - reflexivity.
  - reflexivity.
  - split; [exact P | exact C].
Defined.

(** The latches only go up, and in order. *)
Lemma acquire_keeps_PositiveSignal (fr : Frame) (w : World) :
  PositiveSignal (self w) = true ->
  PositiveSignal (self (acquireFramehandler fr w)) = true.
Proof.
  intros H. unfold acquireFramehandler.
  destruct (FrameCount (self w) =? 0); [|exact H].
  destruct (CutROI_Item1 fr _); [|exact H].
  rewrite H. cbn [negb].
  destruct (negb (EdgePassed (self w))); exact H.
Qed.

Lemma acquire_EdgePassed_after_PositiveSignal (fr : Frame) (w : World) :
  (EdgePassed (self w) = true -> PositiveSignal (self w) = true) ->
  EdgePassed (self (acquireFramehandler fr w)) = true ->
  PositiveSignal (self (acquireFramehandler fr w)) = true.
Proof.
  intros Inv. unfold acquireFramehandler.
  destruct (FrameCount (self w) =? 0); [|exact Inv].
  destruct (CutROI_Item1 fr _) as [m|]; [|exact Inv].
  destruct (PositiveSignal (self w)) eqn:P; cbn [negb].
  - destruct (negb (EdgePassed (self w))); cbn; intros _; exact P.
  - cbn. intros E. specialize (Inv E). discriminate.
Qed.

(** X2: within a slew the detector only moves forward.  Whatever frames
    arrive after the reset, [EdgePassed] is never set without
    [PositiveSignal]; and no frame takes back a latch that is set. *)
Theorem detector_latches_in_order (w : World) (frs : list Frame) :
  (EdgePassed (self (frames_arrive frs (detector_reset w))) = true ->
   PositiveSignal (self (frames_arrive frs (detector_reset w))) = true)
  /\ (forall w0 : World,
         (PositiveSignal (self w0) = true ->
          PositiveSignal (self (frames_arrive frs w0)) = true)
         /\ (EdgePassed (self w0) = true ->
             EdgePassed (self (frames_arrive frs w0)) = true)).
Proof.
  split.
  - assert (G : forall w0,
               (EdgePassed (self w0) = true -> PositiveSignal (self w0) = true) ->
               EdgePassed (self (frames_arrive frs w0)) = true ->
               PositiveSignal (self (frames_arrive frs w0)) = true).
    { induction frs as [|fr frs IH]; intros w0 Inv; [exact Inv|].
      rewrite frames_arrive_cons. apply IH.
      now apply acquire_EdgePassed_after_PositiveSignal. }
    apply G. cbn. discriminate.
  - induction frs as [|fr frs IH]; intros w0; [now split|].
    rewrite frames_arrive_cons.
    destruct (IH (acquireFramehandler fr w0)) as [IP IE]. split; intros H.
    + apply IP. now apply acquire_keeps_PositiveSignal.
    + apply IE. now apply acquire_keeps_EdgePassed.
Qed.

Lemma detector_latches_in_order_witness :
  let frs := repeat (flat_frame 10000) 11 ++ repeat (flat_frame 0) 11 in
  let w' := frames_arrive frs (detector_reset (World_start 3840 2160)) in
  EdgePassed (self w') = true /\ PositiveSignal (self w') = true.
Proof.
  intros frs w'.
  assert (E : EdgePassed (self w') = true) by (vm_compute; reflexivity).
  split; [exact E|].
  exact (proj1 (detector_latches_in_order (World_start 3840 2160) frs) E).
Defined.



(** ** Events and the fields they leave alone *)

Ltac acquire_cases :=
  unfold acquireFramehandler;
  destruct (FrameCount (self _) =? 0); [|reflexivity];
  destruct (CutROI_Item1 _ _); [|reflexivity];
  destruct (negb (PositiveSignal (self _))); [reflexivity|];
  destruct (negb (EdgePassed (self _))); reflexivity.

Ltac measureSun_cases :=
  unfold measureSunFramehandler;
  destruct (_ <? _)%float; [reflexivity|];
  destruct (find_startEdge _ _ _ _); [|reflexivity];
  destruct (find_endEdge _ _ _ _); [|reflexivity];
  destruct (_ && _); [|reflexivity];
  destruct (decenter_of _ _ _); reflexivity.

Ltac DoBump_cases :=
  unfold DoBump; cbn [self upd_self BumpSwap set_BumpSlew];
  destruct (BumpSwap (self _)); cbn [self upd_self AmSlewing set_BumpSlew];
  destruct (negb (AmSlewing (self _))); reflexivity.

Section EventInvariant.
Context {T : Type} (g : World -> T).
Hypothesis g_acquire : forall fr w, g (acquireFramehandler fr w) = g w.
Hypothesis g_measureSun : forall fr w, g (measureSunFramehandler fr w) = g w.
Hypothesis g_DoBump : forall r w, g (DoBump r w) = g w.
Hypothesis g_DoAbort : forall w, g (DoAbort w) = g w.
Hypothesis g_mount : forall c w, g (upd_app (set_Coordinates c) w) = g w.
Hypothesis g_clock : forall t w, g (upd_app (set_now t) w) = g w.

Lemma fire_respects (fr : Frame) (hs : list handler) (w : World) :
  g (fold_left (run_handler fr) hs w) = g w.
Proof.
  revert w. induction hs as [|h hs IH]; intros w; [reflexivity|].
  cbn [fold_left]. rewrite IH. destruct h; [apply g_acquire | apply g_measureSun].
Qed.

Lemma deliver1_respects (w : World) (ev : event) : g (deliver1 w ev) = g w.
Proof.
  destruct ev; cbn [deliver1].
  - apply fire_respects.
  - apply g_DoAbort.
  - apply g_DoBump.
  - apply g_DoBump.
  - apply g_DoBump.
  - apply g_DoBump.
  - apply g_mount.
  - apply g_clock.
Qed.

Lemma deliver_respects (evs : list event) (w : World) :
  g (deliver evs w) = g w.
Proof.
  revert w. unfold deliver. induction evs as [|ev evs IH]; intros w;
    [reflexivity|].
  cbn [fold_left]. rewrite IH. apply deliver1_respects.
Qed.
End EventInvariant.

Lemma deliver_capture_state (evs : list event) (w : World) :
  capture_state (deliver evs w) = capture_state w.
Proof.
  apply (deliver_respects capture_state); intros.
  - acquire_cases.
  - measureSun_cases.
  - DoBump_cases.
  - reflexivity.
  - reflexivity.
  - reflexivity.
Qed.

(** No handler clears the abort flag. *)
Lemma deliver1_keeps_abort (w : World) (ev : event) :
  TaskAbortFlag (self w) = true -> TaskAbortFlag (self (deliver1 w ev)) = true.
Proof.
  intros H.
  assert (F : forall fr hs w0, TaskAbortFlag (self (fold_left (run_handler fr) hs w0))
                               = TaskAbortFlag (self w0)).
  { intros fr hs. induction hs as [|h hs IH]; intros w0; [reflexivity|].
    cbn [fold_left]. rewrite IH. destruct h; cbn [run_handler];
      [acquire_cases | measureSun_cases]. }
  assert (B : forall r, TaskAbortFlag (self (DoBump r w)) = TaskAbortFlag (self w))
    by (intros r; DoBump_cases).
  destruct ev; cbn [deliver1].
  - now rewrite F.
  - reflexivity.
  - unfold DoBumpL. now rewrite B.
  - unfold DoBumpLFast. now rewrite B.
  - unfold DoBumpR. now rewrite B.
  - unfold DoBumpRFast. now rewrite B.
  - exact H.
  - exact H.
Qed.

Lemma deliver_keeps_abort (evs : list event) (w : World) :
  TaskAbortFlag (self w) = true -> TaskAbortFlag (self (deliver evs w)) = true.
Proof.
  revert w. unfold deliver. induction evs as [|ev evs IH]; intros w H;
    [exact H|].
  cbn [fold_left]. apply IH. now apply deliver1_keeps_abort.
Qed.

(** ** How [SlewPastLimb] hands the mount and the camera event back *)

(** Statements that keep the subscriber list. *)
Ltac subs_atom :=
  match goal with
  | |- triple _ (modify _) _ => apply triple_modify; intros ? H; exact H
  | |- triple _ (gets _) _ => apply triple_gets; intros ? H; exact H
  | |- triple _ time_time _ => apply triple_gets; intros ? H; exact H
  | |- triple _ (lift _) _ => apply triple_lift; intros ? ? ? H; exact H
  | |- triple _ (ret _) _ => apply triple_ret; intros ? H; exact H
  | |- triple _ (time_sleep _) _ =>
      apply triple_sleep; intros ? ? H; rewrite deliver_subscribers; exact H
  end.

Ltac subs_seq :=
  repeat (first [ subs_atom | apply inv_bind; [|intros ?] ]).

Lemma subscribers_limb_timeout (L : list handler) (rate : Py.num) (elapsed : float) :
  triple (fun w => FrameCaptured (SharpCap w) = L) (limb_timeout rate elapsed)
         (fun _ w => FrameCaptured (SharpCap w) = L).
Proof. unfold limb_timeout. subs_seq. Qed.

(** The loop keeps the subscriber list, and is left by [return] only with
    the abort flag up. *)
Lemma wait_exit (L : list handler) (rate : Py.num) (t0 : float) :
  triple (fun w => FrameCaptured (SharpCap w) = L) (wait_past_limb rate t0)
    (fun x w' =>
       FrameCaptured (SharpCap w') = L
       /\ forall b, x = Return b -> b = false /\ TaskAbortFlag (self w') = true).
Proof.
  intros e. induction e as [|b e IH]; intros w Hw; [exact I|].
  cbn [wait_past_limb].
  assert (Hd : FrameCaptured (SharpCap (deliver b w)) = L)
    by now rewrite deliver_subscribers.
  destruct (EdgePassed (self (deliver b w))).
  { split; [exact Hd | discriminate]. }
  destruct (TaskAbortFlag (self (deliver b w))) eqn:Ab.
  { split; [exact Hd|]. intros b0 E. injection E as <-. now split. }
  destruct (Py.gt _ _); [|now apply IH].
  assert (T : triple (fun w => FrameCaptured (SharpCap w) = L)
                (limb_timeout rate (now (SharpCap (deliver b w)) - t0) ;;; ret Break)
                (fun x w' =>
                   FrameCaptured (SharpCap w') = L
                   /\ forall b, x = Return b ->
                                b = false /\ TaskAbortFlag (self w') = true)).
  { apply inv_bind; [apply subscribers_limb_timeout|]. intros _.
    apply triple_ret. intros w0 H0. split; [exact H0 | discriminate]. }
  exact (T e (deliver b w) Hd).
Qed.

Lemma slew_start_subscribes (w0 : World) (rate : Py.num) :
  triple (fun w => w = w0) (slew_start rate)
    (fun _ w' =>
       FrameCaptured (SharpCap w')
       = FrameCaptured (SharpCap w0) ++ [h_acquireFramehandler]).
Proof.
  intros e w ->.
  destruct (Py.copysign (SlewFactor (self w0)) rate) as [c|x] eqn:C.
  - rewrite (slew_start_eq rate c e w0 C). apply slew_started_subscribers.
  - unfold slew_start, mbind, modify, gets, lift, time_time, ret.
    change (SlewFactor (self (upd_self _ _))) with (SlewFactor (self w0)).
    rewrite C. exact I.
Qed.

Lemma slew_finish_hands_back (L : list handler) (pad_rate : Py.num) :
  triple (fun w => FrameCaptured (SharpCap w) = L ++ [h_acquireFramehandler])
    (slew_finish pad_rate)
    (fun b w' =>
       FrameCaptured (SharpCap w') = L
       /\ AmSlewing (self w') = false
       /\ BumpSlew (self w') = 0
       /\ b = EdgePassed (self w')).
Proof.
  unfold slew_finish.
  apply triple_bind with (Q := fun _ w => FrameCaptured (SharpCap w) = L).
  { apply triple_modify. intros w H. unfold unsubscribe.
    cbn [SharpCap upd_app FrameCaptured set_FrameCaptured].
    rewrite H. apply remove_last_app. }
  intros _. apply inv_bind; [subs_atom|]. intros passed.
  apply inv_bind.
  { destruct passed; subs_seq. }
  intros _.
  apply triple_bind
    with (Q := fun bump w => FrameCaptured (SharpCap w) = L
                             /\ bump = BumpSlew (self w)).
  { apply triple_gets. intros w H. now split. }
  intros bump.
  apply triple_bind
    with (Q := fun _ w => FrameCaptured (SharpCap w) = L /\ BumpSlew (self w) = 0).
  { destruct (bump =? 0) eqn:B; cbn [negb].
    - apply triple_ret. intros w [H ->]. split; [exact H|]. lia.
    - apply triple_modify. intros w [H _]. split; [exact H | reflexivity]. }
  intros _.
  apply triple_bind
    with (Q := fun _ w => FrameCaptured (SharpCap w) = L /\ BumpSlew (self w) = 0
                          /\ AmSlewing (self w) = false).
  { apply triple_modify. intros w [H B]. repeat split; assumption. }
  intros _. apply triple_gets. intros w (H & B & A). repeat split; assumption.
Qed.

(** X4: whenever [SlewPastLimb] returns with the abort flag down, it has
    given everything back: the camera event has the subscribers it had at
    the call, [AmSlewing] is off, no bump request is pending, and the
    result is the [EdgePassed] latch.  A result [True] always means the
    latch is set. *)
Theorem SlewPastLimb_hands_back
  (rate : Py.num) (e e' : env) (w w' : World) (b : bool) :
  SlewPastLimb rate e w = (Ret b, w', e') ->
  (b = true -> EdgePassed (self w') = true)
  /\ (TaskAbortFlag (self w') = false ->
      FrameCaptured (SharpCap w') = FrameCaptured (SharpCap w)
      /\ AmSlewing (self w') = false
      /\ BumpSlew (self w') = 0
      /\ b = EdgePassed (self w')).
Proof.
  intros E.
  assert (T : triple (fun x => x = w) (SlewPastLimb rate)
                (fun b w' =>
                   (b = true -> EdgePassed (self w') = true)
                   /\ (TaskAbortFlag (self w') = false ->
                       FrameCaptured (SharpCap w') = FrameCaptured (SharpCap w)
                       /\ AmSlewing (self w') = false
                       /\ BumpSlew (self w') = 0
                       /\ b = EdgePassed (self w')))).
  { unfold SlewPastLimb.
    eapply triple_bind; [apply slew_start_subscribes|]. intros st.
    eapply triple_bind; [apply wait_exit|]. intros x.
    assert (F : triple
                  (fun w1 => FrameCaptured (SharpCap w1)
                             = FrameCaptured (SharpCap w) ++ [h_acquireFramehandler])
                  (slew_finish (fst st))
                  (fun b w' =>
                     (b = true -> EdgePassed (self w') = true)
                     /\ (TaskAbortFlag (self w') = false ->
                         FrameCaptured (SharpCap w') = FrameCaptured (SharpCap w)
                         /\ AmSlewing (self w') = false
                         /\ BumpSlew (self w') = 0
                         /\ b = EdgePassed (self w')))).
    { eapply triple_weaken; [| |apply slew_finish_hands_back].
      - intros w1 H. exact H.
      - cbn beta. intros b0 w1 (H1 & H2 & H3 & H4). split.
        + intros ->. now symmetry.
        + intros _. repeat split; assumption. }
    destruct x as [| |b0].
    - eapply triple_weaken; [| |exact F]; [intros w1 [H _]; exact H | auto].
    - eapply triple_weaken; [| |exact F]; [intros w1 [H _]; exact H | auto].
    - apply triple_ret. intros w1 [_ H]. destruct (H b0 eq_refl) as [-> Ab].
      split; [discriminate|]. rewrite Ab. discriminate. }
  exact (triple_run _ _ _ e e' w w' b T eq_refl E).
Qed.

Lemma SlewPastLimb_hands_back_witness :
  let bright := FrameArrives (flat_frame 10000) in
  let dark := FrameArrives (flat_frame 0) in
  let w := upd_self (set_SlewFactor (Py.Flt (-0.5))) (World_start 3840 2160) in
  let run := SlewPastLimb (Py.Flt 0.5) [repeat bright 11; repeat dark 11; []] w in
  FrameCaptured (SharpCap (snd (fst run))) = []
  /\ AmSlewing (self (snd (fst run))) = false.
Proof.
  intros bright dark w run.
  destruct (SlewPastLimb_hands_back (Py.Flt 0.5)
              [repeat bright 11; repeat dark 11; []] [] w (snd (fst run)) true)
    as [_ H].
  - vm_compute. reflexivity.
  - destruct H as (F & A & _).
    + vm_compute. reflexivity.
    + split; [exact F | exact A].
Defined.

(** ** Bump nudges *)

Lemma DoBump_while_slewing (r : Z) (w : World) :
  AmSlewing (self w) = true ->
  DoBump r w
  = upd_self (set_BumpSlew (if BumpSwap (self w) then - r else r)) w.
Proof.
  intros A. unfold DoBump. cbn [self upd_self BumpSwap set_BumpSlew].
  destruct (BumpSwap (self w)); cbn [self upd_self AmSlewing BumpSlew set_BumpSlew];
    rewrite A; cbn [negb]; [|reflexivity].
  now replace (r * -1) with (- r) by lia.
Qed.

(** X5: a bump button pressed while a slew is in progress commands
    nothing: it only leaves the requested rate, reversed when the swap box
    is ticked, for the end of the slew.  A second press replaces the
    request of the first. *)
Theorem bump_waits_for_slew_end (requested earlier : Z) (w : World) :
  AmSlewing (self w) = true ->
  log (SharpCap (DoBump requested w)) = log (SharpCap w)
  /\ AxisRate (SharpCap (DoBump requested w)) = AxisRate (SharpCap w)
  /\ BumpSlew (self (DoBump requested w))
     = (if BumpSwap (self w) then - requested else requested)
  /\ BumpSlew (self (DoBump requested (DoBump earlier w)))
     = BumpSlew (self (DoBump requested w)).
Proof.
  intros A.
  rewrite (DoBump_while_slewing earlier w A).
  rewrite (DoBump_while_slewing requested w A).
  rewrite DoBump_while_slewing by exact A.
  repeat split.
Qed.

Lemma bump_waits_for_slew_end_witness :
  let w := upd_self (set_AmSlewing true) (World_start 3840 2160) in
  log (SharpCap (DoBump 4 w)) = [] /\ BumpSlew (self (DoBump 4 w)) = 4.
Proof.
  intros w.
  destruct (bump_waits_for_slew_end 4 0 w) as (L & _ & B & _).
  - reflexivity.
  - split; [exact L | exact B].
Defined.

Lemma DoBump_when_idle (r : Z) (w : World) :
  AmSlewing (self w) = false ->
  DoBump r w
  = DoBumpSlew
      (upd_self (set_BumpSlew (if BumpSwap (self w) then - r else r)) w).
Proof.
  intros A. unfold DoBump. cbn [self upd_self BumpSwap set_BumpSlew].
  destruct (BumpSwap (self w)); cbn [self upd_self AmSlewing BumpSlew set_BumpSlew];
    rewrite A; cbn [negb]; [|reflexivity].
  now replace (r * -1) with (- r) by lia.
Qed.

(** What the nudge itself does. *)
Lemma DoBumpSlew_effect (w : World) :
  log (SharpCap (DoBumpSlew w))
  = log (SharpCap w)
    ++ [MoveAxis (bump_axis w) (Py.Int (BumpSlew (self w)));
        Sleep (Py.Flt 0.25);
        MoveAxis (bump_axis w) (Py.Int 0)]
  /\ BumpSlew (self (DoBumpSlew w)) = 0
  /\ AxisRate (SharpCap (DoBumpSlew w)) (bump_axis w) = Py.Int 0
  /\ (forall a, a <> bump_axis w ->
                AxisRate (SharpCap (DoBumpSlew w)) a = AxisRate (SharpCap w) a).
Proof.
  unfold DoBumpSlew, Mount_MoveAxis, record, bump_axis. cbv zeta.
  cbn [self SharpCap upd_self upd_app log AxisRate BumpSlew AxisToMove
         set_log set_AxisRate set_BumpSlew].
  set (ax := Z.abs (1 - AxisToMove (self w))).
  rewrite Z.eqb_refl, <- !app_assoc. cbn [app].
  repeat split.
  intros a Ha. apply Z.eqb_neq in Ha. now rewrite Ha.
Qed.

(** X6: a bump button pressed while no slew is in progress nudges at once:
    the other axis is moved at the requested rate (reversed by the swap
    box) for a quarter of a second and stopped, the scan axis is not
    commanded, and no request stays pending.  With the scan axis 0 or 1
    the axis nudged is the other one of the two. *)
Theorem bump_nudges_other_axis (requested : Z) (w : World) :
  AmSlewing (self w) = false ->
  let r := if BumpSwap (self w) then - requested else requested in
  let w' := DoBump requested w in
  log (SharpCap w')
  = log (SharpCap w)
    ++ [MoveAxis (bump_axis w) (Py.Int r); Sleep (Py.Flt 0.25);
        MoveAxis (bump_axis w) (Py.Int 0)]
  /\ BumpSlew (self w') = 0
  /\ AxisRate (SharpCap w') (bump_axis w) = Py.Int 0
  /\ (forall a, a <> bump_axis w ->
                AxisRate (SharpCap w') a = AxisRate (SharpCap w) a)
  /\ (AxisToMove (self w) = 0 \/ AxisToMove (self w) = 1 ->
      bump_axis w = 1 - AxisToMove (self w)
      /\ bump_axis w <> AxisToMove (self w)).
Proof.
  intros A r w'. unfold w'. rewrite (DoBump_when_idle requested w A).
  fold r.
  destruct (DoBumpSlew_effect (upd_self (set_BumpSlew r) w)) as (L & B & R & O).
  repeat split; try assumption.
  - unfold bump_axis. lia.
  - unfold bump_axis. lia.
Qed.

Lemma bump_nudges_other_axis_witness :
  let w := World_start 3840 2160 in
  log (SharpCap (DoBump 4 w))
  = [MoveAxis 1 (Py.Int 4); Sleep (Py.Flt 0.25); MoveAxis 1 (Py.Int 0)]
  /\ bump_axis w <> AxisToMove (self w).
Proof.
  intros w.
  destruct (bump_nudges_other_axis 4 w) as (L & _ & _ & _ & X).
  - reflexivity.
  - split; [exact L|]. apply X. left. reflexivity.
Defined.

(** ** Saving and restoring the mount position *)

(** X7: [RestorePos] brings the mount back to where [SavePos] found it,
    whatever events came in between, by a slew at the 32x rate, and it
    leaves the rate selected as it found it. *)
Theorem RestorePos_returns_to_saved (w : World) (evs : list event) :
  let w1 := deliver evs (SavePos w) in
  Coordinates (SharpCap (RestorePos w1)) = Coordinates (SharpCap w)
  /\ SelectedRate (SharpCap (RestorePos w1)) = SelectedRate (SharpCap w1)
  /\ log (SharpCap (RestorePos w1))
     = log (SharpCap w1)
       ++ [SetSelectedRate (ForSiderealRate 32);
           SlewTo (Some (Coordinates (SharpCap w)));
           SetSelectedRate (SelectedRate (SharpCap w1))].
Proof.
  intros w1.
  assert (S : SavedCoords (self w1) = Some (Coordinates (SharpCap w))).
  { destruct (settings_SavedCoords w1 (SavePos w)) as (Sc & _).
    - apply deliver_settings.
    - exact Sc. }
  unfold RestorePos, Mount_SlewTo. cbv zeta.
  change (SavedCoords (self (Mount_set_SelectedRate (ForSiderealRate 32) w1)))
    with (SavedCoords (self w1)).
  rewrite S. cbn. rewrite <- !app_assoc. repeat split.
Qed.

(** ** How a run ends *)

Lemma triple_conj {A : Type} (P P' : World -> Prop) (c : M A)
  (Q Q' : A -> World -> Prop) :
  triple P c Q -> triple P' c Q' ->
  triple (fun w => P w /\ P' w) c (fun a w => Q a w /\ Q' a w).
Proof.
  intros H H' e w [Hw Hw']. specialize (H e w Hw). specialize (H' e w Hw').
  destruct (c e w) as [[[a|x|] w1] e1]; auto.
Qed.

(** A fact that does not depend on the state can be taken out of the
    precondition. *)
Lemma triple_assume {A : Type} (phi : Prop) (P : World -> Prop) (c : M A)
  (Q : A -> World -> Prop) :
  (phi -> triple P c Q) -> triple (fun w => phi /\ P w) c Q.
Proof. intros H e w [Hp Hw]. exact (H Hp e w Hw). Qed.

Lemma triple_raise {A B : Type} (P : World -> Prop) (x : Py.exn)
  (k : A -> M B) (R : B -> World -> Prop) :
  triple P (mbind (lift (Py.Raise x)) k) R.
Proof. intros e w _. exact I. Qed.

Lemma deliver_Capturing (evs : list event) (w : World) :
  Capturing (SharpCap (deliver evs w)) = Capturing (SharpCap w).
Proof.
  pose proof (deliver_capture_state evs w) as H. unfold capture_state in H.
  now injection H.
Qed.

(** Statements that leave the capture switch alone. *)
Ltac cap_atom :=
  match goal with
  | |- triple _ (modify _) _ => apply triple_modify; intros ? H; exact H
  | |- triple _ (gets _) _ => apply triple_gets; intros ? H; exact H
  | |- triple _ time_time _ => apply triple_gets; intros ? H; exact H
  | |- triple _ (lift _) _ => apply triple_lift; intros ? ? ? H; exact H
  | |- triple _ (ret _) _ => apply triple_ret; intros ? H; exact H
  | |- triple _ (time_sleep _) _ =>
      apply triple_sleep; intros ? ? H; rewrite deliver_Capturing; exact H
  end.

Ltac cap_seq :=
  repeat (first [ cap_atom | apply inv_bind; [|intros ?] ]).

Lemma Capturing_wait (c : bool) (rate : Py.num) (t0 : float) :
  triple (fun w => Capturing (SharpCap w) = c) (wait_past_limb rate t0)
         (fun _ w => Capturing (SharpCap w) = c).
Proof.
  intros e. induction e as [|b e IH]; intros w Hw; [exact I|].
  cbn [wait_past_limb].
  assert (Hd : Capturing (SharpCap (deliver b w)) = c)
    by now rewrite deliver_Capturing.
  destruct (EdgePassed (self (deliver b w))); [exact Hd|].
  destruct (TaskAbortFlag (self (deliver b w))); [exact Hd|].
  destruct (Py.gt _ _); [|now apply IH].
  assert (T : triple (fun w => Capturing (SharpCap w) = c)
                (limb_timeout rate (now (SharpCap (deliver b w)) - t0) ;;; ret Break)
                (fun _ w => Capturing (SharpCap w) = c)).
  { unfold limb_timeout. cap_seq. }
  exact (T e (deliver b w) Hd).
Qed.

(** A slew neither starts nor stops the capture. *)
Lemma Capturing_SlewPastLimb (c : bool) (rate : Py.num) :
  triple (fun w => Capturing (SharpCap w) = c) (SlewPastLimb rate)
         (fun _ w => Capturing (SharpCap w) = c).
Proof.
  unfold SlewPastLimb.
  apply inv_bind; [unfold slew_start; cap_seq|]. intros st.
  apply inv_bind; [apply Capturing_wait|]. intros x.
  destruct x; [| |apply triple_ret; auto];
    unfold slew_finish;
    (apply inv_bind; [cap_atom|]; intros _;
     apply inv_bind; [cap_atom|]; intros passed;
     apply inv_bind; [destruct passed; cap_seq|]; intros _;
     apply inv_bind; [cap_atom|]; intros bump;
     apply inv_bind; [destruct (negb (bump =? 0)); cap_seq|]; intros _;
     cap_seq).
Qed.

(** A cycle that falls through to the next one has stopped its capture. *)
Lemma cycle_body_stops_capture (l : locals) :
  triple (fun _ => True) (cycle_body l)
    (fun x w' =>
       match x with
       | NextCycle _ => Capturing (SharpCap w') = false
       | Returned => True
       end).
Proof.
  unfold cycle_body.
  do 5 (eapply triple_bind with (Q := fun _ _ => True);
          [apply triple_any | intros ?]).
  eapply triple_bind with (Q := fun _ w => Capturing (SharpCap w) = false).
  { apply triple_modify. reflexivity. }
  intros _. apply inv_bind; [cap_atom|]; intros t1.
  apply inv_bind; [cap_atom|]; intros abort.
  destruct abort.
  { eapply triple_bind with (Q := fun _ _ => True); [apply triple_any|].
    intros _. apply triple_ret. auto. }
  apply inv_bind; [cap_atom|]; intros bidir.
  apply inv_bind.
  { destruct bidir.
    - do 4 (eapply triple_bind with (Q := fun _ _ => True);
              [apply triple_any | intros ?]).
      apply triple_modify. reflexivity.
    - apply inv_bind; [cap_atom|]; intros f.
      apply inv_bind; [cap_atom|]; intros back.
      apply inv_bind; [apply Capturing_SlewPastLimb|]; intros _.
      cap_atom. }
  intros _. apply inv_bind; [cap_atom|]; intros abort.
  destruct abort.
  { eapply triple_bind with (Q := fun _ _ => True); [apply triple_any|].
    intros _. apply triple_ret. auto. }
  apply inv_bind; [cap_atom|]; intros txt.
  apply inv_bind; [cap_atom|]; intros d.
  apply inv_bind; [cap_atom|]; intros _.
  apply inv_bind; [cap_atom|]; intros _.
  apply triple_ret. auto.
Qed.

Lemma cycles_stop_capture (n : nat) (l : locals) :
  triple (fun w => endTime l <> None -> Capturing (SharpCap w) = false)
    (cycles n l)
    (fun x w' =>
       match x with
       | NextCycle l' => endTime l' <> None -> Capturing (SharpCap w') = false
       | Returned => True
       end).
Proof.
  revert l. induction n as [|n IH]; intros l; cbn [cycles].
  - apply triple_ret. auto.
  - eapply triple_bind.
    { eapply triple_weaken; [| |apply (cycle_body_stops_capture l)];
        [intros w0 _; exact I | intros a w0 H; exact H]. }
    intros [l'|].
    + eapply triple_weaken; [| |apply (IH l')]; [|auto].
      cbn beta. intros w H _. exact H.
    + apply triple_ret. auto.
Qed.

(** X8: a run of [DoGo] that returns, completed or aborted, leaves the
    camera not capturing, the scan axis commanded to rate 0, the Go button
    enabled and the Abort button disabled. *)
Theorem DoGo_run_leaves_idle (e e' : env) (w w' : World) (r : run_end) :
  DoGo_run e w = (Ret r, w', e') ->
  Capturing (SharpCap w') = false
  /\ AxisRate (SharpCap w') (AxisToMove (self w)) = Py.Int 0
  /\ goButton_Enabled (self w') = true
  /\ abortButton_Enabled (self w') = false.
Proof.
  intros E. destruct r.
  - destruct (DoGo_run_aborted _ _ _ _ E) as (w1 & -> & Ab & S).
    destruct (settings_SavedCoords _ _ S) as (Sc & _ & Ax & _).
    change (SavedCoords (self (SavePos w))) with (Some (Coordinates (SharpCap w)))
      in Sc.
    change (AxisToMove (self (SavePos w))) with (AxisToMove (self w)) in Ax.
    destruct (DoAbortTask_effect w1 _ Sc) as (_ & C & R & _).
    rewrite Ax in R. repeat split; [exact C | exact R].
  - set (s := run_settings (SavePos w)).
    assert (T : triple (fun x => x = w) DoGo_run
                  (fun x w' =>
                     match x with
                     | Aborted => True
                     | Completed =>
                         Capturing (SharpCap w') = false
                         /\ AxisRate (SharpCap w') (AxisToMove (self w)) = Py.Int 0
                         /\ goButton_Enabled (self w') = true
                         /\ abortButton_Enabled (self w') = false
                     end)).
    { unfold DoGo_run.
      eapply triple_bind with (Q := fun _ => has_settings s).
      { apply triple_modify. intros x ->. reflexivity. }
      intros _.
      apply inv_bind; [settings_atom2|]; intros f.
      apply inv_bind; [settings_atom2|]; intros _.
      apply triple_abort_check; [auto|].
      apply inv_bind; [unfold progBar_assign; settings_seq|]; intros _.
      apply inv_bind; [settings_atom2|]; intros n.
      eapply triple_bind.
      { eapply triple_weaken;
          [| |apply (triple_conj _ _ _ _ _
                       (cycles_exit s (Z.to_nat n)
                          {| startTime := None; endTime := None |})
                       (cycles_stop_capture (Z.to_nat n)
                          {| startTime := None; endTime := None |}))].
        - cbn beta. intros w0 H. split; [exact H|].
          cbn [endTime]. intros N. now contradiction N.
        - intros a w0 H. exact H. }
      intros [l|]; [|apply triple_ret; auto].
      destruct (endTime l) as [t1|] eqn:E1; cbn [local].
      2:{ eapply triple_bind with (Q := fun _ _ => True); [apply triple_any|].
          intros _. apply triple_raise. }
      eapply triple_bind
        with (Q := fun _ w0 => has_settings s w0 /\ Capturing (SharpCap w0) = false).
      { apply triple_modify. intros w0 [[H _] C]. split; [exact H|].
        apply C. discriminate. }
      intros _.
      apply inv_bind; [apply triple_ret; auto|]; intros t1'.
      apply inv_bind.
      { destruct (startTime l); cbn [local];
          [apply triple_ret; auto | apply triple_lift; intros; discriminate]. }
      intros t0.
      apply inv_bind; [apply triple_lift; intros ? ? _ H; exact H|]; intros d.
      apply inv_bind.
      { apply triple_sleep. intros b w0 [H C]. split.
        - unfold has_settings. rewrite deliver_settings. exact H.
        - rewrite deliver_Capturing. exact C. }
      intros _.
      eapply triple_bind
        with (Q := fun _ w0 =>
                     Capturing (SharpCap w0) = false
                     /\ AxisRate (SharpCap w0) (AxisToMove (self w)) = Py.Int 0).
      { apply triple_modify. intros w0 [H C]. split; [exact C|].
        destruct (settings_SavedCoords w0 (SavePos w) H) as (_ & _ & Ax & _).
        change (AxisToMove (self (SavePos w))) with (AxisToMove (self w)) in Ax.
        rewrite Ax. unfold Mount_MoveAxis.
        cbn [SharpCap upd_app AxisRate set_AxisRate]. now rewrite Z.eqb_refl. }
      intros _.
      eapply triple_bind
        with (Q := fun _ w0 =>
                     Capturing (SharpCap w0) = false
                     /\ AxisRate (SharpCap w0) (AxisToMove (self w)) = Py.Int 0
                     /\ goButton_Enabled (self w0) = true
                     /\ abortButton_Enabled (self w0) = false).
      { apply triple_modify. intros w0 [C R]. repeat split; assumption. }
      intros _. apply triple_ret. auto. }
    exact (triple_run _ _ _ _ _ _ _ _ T eq_refl E).
Qed.

Lemma DoGo_run_leaves_idle_witness :
  let bright := FrameArrives (flat_frame 10000) in
  let dark := FrameArrives (flat_frame 0) in
  let pass := [repeat bright 11; repeat dark 11; []] in
  let w := upd_self (set_NumCycles 1)
             (upd_self (set_SlewFactor (Py.Flt (-0.5))) (World_start 3840 2160)) in
  let run := DoGo_run (pass ++ pass ++ pass ++ [[]; []]) w in
  Capturing (SharpCap (snd (fst run))) = false
  /\ goButton_Enabled (self (snd (fst run))) = true.
Proof.
  intros bright dark pass w run.
  destruct (DoGo_run_leaves_idle (pass ++ pass ++ pass ++ [[]; []]) []
              w (snd (fst run)) Completed)
    as (C & _ & G & _).
  - vm_compute. reflexivity.
  - split; [exact C | exact G].
Defined.

(** ** Reading the settings file *)

Lemma all_chars_app (p : ascii -> bool) (a b : string) :
  all_chars p (a ++ b) = all_chars p a && all_chars p b.
Proof.
  induction a as [|c a IH]; [reflexivity|].
  cbn [append all_chars]. rewrite IH. apply andb_assoc.
Qed.

Lemma all_chars_impl (p q : ascii -> bool) (s : string) :
  (forall c, p c = true -> q c = true) ->
  all_chars p s = true -> all_chars q s = true.
Proof.
  intros H. induction s as [|c s IH]; [reflexivity|].
  cbn [all_chars]. intros E. apply andb_prop in E as [E1 E2].
  now rewrite (H c E1), (IH E2).
Qed.

Lemma take_while_all (p : ascii -> bool) (s : string) :
  all_chars p s = true -> take_while p s = s.
Proof.
  induction s as [|c s IH]; [reflexivity|].
  cbn [all_chars take_while]. intros E. apply andb_prop in E as [E1 E2].
  now rewrite E1, (IH E2).
Qed.

Lemma all_chars_take_while (p : ascii -> bool) (s : string) :
  all_chars p (take_while p s) = true.
Proof.
  induction s as [|c s IH]; [reflexivity|].
  cbn [take_while]. destruct (p c) eqn:E; [|reflexivity].
  cbn [all_chars]. now rewrite E, IH.
Qed.

Lemma starts_with_take_while (p : ascii -> bool) (s : string) :
  starts_with p s = true -> starts_with p (take_while p s) = true.
Proof.
  destruct s as [|c s]; [discriminate|].
  cbn [starts_with take_while]. intros E. now rewrite E.
Qed.

(** The groups of a match: a non-empty run of letters, and a non-empty run
    of value characters. *)
Lemma re_search_from_groups (s key k v : string) :
  all_chars is_letter key = true ->
  re_search_from key s = Some (k, v) ->
  k <> EmptyString /\ all_chars is_letter k = true /\ value_text v = true.
Proof.
  revert key. induction s as [|c s IH]; intros key Hk; [discriminate|].
  cbn [re_search_from]. destruct (is_letter c) eqn:L.
  - apply IH. rewrite all_chars_app, Hk. cbn [all_chars]. now rewrite L.
  - destruct (Ascii.eqb c "=" && negb (String.eqb key EmptyString)
              && starts_with is_value_char s) eqn:Mt.
    + intros E. injection E as <- <-.
      apply andb_prop in Mt as [Mt V]. apply andb_prop in Mt as [_ N].
      repeat split.
      * intros ->. discriminate.
      * exact Hk.
      * unfold value_text.
        now rewrite (starts_with_take_while _ _ V), all_chars_take_while.
    + now apply IH.
Qed.

Lemma not_sign_parse_int (s : string) :
  starts_with is_value_char s = true -> Py.parse_int s = Py.parse_nat s.
Proof.
  destruct s as [|c s]; [discriminate|]. cbn [starts_with]. intros V.
  destruct c as [[] [] [] [] [] [] [] []]; try reflexivity; discriminate.
Qed.

Lemma parse_nat_not_negative (s : string) (n : Z) :
  Py.parse_nat s = Py.Val n -> 0 <= n.
Proof.
  unfold Py.parse_nat. destruct (NilZero.uint_of_string s) as [d|]; [|discriminate].
  intros E. injection E as <-. unfold Z.of_uint. apply N2Z.is_nonneg.
Qed.

Lemma value_parse_int_not_negative (v : string) (n : Z) :
  value_text v = true -> Py.parse_int v = Py.Val n -> 0 <= n.
Proof.
  unfold value_text. intros V E. apply andb_prop in V as [V _].
  rewrite (not_sign_parse_int v V) in E. now apply parse_nat_not_negative in E.
Qed.

Lemma settings_item_counts (item : string) (w w' : World) :
  settings_item item w = Py.Val w' ->
  counts_not_negative w -> counts_not_negative w'.
Proof.
  unfold settings_item. destruct (re_search item) as [[key value]|] eqn:R.
  2:{ intros E. injection E as <-. auto. }
  destruct (re_search_from_groups item EmptyString key value eq_refl R)
    as (_ & _ & V).
  unfold counts_not_negative. intros E (H1 & H2 & H3 & H4).
  repeat
    match type of E with
    | (if ?c then _ else _) = _ => destruct c
    | Py.bind (Py.parse_int value) _ = _ =>
        let P := fresh "P" in
        destruct (Py.parse_int value) as [n|] eqn:P; [|discriminate];
        apply (value_parse_int_not_negative _ _ V) in P
    | Py.bind (Py.parse_float value) _ = _ =>
        destruct (Py.parse_float value) as [x|]; [|discriminate]
    | _ => progress cbn [Py.bind] in E
    end;
    injection E as <-; cbn; auto.
Qed.

(** X9: the settings reader never assigns a negative count.  The value
    group of its pattern cannot hold a sign, so if [NumCycles], [SunWidth],
    [BumpRate] and [AxisToMove] are not negative before [getSettings],
    they are not negative after it, whatever the file holds. *)
Theorem getSettings_counts_not_negative (w : World) :
  counts_not_negative w -> counts_not_negative (getSettings w).
Proof.
  unfold getSettings. destruct (SHG_cfg w) as [config|]; [|auto].
  generalize (split_lines config). intros items. revert w.
  induction items as [|item items IH]; intros w H; [exact H|].
  cbn [settings_items]. destruct (settings_item item w) as [w'|x] eqn:E.
  - apply IH. exact (settings_item_counts item w w' E H).
  - exact H.
Qed.

Lemma getSettings_counts_not_negative_witness :
  let w := set_SHG_cfg (Some "NumCycles=-3"%string) (World_start 3840 2160) in
  NumCycles (self (getSettings w)) = 15 /\ counts_not_negative (getSettings w).
Proof.
  intros w. split; [reflexivity|].
  apply (getSettings_counts_not_negative w).
  unfold counts_not_negative.
  repeat split; apply Z.leb_le; vm_compute; reflexivity.
Defined.

(** A line in which no letter run is followed by [=] has no match. *)
Lemma re_search_from_no_equals (s key : string) :
  all_chars not_equals_sign s = true -> re_search_from key s = None.
Proof.
  revert key. induction s as [|c s IH]; intros key; [reflexivity|].
  cbn [all_chars re_search_from]. intros E. apply andb_prop in E as [E1 E2].
  destruct (is_letter c); [now apply IH|].
  unfold not_equals_sign in E1. apply negb_true_iff in E1. rewrite E1.
  cbn [andb]. now apply IH.
Qed.

(** X10: a line without [=] (the empty line a final newline leaves, for
    one) is reported with a warning and skipped: the lines after it are
    still read, from a form it has not changed. *)
Theorem line_without_equals_is_skipped (item : string) (rest : list string)
  (w : World) :
  all_chars not_equals_sign item = true ->
  settings_items (item :: rest) w
  = settings_items rest (ShowNotification_ (ConfigParseWarning item) Warning w)
  /\ self (ShowNotification_ (ConfigParseWarning item) Warning w) = self w.
Proof.
  intros H. cbn [settings_items]. unfold settings_item, re_search.
  rewrite (re_search_from_no_equals item EmptyString H). split; reflexivity.
Qed.

Lemma line_without_equals_is_skipped_witness :
  let w := World_start 3840 2160 in
  NumCycles (self (settings_items [""; "NumCycles=7"]%string w)) = 7.
Proof.
  intros w.
  destruct (line_without_equals_is_skipped ""%string ["NumCycles=7"%string] w)
    as [E _].
  - reflexivity.
  - rewrite E. reflexivity.
Defined.

(** The match on a line made of a key, [=] and a value. *)
Lemma re_search_from_key_value (key acc value : string) :
  all_chars is_letter key = true ->
  (acc ++ key)%string <> EmptyString ->
  value_text value = true ->
  re_search_from acc (key ++ "=" ++ value) = Some ((acc ++ key)%string, value).
Proof.
  revert acc. induction key as [|c key IH]; intros acc L N V.
  - cbn [append re_search_from].
    change (is_letter "=") with false. cbv iota.
    change (Ascii.eqb "=" "=") with true.
    unfold value_text in V. apply andb_prop in V as [V1 V2].
    rewrite V1, (take_while_all _ _ V2).
    assert (A : (acc ++ "")%string = acc)
      by (clear; induction acc as [|a acc IH]; [reflexivity | cbn; now rewrite IH]).
    rewrite A in *. destruct acc; [contradiction|reflexivity].
  - cbn [all_chars] in L. apply andb_prop in L as [L1 L2].
    cbn [append re_search_from]. rewrite L1.
    assert (A : ((acc ++ String c "") ++ key)%string = (acc ++ String c key)%string)
      by (clear; induction acc as [|a acc IH]; [reflexivity | cbn; now rewrite IH]).
    rewrite IH; [now rewrite A | exact L2 | now rewrite A | exact V].
Qed.

Lemma re_search_key_value (key value : string) :
  all_chars is_letter key = true -> key <> EmptyString ->
  value_text value = true ->
  re_search (key ++ "=" ++ value) = Some (key, value).
Proof.
  intros L N V. unfold re_search.
  now rewrite (re_search_from_key_value key EmptyString value L N V).
Qed.

(** What [getSettings] does with a line [key=value] for each of its keys. *)
Lemma settings_item_key_value (key value : string) (w : World) :
  In key known_keys -> value_text value = true ->
  settings_item (key ++ "=" ++ value) w
  = if String.eqb key "NumCycles" then
      Py.bind (Py.parse_int value) (fun n => Py.Val (upd_self (set_NumCycles n) w))
    else if String.eqb key "SunWidth" then
      Py.bind (Py.parse_int value) (fun n => Py.Val (upd_self (set_SunWidth n) w))
    else if String.eqb key "CycleSleep" then
      Py.bind (Py.parse_float value) (fun x => Py.Val (upd_self (set_CycleSleep x) w))
    else if String.eqb key "SlewPad" then
      Py.bind (Py.parse_float value) (fun x => Py.Val (upd_self (set_SlewPad x) w))
    else if String.eqb key "LimbThreshold" then
      Py.bind (Py.parse_float value) (fun x =>
      Py.Val (upd_self (set_LimbThreshold (Py.float_of_Z MAX_BRIGHT * x)%float) w))
    else if String.eqb key "Bidirectional" then
      Py.Val (upd_self (set_Bidirectional (String.eqb value "True")) w)
    else if String.eqb key "BumpSwap" then
      Py.Val (upd_self (set_BumpSwap (String.eqb value "True")) w)
    else if String.eqb key "BumpRate" then
      Py.bind (Py.parse_int value) (fun n => Py.Val (upd_self (set_BumpRate n) w))
    else
      Py.bind (Py.parse_int value) (fun n => Py.Val (upd_self (set_AxisToMove n) w)).
Proof.
  intros K V. unfold settings_item.
  rewrite (re_search_key_value key value); [| | |exact V].
  - cbn in K.
    repeat (destruct K as [<-|K]; [cbn [String.eqb Ascii.eqb Bool.eqb];
                                  try reflexivity|]); try contradiction.
    destruct (Py.parse_float value); reflexivity.
  - cbn in K.
    repeat (destruct K as [<-|K]; [reflexivity|]); contradiction.
  - cbn in K.
    repeat (destruct K as [<-|K]; [discriminate|]); contradiction.
Qed.

(** X11: a value the conversion of its key rejects ends the reading: the
    error notification is shown, the lines after it are not read, and
    what earlier lines assigned stays.  (A line the pattern does not
    match is only skipped.) *)
Theorem bad_value_stops_the_read (key value : string) (x : Py.exn)
  (rest : list string) (w : World) :
  value_text value = true ->
  (In key int_keys /\ Py.parse_int value = Py.Raise x)
  \/ (In key float_keys /\ Py.parse_float value = Py.Raise x) ->
  settings_items ((key ++ "=" ++ value)%string :: rest) w
  = ShowNotification_ SettingsReadError Error w.
Proof.
  intros V H. cbn [settings_items].
  rewrite settings_item_key_value; [|unfold known_keys; rewrite !in_app_iff; tauto
                                    |exact V].
  destruct H as [[K P]|[K P]]; cbn in K;
    repeat (destruct K as [<-|K];
            [cbn [String.eqb Ascii.eqb Bool.eqb]; rewrite P; reflexivity|]);
    contradiction.
Qed.

Lemma bad_value_stops_the_read_witness :
  let w := World_start 3840 2160 in
  SunWidth (self (settings_items ["NumCycles=1.5"; "SunWidth=2000"]%string w))
  = 2300.
Proof.
  intros w.
  change (settings_items ["NumCycles=1.5"; "SunWidth=2000"]%string w)
    with (settings_items
            (("NumCycles" ++ "=" ++ "1.5")%string :: ["SunWidth=2000"%string]) w).
  rewrite (bad_value_stops_the_read "NumCycles" "1.5" Py.ValueError
             ["SunWidth=2000"%string] w).
  - reflexivity.
  - reflexivity.
  - left. split; [left; reflexivity | reflexivity].
Defined.

(** X12: a line whose key is none of the nine is passed over in silence:
    no assignment, and no notification either. *)
Theorem unknown_key_is_ignored (item key value : string) (w : World) :
  re_search item = Some (key, value) -> ~ In key known_keys ->
  settings_item item w = Py.Val w.
Proof.
  intros R K. unfold settings_item. rewrite R.
  repeat
    match goal with
    | |- (if String.eqb key ?k then _ else _) = _ =>
        let E := fresh "E" in
        destruct (String.eqb key k) eqn:E;
        [apply String.eqb_eq in E; subst key; exfalso; apply K;
         unfold known_keys, int_keys, float_keys, bool_keys; cbn; tauto|]
    end.
  reflexivity.
Qed.

Lemma unknown_key_is_ignored_witness :
  settings_item "Exposure=12"%string (World_start 3840 2160)
  = Py.Val (World_start 3840 2160).
Proof.
  apply (unknown_key_is_ignored _ "Exposure" "12").
  - reflexivity.
  - unfold known_keys, int_keys, float_keys, bool_keys. cbn.
    intros H. repeat (destruct H as [H|H]; [discriminate|]). exact H.
Defined.

(** ** Writing the settings and reading them back *)

Lemma digit_is_value_char (c : ascii) :
  Py.is_digit c = true -> is_value_char c = true.
Proof. unfold is_value_char. now intros ->. Qed.

Lemma value_char_not_newline (c : ascii) :
  is_value_char c = true -> not_newline c = true.
Proof.
  unfold not_newline. destruct (Ascii.eqb c (ascii_of_nat 10)) eqn:E; [|reflexivity].
  apply Ascii.eqb_eq in E. subst c. discriminate.
Qed.

Lemma string_of_uint_digits (d : Decimal.uint) :
  all_chars Py.is_digit (NilEmpty.string_of_uint d) = true.
Proof. induction d; cbn [NilEmpty.string_of_uint all_chars]; now rewrite ?IHd. Qed.

(** [str] of an integer that is not negative: digits, at least one. *)
Lemma str_int_digits (z : Z) :
  0 <= z ->
  starts_with Py.is_digit (Py.str_int z) = true
  /\ all_chars Py.is_digit (Py.str_int z) = true.
Proof.
  intros H. unfold Py.str_int. destruct z as [|p|p]; [now split| |lia].
  cbn [Z.to_int NilZero.string_of_int]. unfold NilZero.string_of_uint.
  pose proof (DecimalPos.Unsigned.to_uint_nonnil p) as N.
  pose proof (string_of_uint_digits (Pos.to_uint p)) as D.
  destruct (Pos.to_uint p); [contradiction| | | | | | | | | |];
    (split; [reflexivity | exact D]).
Qed.

Lemma digits_value_text (s : string) :
  starts_with Py.is_digit s = true -> all_chars Py.is_digit s = true ->
  value_text s = true.
Proof.
  intros S A. unfold value_text.
  rewrite (all_chars_impl _ _ s digit_is_value_char A).
  destruct s as [|c s]; [discriminate|]. cbn [starts_with] in *.
  now rewrite (digit_is_value_char c S).
Qed.

(** [int(str(z))] is [z]. *)
Lemma parse_int_str_int (z : Z) : 0 <= z -> Py.parse_int (Py.str_int z) = Py.Val z.
Proof.
  intros H. destruct (str_int_digits z H) as [S A].
  rewrite not_sign_parse_int.
  2:{ pose proof (digits_value_text _ S A) as V. unfold value_text in V.
      now apply andb_prop in V as [V _]. }
  unfold Py.parse_nat, Py.str_int. destruct z as [|p|p]; [reflexivity| |lia].
  cbn [Z.to_int NilZero.string_of_int].
  rewrite NilZero.usu by apply DecimalPos.Unsigned.to_uint_nonnil.
  unfold Z.of_uint. now rewrite DecimalPos.Unsigned.of_to.
Qed.

Lemma span_digits_app (ds rest : string) :
  all_chars Py.is_digit ds = true -> starts_with Py.is_digit rest = false ->
  Py.span_digits (ds ++ rest) = (ds, rest).
Proof.
  intros A R. induction ds as [|c ds IH].
  - cbn [append]. destruct rest as [|c rest]; [reflexivity|].
    cbn [starts_with] in R. cbn [Py.span_digits]. now rewrite R.
  - cbn [all_chars] in A. apply andb_prop in A as [A1 A2].
    cbn [append Py.span_digits]. now rewrite A1, (IH A2).
Qed.

Lemma span_digits_all (ds : string) :
  all_chars Py.is_digit ds = true -> Py.span_digits ds = (ds, EmptyString).
Proof.
  intros A. induction ds as [|c ds IH]; [reflexivity|].
  cbn [all_chars] in A. apply andb_prop in A as [A1 A2].
  cbn [Py.span_digits]. now rewrite A1, (IH A2).
Qed.

(** [float] of digits, a point, digits. *)
Lemma parse_float_fixed (c : ascii) (ds1 ds2 : string) :
  Py.is_digit c = true -> all_chars Py.is_digit ds1 = true ->
  all_chars Py.is_digit ds2 = true ->
  Py.parse_float (String c ds1 ++ "." ++ ds2)
  = Py.Val (Py.float_of_decimal (Py.digits_value (String c ds1 ++ ds2))
              (0 - Z.of_nat (String.length ds2))).
Proof.
  intros C A1 A2.
  assert (P : Py.parse_float (String c ds1 ++ "." ++ ds2)
              = Py.parse_unsigned_float (String c ds1 ++ "." ++ ds2)).
  { cbn [append Py.parse_float].
    destruct c as [[] [] [] [] [] [] [] []]; try discriminate; reflexivity. }
  rewrite P. unfold Py.parse_unsigned_float.
  assert (L : forall t : string,
             String.eqb (Py.lower_string (String c ds1 ++ "." ++ ds2)) t = true ->
             starts_with Py.is_digit t = true).
  { intros t E. apply String.eqb_eq in E. subst t.
    cbn [append Py.lower_string starts_with]. unfold Py.lower.
    destruct c as [[] [] [] [] [] [] [] []]; try discriminate; reflexivity. }
  destruct (String.eqb _ "inf") eqn:E1; [apply L in E1; discriminate|].
  destruct (String.eqb _ "infinity") eqn:E2; [apply L in E2; discriminate|].
  destruct (String.eqb _ "nan") eqn:E3; [apply L in E3; discriminate|].
  cbn [orb].
  rewrite (span_digits_app (String c ds1) ("." ++ ds2));
    [|cbn [all_chars]; now rewrite C, A1 | reflexivity].
  cbn [append]. rewrite (span_digits_all ds2 A2).
  cbn [String.length Nat.add Nat.eqb Py.parse_exponent Py.bind].
  reflexivity.
Qed.

Lemma hundredths_not_negative (m : positive) (e : Z) : 0 <= Py.hundredths m e.
Proof.
  unfold Py.hundredths. destruct (0 <=? e) eqn:E.
  - apply Z.leb_le in E. apply Z.mul_nonneg_nonneg; [|lia].
    apply Z.mul_nonneg_nonneg; [lia|]. now apply Z.pow_nonneg.
  - apply Z.leb_gt in E.
    assert (D : 0 < 2 ^ (- e)) by (apply Z.pow_pos_nonneg; lia).
    assert (Q : 0 <= Z.pos m * 100 / 2 ^ (- e))
      by (apply Z.div_pos; lia).
    cbv zeta. destruct (_ ?= _); [destruct (Z.even _)| |]; lia.
Qed.

Lemma two_digits_digits (z : Z) :
  0 <= z -> all_chars Py.is_digit (Py.two_digits z) = true.
Proof.
  intros H. unfold Py.two_digits. destruct (str_int_digits z H) as [_ A].
  destruct (z <? 10); [cbn [all_chars]|]; exact A.
Qed.

(** The two-decimal text of a plain amount is a value the settings pattern
    takes whole, and [float] reads it. *)
Lemma fmt2f_plain (x : float) :
  plain_amount x = true ->
  value_text (Py.fmt2f x) = true
  /\ exists y : float, Py.parse_float (Py.fmt2f x) = Py.Val y.
Proof.
  unfold plain_amount, Py.fmt2f.
  destruct (Prim2SF x) as [[]| | |[] m e]; try discriminate; intros _.
  - split; [reflexivity|]. eexists. vm_compute. reflexivity.
  - cbv zeta. cbn [append].
    pose proof (hundredths_not_negative m e) as H.
    assert (H1 : 0 <= Py.hundredths m e / 100) by (apply Z.div_pos; lia).
    assert (H2 : 0 <= Py.hundredths m e mod 100) by (apply Z.mod_pos_bound; lia).
    destruct (str_int_digits _ H1) as [S A].
    pose proof (two_digits_digits _ H2) as T.
    set (whole := Py.str_int (Py.hundredths m e / 100)) in *.
    set (cents := Py.two_digits (Py.hundredths m e mod 100)) in *.
    destruct whole as [|c ds1]; [discriminate|].
    cbn [starts_with] in S. cbn [all_chars] in A.
    apply andb_prop in A as [_ A]. split.
    + unfold value_text. cbn [append starts_with all_chars].
      rewrite (digit_is_value_char c S). cbn [andb].
      rewrite all_chars_app. cbn [all_chars].
      rewrite (all_chars_impl _ _ ds1 digit_is_value_char A).
      now rewrite (all_chars_impl _ _ cents digit_is_value_char T).
    + eexists. apply (parse_float_fixed c ds1 cents S A T).
Qed.

Lemma split_lines_line (a rest : string) :
  all_chars not_newline a = true ->
  split_lines (a ++ nl ++ rest) = a :: split_lines rest.
Proof.
  intros A. induction a as [|c a IH]; [reflexivity|].
  cbn [all_chars] in A. apply andb_prop in A as [A1 A2].
  cbn [append split_lines]. unfold not_newline in A1.
  apply negb_true_iff in A1. rewrite A1.
  cbn [append] in IH. now rewrite (IH A2).
Qed.

Lemma split_lines_last (a : string) :
  all_chars not_newline a = true -> split_lines a = [a].
Proof.
  intros A. induction a as [|c a IH]; [reflexivity|].
  cbn [all_chars] in A. apply andb_prop in A as [A1 A2].
  cbn [split_lines]. unfold not_newline in A1.
  apply negb_true_iff in A1. now rewrite A1, (IH A2).
Qed.

Lemma append_assoc (a b c : string) : ((a ++ b) ++ c = a ++ b ++ c)%string.
Proof. induction a as [|x a IH]; [reflexivity|]. cbn. now rewrite IH. Qed.

Lemma value_text_not_newline (v : string) :
  value_text v = true -> all_chars not_newline v = true.
Proof.
  unfold value_text. intros V. apply andb_prop in V as [_ V].
  exact (all_chars_impl _ _ v value_char_not_newline V).
Qed.

(** A line [key=value] at the head of the text, and at its end. *)
Lemma split_lines_key_value (key value rest : string) :
  all_chars not_newline key = true -> value_text value = true ->
  split_lines (key ++ "=" ++ value ++ nl ++ rest)
  = (key ++ "=" ++ value)%string :: split_lines rest.
Proof.
  intros K V.
  rewrite <- (split_lines_line (key ++ "=" ++ value) rest).
  - now rewrite !append_assoc.
  - rewrite !all_chars_app, K, (value_text_not_newline _ V). reflexivity.
Qed.

Lemma split_lines_key_value_last (key value : string) :
  all_chars not_newline key = true -> value_text value = true ->
  split_lines (key ++ "=" ++ value) = [(key ++ "=" ++ value)%string].
Proof.
  intros K V. apply split_lines_last.
  rewrite !all_chars_app, K, (value_text_not_newline _ V). reflexivity.
Qed.

Lemma str_bool_value_text (b : bool) : value_text (Py.str_bool b) = true.
Proof. destruct b; reflexivity. Qed.

Lemma str_bool_is_True (b : bool) : String.eqb (Py.str_bool b) "True" = b.
Proof. destruct b; reflexivity. Qed.

Lemma str_int_value_text (z : Z) : 0 <= z -> value_text (Py.str_int z) = true.
Proof.
  intros H. destruct (str_int_digits z H) as [S A]. now apply digits_value_text.
Qed.

Lemma split_settings_text (v1 v2 v3 v4 v5 v6 v7 v8 v9 : string) :
  value_text v1 = true -> value_text v2 = true -> value_text v3 = true ->
  value_text v4 = true -> value_text v5 = true -> value_text v6 = true ->
  value_text v7 = true -> value_text v8 = true -> value_text v9 = true ->
  split_lines
    ("NumCycles=" ++ v1 ++ nl ++ "SunWidth=" ++ v2 ++ nl ++
     "CycleSleep=" ++ v3 ++ nl ++ "SlewPad=" ++ v4 ++ nl ++
     "LimbThreshold=" ++ v5 ++ nl ++ "Bidirectional=" ++ v6 ++ nl ++
     "BumpSwap=" ++ v7 ++ nl ++ "BumpRate=" ++ v8 ++ nl ++
     "AxisToMove=" ++ v9)
  = [("NumCycles" ++ "=" ++ v1)%string; ("SunWidth" ++ "=" ++ v2)%string;
     ("CycleSleep" ++ "=" ++ v3)%string; ("SlewPad" ++ "=" ++ v4)%string;
     ("LimbThreshold" ++ "=" ++ v5)%string;
     ("Bidirectional" ++ "=" ++ v6)%string; ("BumpSwap" ++ "=" ++ v7)%string;
     ("BumpRate" ++ "=" ++ v8)%string; ("AxisToMove" ++ "=" ++ v9)%string].
Proof.
  intros V1 V2 V3 V4 V5 V6 V7 V8 V9.
  change
    (split_lines
       ("NumCycles" ++ "=" ++ v1 ++ nl ++ "SunWidth" ++ "=" ++ v2 ++ nl ++
        "CycleSleep" ++ "=" ++ v3 ++ nl ++ "SlewPad" ++ "=" ++ v4 ++ nl ++
        "LimbThreshold" ++ "=" ++ v5 ++ nl ++
        "Bidirectional" ++ "=" ++ v6 ++ nl ++
        "BumpSwap" ++ "=" ++ v7 ++ nl ++ "BumpRate" ++ "=" ++ v8 ++ nl ++
        "AxisToMove" ++ "=" ++ v9)
     = [("NumCycles" ++ "=" ++ v1)%string; ("SunWidth" ++ "=" ++ v2)%string;
        ("CycleSleep" ++ "=" ++ v3)%string; ("SlewPad" ++ "=" ++ v4)%string;
        ("LimbThreshold" ++ "=" ++ v5)%string;
        ("Bidirectional" ++ "=" ++ v6)%string; ("BumpSwap" ++ "=" ++ v7)%string;
        ("BumpRate" ++ "=" ++ v8)%string; ("AxisToMove" ++ "=" ++ v9)%string]).
  rewrite !split_lines_key_value by (reflexivity || assumption).
  rewrite split_lines_key_value_last by (reflexivity || assumption).
  reflexivity.
Qed.

Ltac read_line :=
  cbn [settings_items];
  rewrite settings_item_key_value;
  [ cbn [String.eqb Ascii.eqb Bool.eqb]
  | unfold known_keys, int_keys, float_keys, bool_keys; cbn [app In]; tauto
  | assumption ].

(** X13: what [saveSettings] writes, [getSettings] reads back without a
    notification.  With counts that are not negative and plain amounts of
    seconds, the form after writing and reading is the form before, except
    that [CycleSleep] and [SlewPad] are what [float] makes of their
    two-decimal texts, and that [LimbThreshold] is [MAX_BRIGHT] times the
    default threshold. *)
Theorem settings_round_trip (w : World) :
  counts_not_negative w ->
  plain_amount (CycleSleep (self w)) = true ->
  plain_amount (SlewPad (self w)) = true ->
  exists cs sp : float,
    Py.parse_float (Py.fmt2f (CycleSleep (self w))) = Py.Val cs
    /\ Py.parse_float (Py.fmt2f (SlewPad (self w))) = Py.Val sp
    /\ self (getSettings (saveSettings w))
       = set_LimbThreshold (Py.float_of_Z MAX_BRIGHT * DEFAULT_THRESHOLD)%float
           (set_SlewPad sp (set_CycleSleep cs (self w)))
    /\ SharpCap (getSettings (saveSettings w)) = SharpCap w.
Proof.
  intros (N1 & N2 & N3 & N4) PC PS.
  destruct (fmt2f_plain _ PC) as (VC & cs & RC).
  destruct (fmt2f_plain _ PS) as (VS & sp & RS).
  exists cs, sp. split; [exact RC|]. split; [exact RS|].
  pose proof (str_int_value_text _ N1) as V1.
  pose proof (str_int_value_text _ N2) as V2.
  pose proof (str_int_value_text _ N3) as V8.
  pose proof (str_int_value_text _ N4) as V9.
  pose proof (str_bool_value_text (Bidirectional (self w))) as V6.
  pose proof (str_bool_value_text (BumpSwap (self w))) as V7.
  assert (V5 : value_text (Py.fmt2f DEFAULT_THRESHOLD) = true)
    by (vm_compute; reflexivity).
  assert (R5 : Py.parse_float (Py.fmt2f DEFAULT_THRESHOLD) = Py.Val DEFAULT_THRESHOLD)
    by (vm_compute; reflexivity).
  unfold getSettings, saveSettings. cbv zeta. cbn [SHG_cfg set_SHG_cfg].
  rewrite split_settings_text by assumption.
  read_line. rewrite parse_int_str_int by assumption. cbn [Py.bind].
  read_line. rewrite parse_int_str_int by assumption. cbn [Py.bind].
  read_line. rewrite RC. cbn [Py.bind].
  read_line. rewrite RS. cbn [Py.bind].
  read_line. rewrite R5. cbn [Py.bind].
  read_line. read_line.
  read_line. rewrite parse_int_str_int by assumption. cbn [Py.bind].
  read_line. rewrite parse_int_str_int by assumption. cbn [Py.bind].
  rewrite !str_bool_is_True. cbn [settings_items].
  destruct w as [s a c]. destruct s. split; reflexivity.
Qed.

Lemma settings_round_trip_witness :
  let w := World_start 3840 2160 in
  NumCycles (self (getSettings (saveSettings w))) = 15
  /\ SharpCap (getSettings (saveSettings w)) = SharpCap w.
Proof.
  intros w.
  destruct (settings_round_trip w) as (cs & sp & _ & _ & S & A).
  - unfold counts_not_negative.
    repeat split; apply Z.leb_le; vm_compute; reflexivity.
  - vm_compute. reflexivity.
  - vm_compute. reflexivity.
  - split; [rewrite S; reflexivity | exact A].
Defined.

(** ** The width measurement at the border of the frame *)

(** X14: when the window at the left border of the frame already reaches
    the threshold (the disk touches or crosses that border), the width is
    not measured: [SunWidth] silently becomes the default 2300,
    [SunDecenter] keeps the value it had, and no notification is shown. *)
Theorem measureSun_band_at_left_border (fr : Frame) (w : World) :
  (GetStats_Item1 fr <? LimbThreshold (self w))%float = false ->
  10 < ROI_Width (SharpCap w) ->
  window_bright fr (LimbThreshold (self w)) 0 = true ->
  all_from (window_readable fr) (Z.to_nat (ROI_Width (SharpCap w) - 9)) 0 = true ->
  let w' := measureSunFramehandler fr w in
  SunWidth (self w') = DEFAULT_SUN_WIDTH
  /\ SunDecenter (self w') = SunDecenter (self w)
  /\ FrameHandlingDone (self w') = true
  /\ log (SharpCap w') = log (SharpCap w).
Proof.
  intros G W B R w'. unfold w', measureSunFramehandler. rewrite G. cbv zeta.
  pose proof (proj1 (all_from_spec _ _ _) R) as Rd.
  destruct (find_startEdge_first fr (LimbThreshold (self w)) 0 B
              (Z.to_nat (ROI_Width (SharpCap w) - 10)) 0)
    as (s & Es & Hs & _); [lia | intros i Hi; lia |].
  destruct (find_endEdge_last fr (LimbThreshold (self w)) 0 B
              (Z.to_nat (ROI_Width (SharpCap w) - 10 + 1))
              (ROI_Width (SharpCap w) - 10))
    as (e & Ee & _); [lia | intros i Hi; apply Rd; lia |].
  rewrite Es, Ee.
  replace (0 <? s) with false by (symmetry; apply Z.ltb_ge; lia).
  cbn [andb]. repeat split.
Qed.

Lemma measureSun_band_at_left_border_witness :
  let w := upd_self (set_SunDecenter (Py.Int 7)) (World_start 200 100) in
  let fr := flat_frame 10000 in
  SunWidth (self (measureSunFramehandler fr w)) = 2300
  /\ SunDecenter (self (measureSunFramehandler fr w)) = Py.Int 7.
Proof.
  intros w fr.
  destruct (measureSun_band_at_left_border fr w) as (S & D & _).
  - reflexivity.
  - reflexivity.
  - reflexivity.
  - vm_compute. reflexivity.
  - split; [exact S | exact D].
Defined.

(** ** A slew comes to an end *)

Lemma deliver_clock (evs : list event) (t : float) (w : World) :
  now (SharpCap (deliver (evs ++ [ClockReads t]) w)) = t.
Proof. unfold deliver. rewrite fold_left_app. reflexivity. Qed.

Lemma limb_timeout_progress (rate : Py.num) (elapsed : float)
  (b b' : list event) (e : env) (w : World) :
  exists x w' e',
    (limb_timeout rate elapsed ;;; ret Break) (b :: b' :: e) w = (x, w', e')
    /\ x <> Starved /\ e' <> [].
Proof.
  unfold limb_timeout, time_sleep, observe, mbind, modify, lift, ret.
  destruct (Py.int_of (Py.Flt elapsed)) as [d|x];
    do 3 eexists; (split; [reflexivity|]); split; discriminate.
Qed.

Lemma app_cons_two {A : Type} (pre : list A) (b : A) (rest : list A) :
  rest <> [] -> exists x y l, pre ++ b :: rest = x :: y :: l.
Proof.
  intros N. destruct pre as [|p pre]; cbn [app].
  - destruct rest as [|r rest]; [contradiction|]. now exists b, r, rest.
  - destruct pre as [|q pre]; cbn [app]; [now exists p, b, rest|].
    now exists p, q, (pre ++ b :: rest).
Qed.

(** Once a poll finds the clock more than 30 seconds after the start, the
    loop is over at that poll at the latest. *)
Lemma wait_progress (rate : Py.num) (t0 t : float) (evs during after : list event)
  (rest : env) (pre : env) (w : World) :
  Py.gt (Py.Flt (t - t0)) (Py.Int 30) = true ->
  exists x w' e',
    wait_past_limb rate t0
      (pre ++ (evs ++ [ClockReads t]) :: during :: after :: rest) w
    = (x, w', e')
    /\ x <> Starved /\ e' <> [].
Proof.
  intros T. revert w. induction pre as [|b pre IH]; intros w.
  - cbn [app wait_past_limb]. rewrite deliver_clock, T.
    destruct (EdgePassed _); [do 3 eexists; repeat split; discriminate|].
    destruct (TaskAbortFlag _); [do 3 eexists; repeat split; discriminate|].
    apply limb_timeout_progress.
  - cbn [app wait_past_limb].
    destruct (EdgePassed _).
    { do 3 eexists. split; [reflexivity|]. split; [discriminate|].
      destruct pre; discriminate. }
    destruct (TaskAbortFlag _).
    { do 3 eexists. split; [reflexivity|]. split; [discriminate|].
      destruct pre; discriminate. }
    destruct (Py.gt (Py.Flt (now (SharpCap (deliver b w)) - t0)) (Py.Int 30));
      [|apply IH].
    destruct (app_cons_two pre (evs ++ [ClockReads t]) (during :: after :: rest))
      as (x & y & l & ->); [discriminate|].
    apply limb_timeout_progress.
Qed.

Lemma slew_finish_progress (pad_rate : Py.num) (b : list event) (e : env)
  (w : World) :
  fst (fst (slew_finish pad_rate (b :: e) w)) <> Starved.
Proof.
  unfold slew_finish, time_sleep, observe, mbind, modify, gets, ret.
  destruct (EdgePassed (self (unsubscribe h_acquireFramehandler w)));
    match goal with
    | |- context [negb (?x =? 0)] => destruct (negb (x =? 0))
    end;
    cbn [fst]; discriminate.
Qed.

(** X15: a slew cannot wait for ever.  If some poll of the loop finds the
    clock more than 30 seconds after the start of the slew, and the
    environment goes on for two more observation points, [SlewPastLimb]
    comes to an end: it returns or raises, whatever the camera and the
    user do. *)
Theorem SlewPastLimb_ends_by_timeout (rate : Py.num) (t : float)
  (pre : env) (evs during after : list event) (rest : env) (w : World) :
  Py.gt (Py.Flt (t - now (SharpCap w))) (Py.Int 30) = true ->
  fst (fst (SlewPastLimb rate
              (pre ++ (evs ++ [ClockReads t]) :: during :: after :: rest) w))
  <> Starved.
Proof.
  intros T. unfold SlewPastLimb. unfold mbind at 1.
  destruct (Py.copysign (SlewFactor (self w)) rate) as [c|x] eqn:C.
  - rewrite (slew_start_eq rate c _ w C). unfold mbind. cbn [snd fst].
    destruct (wait_progress rate (now (SharpCap w)) t evs during after rest pre
                (slew_started rate w) T)
      as (x & w' & e' & -> & N & E).
    destruct x as [[| |b]|x|]; cbn [fst]; try discriminate; try contradiction.
    + destruct e' as [|b e']; [contradiction|]. apply slew_finish_progress.
    + destruct e' as [|b e']; [contradiction|]. apply slew_finish_progress.
  - unfold slew_start, mbind, modify, gets, lift, time_time, ret.
    change (SlewFactor (self (upd_self _ _))) with (SlewFactor (self w)).
    rewrite C. cbn [fst]. discriminate.
Qed.

Lemma SlewPastLimb_ends_by_timeout_witness :
  let w := upd_self (set_SlewFactor (Py.Flt (-0.5))) (World_start 3840 2160) in
  Py.gt (Py.Flt (31 - now (SharpCap w))) (Py.Int 30) = true
  /\ fst (fst (SlewPastLimb (Py.Flt 0.5) [[ClockReads 31]; []; []] w))
     <> Starved.
Proof.
  intros w.
  assert (T : Py.gt (Py.Flt (31 - now (SharpCap w))) (Py.Int 30) = true)
    by (vm_compute; reflexivity).
  split; [exact T|].
  exact (SlewPastLimb_ends_by_timeout (Py.Flt 0.5) 31 [] [] [] [] [] w T).
Defined.

(** ** The input handlers *)

Lemma Undo_parameters (put_back : string -> World -> World) (s : sender)
  (w : World) :
  (forall text w0, parameters_valid w0 -> parameters_valid (put_back text w0)) ->
  parameters_valid w -> parameters_valid (state_of (Undo put_back s w)).
Proof. intros P H. destruct s; cbn [Undo state_of]; auto. Qed.

(** X16: whatever is typed into the four guarded text boxes, and whoever
    the sender is, the parameters stay in their ranges: [NumCycles] is not
    negative, [SlewPad] and [CycleSleep] are greater than 0 (so neither is
    a NaN), and [SunWidth] is above 100. *)
Theorem text_edits_keep_parameters_valid (text : string) (s : sender)
  (w : World) :
  parameters_valid w ->
  parameters_valid (state_of (doNumCyclesChange text s w))
  /\ parameters_valid (state_of (doSlewPadChange text s w))
  /\ parameters_valid (state_of (doCycleSleepChange s w))
  /\ parameters_valid (state_of (doSunWidthChange s w)).
Proof.
  intros H. pose proof H as (H1 & H2 & H3 & H4).
  assert (U : forall put_back,
             (forall text w0, parameters_valid w0 ->
                              parameters_valid (put_back text w0)) ->
             parameters_valid (state_of (Undo put_back s w)))
    by (intros put_back P; now apply Undo_parameters).
  split; [|split; [|split]].
  - unfold doNumCyclesChange.
    destruct (Py.parse_int text) as [n|x]; [|now apply U].
    destruct (0 <=? n) eqn:E; [|now apply U].
    apply Z.leb_le in E.
    assert (V : parameters_valid (upd_self (set_NumCycles n) w))
      by (unfold parameters_valid; repeat split; assumption).
    destruct (assign_Maximum n _) as [p|x].
    + cbn [state_of]. exact V.
    + apply Undo_parameters; [auto | exact V].
  - unfold doSlewPadChange.
    destruct (Py.parse_float text) as [n|x]; [|now apply U].
    destruct (Py.gt (Py.Flt n) (Py.Int 0)) eqn:E; [|now apply U].
    cbn [state_of]. unfold parameters_valid. repeat split; assumption.
  - unfold doCycleSleepChange.
    destruct (Py.parse_float (cycleSleep_Text (self w))) as [n|x];
      [|now apply U].
    destruct (Py.gt (Py.Flt n) (Py.Int 0)) eqn:E; [|now apply U].
    cbn [state_of]. unfold parameters_valid. repeat split; assumption.
  - unfold doSunWidthChange.
    destruct (Py.parse_int (sunWidth_Text (self w))) as [n|x]; [|now apply U].
    destruct (100 <? n) eqn:E; [|now apply U].
    apply Z.ltb_lt in E. cbn [state_of]. unfold parameters_valid.
    repeat split; assumption.
Qed.

Lemma text_edits_keep_parameters_valid_witness :
  let w := World_start 3840 2160 in
  parameters_valid (state_of (doNumCyclesChange "-3" (Some "15"%string) w))
  /\ NumCycles (self (state_of (doNumCyclesChange "7" (Some "15"%string) w))) = 7.
Proof.
  intros w. split; [|reflexivity].
  apply (text_edits_keep_parameters_valid "-3" (Some "15"%string) w).
  unfold parameters_valid.
  repeat split;
    first [ apply Z.leb_le; vm_compute; reflexivity
          | apply Z.ltb_lt; vm_compute; reflexivity
          | vm_compute; reflexivity ].
Defined.

(** ** Statements that come to an end without observing *)

Lemma settles_ret {A : Type} (P : World -> Prop) (a : A) : settles P (ret a) P.
Proof. intros e w H. cbn. now split. Qed.

Lemma settles_modify (P Q : World -> Prop) (f : World -> World) :
  (forall w, P w -> Q (f w)) -> settles P (modify f) Q.
Proof. intros H e w Hw. cbn. split; [now apply H | reflexivity]. Qed.

Lemma settles_gets {A : Type} (P : World -> Prop) (f : World -> A) :
  settles P (gets f) P.
Proof. intros e w H. cbn. now split. Qed.

Lemma settles_lift {A : Type} (P : World -> Prop) (r : Py.res A) :
  settles P (lift r) P.
Proof. intros e w H. unfold lift. destruct r; now split. Qed.

Lemma settles_bind {A B : Type} (P Q : World -> Prop) (c : M A) (k : A -> M B) :
  settles P c Q -> (forall a, settles Q (k a) Q) -> settles P (mbind c k) Q.
Proof.
  intros Hc Hk e w Hw. unfold mbind. specialize (Hc e w Hw).
  destruct (c e w) as [[[a|x|] w1] e1]; [|exact Hc|exact Hc].
  destruct Hc as [Hq ->]. exact (Hk a e w1 Hq).
Qed.

Lemma settles_weaken {A : Type} (P P' Q Q' : World -> Prop) (c : M A) :
  (forall w, P' w -> P w) -> (forall w, Q w -> Q' w) ->
  settles P c Q -> settles P' c Q'.
Proof.
  intros HP HQ H e w Hw. specialize (H e w (HP w Hw)).
  destruct (c e w) as [[[a|x|] w1] e1]; [| |exact H];
    destruct H as [H ->]; split; auto.
Qed.

Ltac settles_atom :=
  match goal with
  | |- settles _ (modify _) _ => apply settles_modify; intros ? H; exact H
  | |- settles _ (gets _) _ => apply settles_gets
  | |- settles _ (lift _) _ => apply settles_lift
  | |- settles _ (ret _) _ => apply settles_ret
  end.

Ltac settles_seq :=
  repeat (first [ settles_atom | apply settles_bind; [|intros ?] ]).

(** [CalcScanParams] always comes to an end, and changes neither the
    subscribers of the camera event, nor the sun width and its text box,
    nor the frame rate. *)
Lemma CalcScanParams_settles
  (m : list handler * Z * string * bool * Py.num) :
  settles (fun w => measurement_state w = m) CalcScanParams
          (fun w => measurement_state w = m).
Proof.
  unfold CalcScanParams.
  apply settles_bind; [settles_atom|]. intros width.
  apply settles_bind; [settles_atom|]. intros height.
  destruct (_ || _); [settles_seq|].
  do 9 (apply settles_bind; [settles_atom|]; intros ?).
  apply settles_bind; [settles_atom|]. intros _.
  destruct (Py.eq _ _); settles_seq.
Qed.

Lemma settles_triple {A : Type} (P Q : World -> Prop) (c : M A) :
  settles P c Q -> triple P c (fun _ => Q).
Proof.
  intros H e w Hw. specialize (H e w Hw).
  destruct (c e w) as [[[a|x|] w1] e1]; [now destruct H | exact I | exact I].
Qed.

(** What a frame rate edit does, case by case. *)
Lemma doFrameRateChange_runs (text : string) (s : sender) (e : env)
  (w : World) :
  exists (r : ended) (w' : World),
    doFrameRateChange text s e w = (Ret r, w', e)
    /\ (s <> None -> r = Normally)
    /\ match Py.parse_float text with
       | Py.Val n =>
           if Py.gt (Py.Flt n) (Py.Int 0) then
             measurement_state w'
             = measurement_state (upd_self (set_FrameRate (Py.Flt n)) w)
           else w' = w
       | Py.Raise _ => w' = w
       end.
Proof.
  unfold doFrameRateChange, try_except. unfold mbind at 1, lift at 1.
  assert (U : forall e0 w0,
             exists r, run_handled (Undo (fun _ w1 => w1) s) e0 w0 = (Ret r, w0, e0)
                       /\ (s <> None -> r = Normally)).
  { intros e0 w0. unfold run_handled, Undo. destruct s.
    - exists Normally. now split.
    - exists ByAttributeError. split; [reflexivity | congruence]. }
  destruct (Py.parse_float text) as [n|x].
  2:{ destruct (U e w) as (r & -> & Hr). exists r, w. repeat split; assumption. }
  destruct (Py.gt (Py.Flt n) (Py.Int 0)).
  2:{ destruct (U e w) as (r & E & Hr). rewrite E.
      exists r, w. repeat split; assumption. }
  unfold mbind, modify, ret.
  pose proof (CalcScanParams_settles
                (measurement_state (upd_self (set_FrameRate (Py.Flt n)) w))
                e (upd_self (set_FrameRate (Py.Flt n)) w) eq_refl) as C.
  destruct (CalcScanParams e (upd_self (set_FrameRate (Py.Flt n)) w))
    as [[[b|x|] w1] e1]; [| |contradiction]; destruct C as [C ->].
  - exists Normally, w1. repeat split; assumption.
  - destruct (U e w1) as (r & -> & Hr). exists r, w1. repeat split; assumption.
Qed.

(** X17: a frame rate edit never raises anything but the [AttributeError]
    of a missing sender, and it observes nothing.  A text that is not a
    number above 0 changes nothing.  A number above 0 is stored even when
    [CalcScanParams] then raises: the exception is swallowed, and the sun
    width, its text box and the subscribers of the camera event are as
    before. *)
Theorem doFrameRateChange_settles (text : string) (s : sender) (e : env)
  (w : World) :
  exists (r : ended) (w' : World),
    doFrameRateChange text s e w = (Ret r, w', e)
    /\ (s <> None -> r = Normally)
    /\ FrameCaptured (SharpCap w') = FrameCaptured (SharpCap w)
    /\ SunWidth (self w') = SunWidth (self w)
    /\ match Py.parse_float text with
       | Py.Val n =>
           if Py.gt (Py.Flt n) (Py.Int 0) then FrameRate (self w') = Py.Flt n
           else w' = w
       | Py.Raise _ => w' = w
       end.
Proof.
  destruct (doFrameRateChange_runs text s e w) as (r & w' & E & Hr & C).
  exists r, w'. split; [exact E|]. split; [exact Hr|].
  destruct (Py.parse_float text) as [n|x]; [|subst w'; repeat split].
  destruct (Py.gt (Py.Flt n) (Py.Int 0)); [|subst w'; repeat split].
  unfold measurement_state in C. injection C as C1 C2 _ _ C5.
  repeat split; assumption.
Qed.

Lemma doFrameRateChange_settles_witness :
  let w := World_start 3840 2160 in
  let run := doFrameRateChange "25.00" (Some ""%string) [] w in
  fst (fst run) = Ret Normally
  /\ FrameRate (self (snd (fst run))) = Py.Flt 25.
Proof.
  intros w run.
  destruct (doFrameRateChange_settles "25.00" (Some ""%string) [] w)
    as (r & w' & E & Hr & _ & _ & F).
  unfold run. rewrite E. cbn [fst snd]. split.
  - rewrite Hr; [reflexivity | discriminate].
  - exact F.
Defined.

(** ** Measuring the sun *)

(** [int(str(z))] is [z], negative or not. *)
Lemma parse_int_str_int_any (z : Z) : Py.parse_int (Py.str_int z) = Py.Val z.
Proof.
  destruct (Z.leb_spec 0 z) as [H|H]; [now apply parse_int_str_int|].
  destruct z as [|p|p]; try lia.
  unfold Py.str_int. cbn [Z.to_int NilZero.string_of_int Py.parse_int].
  unfold Py.parse_nat.
  rewrite NilZero.usu by apply DecimalPos.Unsigned.to_uint_nonnil.
  unfold Z.of_uint. rewrite DecimalPos.Unsigned.of_to. reflexivity.
Qed.

Lemma triple_run_handled (P : World -> Prop) (h : World -> handled)
  (Q : ended -> World -> Prop) :
  (forall w, P w ->
             match h w with
             | Returns w' => Q Normally w'
             | AttributeError w' => Q ByAttributeError w'
             end) ->
  triple P (run_handled h) Q.
Proof.
  intros H e w Hw. unfold run_handled. specialize (H w Hw).
  destruct (h w); exact H.
Qed.

(** [CalcScanParams] keeps whatever holds of the measurement state. *)
Lemma CalcScanParams_keeps
  (R : list handler * Z * string * bool * Py.num -> Prop) :
  triple (fun w => R (measurement_state w)) CalcScanParams
         (fun _ w => R (measurement_state w)).
Proof.
  intros e w H.
  pose proof (CalcScanParams_settles (measurement_state w) e w eq_refl) as C.
  destruct (CalcScanParams e w) as [[[b|x|] w1] e1]; [|exact I|exact I].
  destruct C as [C _]. now rewrite C.
Qed.

Lemma doFrameRateChange_subscribers (L : list handler) (text : string)
  (s : sender) :
  triple (fun w => FrameCaptured (SharpCap w) = L) (doFrameRateChange text s)
         (fun _ w => FrameCaptured (SharpCap w) = L).
Proof.
  intros e w H.
  destruct (doFrameRateChange_runs text s e w) as (r & w' & -> & _ & C).
  destruct (Py.parse_float text) as [n|x]; [|now subst w'].
  destruct (Py.gt (Py.Flt n) (Py.Int 0)); [|now subst w'].
  unfold measurement_state in C. injection C as C1 _ _ _ _.
  now rewrite C1.
Qed.

(** The wait ends only with the flag set, and changes no subscription. *)
Lemma wait_measured_exit (L : list handler) :
  triple (fun w => FrameCaptured (SharpCap w) = L) wait_measured
    (fun _ w => FrameCaptured (SharpCap w) = L
                /\ FrameHandlingDone (self w) = true).
Proof.
  intros e. induction e as [|b e IH]; intros w H; cbn [wait_measured].
  - destruct (FrameHandlingDone (self w)) eqn:D; [now split | exact I].
  - destruct (FrameHandlingDone (self w)) eqn:D; [now split|].
    apply IH. now rewrite deliver_subscribers.
Qed.

(** What the statements after the wait do, by the width measured. *)
Lemma measure_finish_cases (L : list handler) :
  triple
    (fun w => FrameCaptured (SharpCap w) = L ++ [h_measureSunFramehandler]
              /\ FrameHandlingDone (self w) = true)
    measure_finish
    (fun r w' =>
       match r with
       | Normally =>
           100 < SunWidth (self w')
           /\ sunWidth_Text (self w') = Py.str_int (SunWidth (self w'))
           /\ FrameCaptured (SharpCap w') = L
           /\ FrameHandlingDone (self w') = true
       | ByAttributeError =>
           SunWidth (self w') <= 100
           /\ FrameCaptured (SharpCap w') = L ++ [h_measureSunFramehandler]
       end).
Proof.
  unfold measure_finish.
  eapply triple_bind
    with (Q := fun _ w =>
                 FrameCaptured (SharpCap w) = L ++ [h_measureSunFramehandler]
                 /\ FrameHandlingDone (self w) = true
                 /\ sunWidth_Text (self w) = Py.str_int (SunWidth (self w))).
  { apply triple_modify. intros w [F D]. repeat split; assumption. }
  intros _.
  eapply triple_bind
    with (Q := fun r w =>
                 FrameCaptured (SharpCap w) = L ++ [h_measureSunFramehandler]
                 /\ FrameHandlingDone (self w) = true
                 /\ sunWidth_Text (self w) = Py.str_int (SunWidth (self w))
                 /\ match r with
                    | Normally => 100 < SunWidth (self w)
                    | ByAttributeError => SunWidth (self w) <= 100
                    end).
  { apply triple_run_handled. intros w (F & D & T).
    unfold doSunWidthChange. rewrite T, parse_int_str_int_any.
    destruct (100 <? SunWidth (self w)) eqn:E.
    - apply Z.ltb_lt in E. repeat split; assumption.
    - apply Z.ltb_ge in E. cbn [Undo]. repeat split; assumption. }
  intros [|].
  - pose (R := fun m : list handler * Z * string * bool * Py.num =>
                 let '(fc, sw, tx, dn, _) := m in
                 100 < sw /\ tx = Py.str_int sw /\ fc = L /\ dn = true).
    eapply triple_bind with (Q := fun _ w => R (measurement_state w)).
    { apply triple_modify. intros w (F & D & T & W).
      unfold R, measurement_state, unsubscribe.
      cbn [SharpCap self upd_app FrameCaptured set_FrameCaptured].
      rewrite F, remove_last_app. repeat split; assumption. }
    intros ?.
    eapply triple_bind; [apply (CalcScanParams_keeps R)|].
    intros ?. apply triple_ret. intros w H. exact H.
  - apply triple_ret. intros w (F & _ & _ & W). now split.
Qed.

(** X18: [MeasureSun] returns normally only with a measured width above
    100: then the text box shows that width, the measuring handler is
    unsubscribed again, and the measurement is flagged done.  (With a
    width of 100 or less it is left by the [AttributeError] of
    [None.Undo()].) *)
Theorem MeasureSun_returns_with_valid_width
  (fps : Py.res float) (e e' : env) (w w' : World) :
  MeasureSun fps e w = (Ret Normally, w', e') ->
  100 < SunWidth (self w')
  /\ sunWidth_Text (self w') = Py.str_int (SunWidth (self w'))
  /\ FrameCaptured (SharpCap w') = FrameCaptured (SharpCap w)
  /\ FrameHandlingDone (self w') = true.
Proof.
  intros E.
  assert (T : triple (fun x => x = w) (MeasureSun fps)
                (fun r w' =>
                   r = Normally ->
                   100 < SunWidth (self w')
                   /\ sunWidth_Text (self w') = Py.str_int (SunWidth (self w'))
                   /\ FrameCaptured (SharpCap w') = FrameCaptured (SharpCap w)
                   /\ FrameHandlingDone (self w') = true)).
  { unfold MeasureSun.
    eapply triple_bind
      with (Q := fun _ w0 => FrameCaptured (SharpCap w0) = FrameCaptured (SharpCap w)).
    { apply triple_lift. now intros a w0 _ ->. }
    intros f.
    eapply triple_bind; [apply doFrameRateChange_subscribers|].
    intros [|]; [|apply triple_ret; discriminate].
    apply inv_bind; [apply triple_modify; intros ? H; exact H|]. intros _.
    eapply triple_bind
      with (Q := fun _ w0 =>
                   FrameCaptured (SharpCap w0)
                   = FrameCaptured (SharpCap w) ++ [h_measureSunFramehandler]).
    { apply triple_modify. intros w0 H. unfold subscribe.
      cbn [SharpCap upd_app FrameCaptured set_FrameCaptured]. now rewrite H. }
    intros _.
    eapply triple_bind; [apply wait_measured_exit|]. intros ?.
    eapply triple_weaken; [| |apply (measure_finish_cases (FrameCaptured (SharpCap w)))].
    - intros w0 H. exact H.
    - intros [|] w0 H; [intros _; exact H | discriminate]. }
  exact (triple_run _ _ _ _ _ _ _ _ T eq_refl E eq_refl).
Qed.

(** X19: with a measured width of 100 or less, the statements of
    [MeasureSun] after the wait put the width into the text box and are
    left by the [AttributeError] of [None.Undo()]: the measuring handler
    stays subscribed, and [CalcScanParams] is not run. *)
Theorem narrow_measurement_ends_in_AttributeError (e : env) (w : World) :
  SunWidth (self w) <= 100 ->
  measure_finish e w
  = (Ret ByAttributeError,
     upd_self (set_sunWidth_Text (Py.str_int (SunWidth (self w)))) w, e).
Proof.
  intros H. unfold measure_finish, mbind, modify, run_handled, doSunWidthChange.
  cbn [self upd_self sunWidth_Text set_sunWidth_Text].
  rewrite parse_int_str_int_any.
  change (SunWidth (set_sunWidth_Text _ (self w))) with (SunWidth (self w)).
  replace (100 <? SunWidth (self w)) with false
    by (symmetry; apply Z.ltb_ge; exact H).
  reflexivity.
Qed.

Lemma MeasureSun_returns_with_valid_width_witness :
  let w := World_start 3840 2160 in
  let run := MeasureSun (Py.Val 25%float) [[FrameArrives (flat_frame 10000)]] w in
  sunWidth_Text (self (snd (fst run))) = "2300"%string
  /\ FrameCaptured (SharpCap (snd (fst run))) = [].
Proof.
  intros w run.
  destruct (MeasureSun_returns_with_valid_width (Py.Val 25%float)
              [[FrameArrives (flat_frame 10000)]] [] w (snd (fst run)))
    as (_ & T & F & _).
  - vm_compute. reflexivity.
  - split; [|exact F]. rewrite T. vm_compute. reflexivity.
Defined.

Lemma narrow_measurement_ends_in_AttributeError_witness :
  let w := upd_self (set_SunWidth 28)
             (subscribe h_measureSunFramehandler (World_start 3840 2160)) in
  fst (fst (measure_finish [] w)) = Ret ByAttributeError
  /\ FrameCaptured (SharpCap (snd (fst (measure_finish [] w))))
     = [h_measureSunFramehandler].
Proof.
  intros w.
  rewrite (narrow_measurement_ends_in_AttributeError [] w).
  - split; reflexivity.
  - apply Z.leb_le. vm_compute. reflexivity.
Defined.

(** ** The cutout of the detector lies inside the frame *)

(** The conversion of an integer to binary64 is the machine's. *)
Lemma float_of_Z_machine (z : Z) :
  0 <= z < 2 ^ 63 -> Py.float_of_Z z = of_uint63 (Uint63Axioms.of_Z z).
Proof.
  intros B. unfold Py.float_of_Z.
  rewrite <- (SF2Prim_Prim2SF (of_uint63 (Uint63Axioms.of_Z z))).
  rewrite of_uint63_spec, Uint63.of_Z_spec, Z.mod_small; [reflexivity|].
  exact B.
Qed.

Lemma centred_corner_machine (n : Z) :
  0 <= n < 2 ^ 53 -> centred_corner n = corner_of_side n.
Proof.
  intros B. unfold centred_corner, corner_of_side, Py.truediv.
  assert (N : Py.to_float (Py.Int n) = Py.Val (of_uint63 (Uint63Axioms.of_Z n))).
  { rewrite to_float_small by lia. now rewrite float_of_Z_machine by lia. }
  destruct n as [|p|p]; [reflexivity| |lia].
  rewrite N. reflexivity.
Qed.

Lemma centred_corner_sides (n : Z) :
  100 <= n <= MAX_SIDE -> centred_corner n = Py.Val (n / 2 - 50).
Proof.
  intros B.
  assert (A : all_from corner_as_expected (Z.to_nat (MAX_SIDE - 99)) 100 = true)
    by (vm_compute; reflexivity).
  pose proof (proj1 (all_from_spec _ _ _) A n) as C.
  rewrite centred_corner_machine by (unfold MAX_SIDE in B; lia).
  unfold corner_as_expected in C.
  destruct (corner_of_side n) as [x|x].
  - f_equal. apply Z.eqb_eq. apply C. unfold MAX_SIDE in *. lia.
  - assert (false = true); [|discriminate].
    apply C. unfold MAX_SIDE in *. lia.
Qed.

(** X20: when [CalcScanParams] returns [True] for a capture area of up to
    16384 pixels a side, the corner it has computed is
    [(Width / 2 - 50, Height / 2 - 50)], and the 100x100 cutout the
    limb-crossing handler reads lies inside the frame. *)
Theorem CalcScanParams_cutout_inside_frame (e e' : env) (w w' : World) :
  ROI_Width (SharpCap w) <= MAX_SIDE -> ROI_Height (SharpCap w) <= MAX_SIDE ->
  CalcScanParams e w = (Ret true, w', e') ->
  ROIX (self w') = ROI_Width (SharpCap w) / 2 - 50
  /\ ROIY (self w') = ROI_Height (SharpCap w) / 2 - 50
  /\ rect_inside (ROI_Width (SharpCap w)) (ROI_Height (SharpCap w))
       (centre_cutout w') = true.
Proof.
  intros BW BH E.
  set (W := ROI_Width (SharpCap w)) in *. set (H := ROI_Height (SharpCap w)) in *.
  assert (T : triple (fun x => x = w) CalcScanParams
                (fun b w' =>
                   b = true ->
                   100 <= W /\ 100 <= H
                   /\ ROIX (self w') = W / 2 - 50
                   /\ ROIY (self w') = H / 2 - 50)).
  { unfold CalcScanParams.
    eapply triple_bind with (Q := fun a x => a = W /\ x = w).
    { apply triple_gets. now intros x ->. }
    intros width. cbv beta. apply triple_assume. intros ->.
    eapply triple_bind with (Q := fun a x => a = H /\ x = w).
    { apply triple_gets. now intros x ->. }
    intros height. cbv beta. apply triple_assume. intros ->.
    destruct ((W <? 100) || (H <? 100)) eqn:Small.
    { eapply triple_bind with (Q := fun _ _ => True); [apply triple_any|].
      intros ?. apply triple_ret. discriminate. }
    apply orb_false_iff in Small as [S1 S2].
    apply Z.ltb_ge in S1, S2.
    rewrite !centred_corner_sides by (split; assumption).
    eapply triple_bind with (Q := fun x _ => x = W / 2 - 50).
    { apply triple_lift. intros x x0 Cx _. now injection Cx as <-. }
    intros x. cbv beta.
    apply triple_weaken with (P := fun _ : World => x = W / 2 - 50 /\ True)
                             (Q := fun b w' =>
                                     b = true ->
                                     100 <= W /\ 100 <= H
                                     /\ ROIX (self w') = W / 2 - 50
                                     /\ ROIY (self w') = H / 2 - 50);
      [auto | auto |].
    apply triple_assume. intros ->.
    eapply triple_bind with (Q := fun _ x0 => ROIX (self x0) = W / 2 - 50).
    { apply triple_modify. reflexivity. }
    intros ?.
    eapply triple_bind
      with (Q := fun y x0 => y = H / 2 - 50 /\ ROIX (self x0) = W / 2 - 50).
    { apply triple_lift. intros y x0 Cy HI. now injection Cy as <-. }
    intros y. cbv beta. apply triple_assume. intros ->.
    set (J := fun x0 : World =>
                ROIX (self x0) = W / 2 - 50 /\ ROIY (self x0) = H / 2 - 50).
    eapply triple_bind with (Q := fun _ => J).
    { apply triple_modify. intros x0 HI. split; [exact HI | reflexivity]. }
    intros ?.
    apply inv_bind; [apply triple_gets; auto|]. intros rate.
    apply inv_bind; [apply triple_lift; auto|]. intros p.
    apply inv_bind; [apply triple_gets; auto|]. intros txt.
    apply inv_bind; [apply triple_lift; auto|]. intros n.
    apply inv_bind; [apply triple_lift; auto|]. intros f.
    apply inv_bind; [apply triple_modify; intros x0 HJ; exact HJ|]. intros ?.
    destruct (Py.eq f (Py.Int 0)).
    { eapply triple_bind with (Q := fun _ _ => True); [apply triple_any|].
      intros ?. apply triple_ret. discriminate. }
    apply inv_bind; [apply triple_gets; auto|]. intros pad.
    apply inv_bind; [apply triple_gets; auto|]. intros sw.
    apply inv_bind; [apply triple_gets; auto|]. intros rate'.
    apply inv_bind; [apply triple_lift; auto|]. intros cd.
    apply triple_ret. intros x0 [HX HY] _. auto. }
  destruct (triple_run _ _ _ _ _ _ _ _ T eq_refl E eq_refl) as (HW & HH & HX & HY).
  split; [exact HX|]. split; [exact HY|].
  unfold rect_inside, centre_cutout. cbn [rx ry rwidth rheight].
  rewrite HX, HY.
  assert (W / 2 * 2 <= W) by (pose proof (Z.mul_div_le W 2); lia).
  assert (H / 2 * 2 <= H) by (pose proof (Z.mul_div_le H 2); lia).
  assert (50 <= W / 2) by (apply Z.div_le_lower_bound; lia).
  assert (50 <= H / 2) by (apply Z.div_le_lower_bound; lia).
  repeat (apply andb_true_intro; split);
    first [apply Z.leb_le; lia | apply Z.ltb_lt; lia].
Qed.

Lemma CalcScanParams_cutout_inside_frame_witness :
  let w := upd_self (set_FrameRate (Py.Flt 25)) (World_start 3840 2160) in
  centre_cutout (snd (fst (CalcScanParams [] w))) = Rect 1870 1030 100 100.
Proof.
  intros w.
  destruct (CalcScanParams_cutout_inside_frame [] [] w
              (snd (fst (CalcScanParams [] w))))
    as (X & Y & _).
  - apply Z.leb_le. vm_compute. reflexivity.
  - apply Z.leb_le. vm_compute. reflexivity.
  - vm_compute. reflexivity.
  - unfold centre_cutout. rewrite X, Y. reflexivity.
Defined.

(** ** An abort between two cycles *)

(** X21: the abort flag is looked at only inside a slew and after it.  When
    it is already set as a cycle begins (the button was pressed during
    the sleep between cycles), the cycle still prepares and starts a
    capture and starts the forward slew; the first poll of the slew then
    returns, the capture is stopped, and abort recovery runs. *)
Theorem abort_before_cycle_still_starts_capture
  (l : locals) (b : list event) (e : env) (w : World) (c : float) :
  TaskAbortFlag (self w) = true ->
  Py.copysign (SlewFactor (self w)) (SlewFactor (self w)) = Py.Val c ->
  let w0 := Camera_RunCapture (Camera_PrepareToCapture w) in
  let w1 := deliver b (slew_started (SlewFactor (self w)) w0) in
  EdgePassed (self w1) = false ->
  cycle_body l (b :: e) w = (Ret Returned, DoAbortTask (Camera_StopCapture w1), e)
  /\ log (SharpCap (slew_started (SlewFactor (self w)) w0))
     = log (SharpCap w)
       ++ [PrepareToCapture; RunCapture;
           MoveAxis (AxisToMove (self w)) (SlewFactor (self w))].
Proof.
  intros A C w0 w1 E.
  assert (A1 : TaskAbortFlag (self w1) = true).
  { unfold w1. apply deliver_keeps_abort. exact A. }
  assert (S : SlewPastLimb (SlewFactor (self w)) (b :: e) w0 = (Ret false, w1, e)).
  { unfold SlewPastLimb, mbind.
    rewrite (slew_start_eq (SlewFactor (self w)) c (b :: e) w0 C).
    cbn [snd fst].
    rewrite (wait_abort _ _ b e (slew_started (SlewFactor (self w)) w0) E A1).
    reflexivity. }
  split.
  - unfold cycle_body, mbind, time_time, gets, modify, ret.
    fold w0. change (SlewFactor (self w0)) with (SlewFactor (self w)).
    rewrite S.
    change (TaskAbortFlag (self (Camera_StopCapture w1)))
      with (TaskAbortFlag (self w1)).
    rewrite A1. reflexivity.
  - rewrite slew_started_log. unfold w0, Camera_RunCapture, Camera_PrepareToCapture.
    autorewrite with world. cbn [SharpCap upd_app log set_Capturing].
    unfold record. cbn [SharpCap upd_app log set_log].
    rewrite <- !app_assoc. reflexivity.
Qed.

Lemma abort_before_cycle_still_starts_capture_witness :
  let w := upd_self (set_TaskAbortFlag true)
             (upd_self (set_SlewFactor (Py.Flt (-0.5))) (World_start 3840 2160)) in
  let run := cycle_body {| startTime := None; endTime := None |} [[]] w in
  fst (fst run) = Ret Returned
  /\ exists rest, log (SharpCap (snd (fst run)))
                  = [PrepareToCapture; RunCapture; MoveAxis 0 (Py.Flt (-0.5))]
                    ++ rest.
Proof.
  intros w run.
  destruct (abort_before_cycle_still_starts_capture
              {| startTime := None; endTime := None |} [] [] w (-0.5)%float)
    as [R _].
  - reflexivity.
  - vm_compute. reflexivity.
  - vm_compute. reflexivity.
  - unfold run. rewrite R. split; [reflexivity|].
    eexists. vm_compute. reflexivity.
Defined.

(** ** The captures of a completed run *)

Lemma capture_calls_record (c : call) (w : World) :
  capture_calls (record c w)
  = capture_calls w ++ (if is_capture_call c then [c] else []).
Proof.
  unfold capture_calls, record. cbn [SharpCap upd_app log set_log].
  rewrite filter_app. cbn [filter]. now destruct (is_capture_call c).
Qed.

Lemma capture_calls_quiet (c : call) (w : World) :
  is_capture_call c = false -> capture_calls (record c w) = capture_calls w.
Proof. intros H. rewrite capture_calls_record, H. apply app_nil_r. Qed.

Lemma capture_calls_MoveAxis (axis : Z) (rate : Py.num) (w : World) :
  capture_calls (Mount_MoveAxis axis rate w) = capture_calls w.
Proof.
  unfold Mount_MoveAxis.
  change (capture_calls (upd_app _ (record (MoveAxis axis rate) w)))
    with (capture_calls (record (MoveAxis axis rate) w)).
  now apply capture_calls_quiet.
Qed.

Lemma capture_calls_ShowNotification (t : string) (st : NotificationStatus)
  (w : World) :
  capture_calls (ShowNotification_ t st w) = capture_calls w.
Proof. unfold ShowNotification_. now apply capture_calls_quiet. Qed.

Lemma capture_calls_Sleep (d : Py.num) (w : World) :
  capture_calls (record (Sleep d) w) = capture_calls w.
Proof. now apply capture_calls_quiet. Qed.

Lemma capture_calls_DoBumpSlew (w : World) :
  capture_calls (DoBumpSlew w) = capture_calls w.
Proof.
  unfold DoBumpSlew. cbv zeta.
  change (capture_calls (upd_self (set_BumpSlew 0) ?x)) with (capture_calls x).
  now rewrite capture_calls_MoveAxis, capture_calls_Sleep, capture_calls_MoveAxis.
Qed.

Lemma capture_calls_Prepare (w : World) :
  capture_calls (Camera_PrepareToCapture w)
  = capture_calls w ++ [PrepareToCapture].
Proof. unfold Camera_PrepareToCapture. now rewrite capture_calls_record. Qed.

Lemma capture_calls_Run (w : World) :
  capture_calls (Camera_RunCapture w) = capture_calls w ++ [RunCapture].
Proof.
  unfold Camera_RunCapture.
  change (capture_calls (upd_app (set_Capturing true) (record RunCapture w)))
    with (capture_calls (record RunCapture w)).
  now rewrite capture_calls_record.
Qed.

Lemma capture_calls_Stop (w : World) :
  capture_calls (Camera_StopCapture w) = capture_calls w ++ [StopCapture].
Proof.
  unfold Camera_StopCapture.
  change (capture_calls (upd_app (set_Capturing false) (record StopCapture w)))
    with (capture_calls (record StopCapture w)).
  now rewrite capture_calls_record.
Qed.

(** No event makes a capture call. *)
Lemma deliver_capture_calls (evs : list event) (w : World) :
  capture_calls (deliver evs w) = capture_calls w.
Proof.
  apply (deliver_respects capture_calls); intros.
  - acquire_cases.
  - unfold measureSunFramehandler.
    destruct (_ <? _)%float.
    { change (capture_calls (upd_self ?f ?x)) with (capture_calls x).
      apply capture_calls_ShowNotification. }
    destruct (find_startEdge _ _ _ _); [|reflexivity].
    destruct (find_endEdge _ _ _ _); [|reflexivity].
    destruct (_ && _); [|reflexivity].
    destruct (decenter_of _ _ _); reflexivity.
  - unfold DoBump. cbn [self upd_self BumpSwap set_BumpSlew].
    destruct (BumpSwap (self w0)); cbn [self upd_self AmSlewing set_BumpSlew];
      destruct (negb (AmSlewing (self w0)));
      rewrite ?capture_calls_DoBumpSlew; reflexivity.
  - reflexivity.
  - reflexivity.
  - reflexivity.
Qed.

(** Statements that make no capture call and keep the settings. *)
Ltac run_atom :=
  match goal with
  | |- triple _ (SlewPastLimb _) _ => fail 1
  | |- triple _ (modify _) _ =>
      apply triple_modify; intros ? [H1 H2]; split;
      [ exact H1
      | rewrite ?capture_calls_MoveAxis, ?capture_calls_ShowNotification,
          ?capture_calls_DoBumpSlew; exact H2 ]
  | |- triple _ (gets _) _ => apply triple_gets; intros ? H; exact H
  | |- triple _ time_time _ => apply triple_gets; intros ? H; exact H
  | |- triple _ (lift _) _ => apply triple_lift; intros ? ? ? H; exact H
  | |- triple _ (ret _) _ => apply triple_ret; intros ? H; exact H
  | |- triple _ (time_sleep _) _ =>
      apply triple_sleep; intros ? ? [H1 H2]; split;
      [ unfold has_settings; rewrite deliver_settings; exact H1
      | rewrite deliver_capture_calls, capture_calls_Sleep; exact H2 ]
  end.

Ltac run_seq :=
  repeat (first [ run_atom | apply inv_bind; [|intros ?] ]).

Lemma run_at_wait
  (s : Z * option coords * Z * Py.num * float * bool * string) (k : list call)
  (rate : Py.num) (t0 : float) :
  triple (run_at s k) (wait_past_limb rate t0) (fun _ => run_at s k).
Proof.
  intros e. induction e as [|b e IH]; intros w Hw; [exact I|].
  cbn [wait_past_limb].
  assert (Hd : run_at s k (deliver b w)).
  { destruct Hw as [H1 H2]. split.
    - unfold has_settings. now rewrite deliver_settings.
    - now rewrite deliver_capture_calls. }
  destruct (EdgePassed (self (deliver b w))); [exact Hd|].
  destruct (TaskAbortFlag (self (deliver b w))); [exact Hd|].
  destruct (Py.gt _ _); [|now apply IH].
  assert (T : triple (run_at s k)
                (limb_timeout rate (now (SharpCap (deliver b w)) - t0) ;;; ret Break)
                (fun _ => run_at s k)).
  { unfold limb_timeout, run_at. run_seq. }
  exact (T e (deliver b w) Hd).
Qed.

(** A slew makes no capture call. *)
Lemma run_at_SlewPastLimb
  (s : Z * option coords * Z * Py.num * float * bool * string) (k : list call)
  (rate : Py.num) :
  triple (run_at s k) (SlewPastLimb rate) (fun _ => run_at s k).
Proof.
  unfold SlewPastLimb.
  apply inv_bind; [unfold slew_start, run_at; run_seq|]. intros st.
  apply inv_bind; [apply run_at_wait|]. intros x.
  destruct x; [| |apply triple_ret; auto];
    unfold slew_finish, run_at;
    (apply inv_bind; [run_atom|]; intros ?;
     apply inv_bind; [run_atom|]; intros passed;
     apply inv_bind; [destruct passed; run_seq|]; intros ?;
     apply inv_bind; [run_atom|]; intros bump;
     apply inv_bind; [destruct (negb (bump =? 0)); run_seq|]; intros ?;
     run_seq).
Qed.

Lemma run_at_Prepare_Run
  (s : Z * option coords * Z * Py.num * float * bool * string) (k : list call) :
  triple (run_at s k)
    (modify Camera_PrepareToCapture ;;; modify Camera_RunCapture)
    (fun _ => run_at s (k ++ [PrepareToCapture; RunCapture])).
Proof.
  eapply triple_bind with (Q := fun _ => run_at s (k ++ [PrepareToCapture])).
  - apply triple_modify. intros w [H1 H2]. split; [exact H1|].
    now rewrite capture_calls_Prepare, H2.
  - intros ?. apply triple_modify. intros w [H1 H2]. split; [exact H1|].
    now rewrite capture_calls_Run, H2, <- app_assoc.
Qed.

Lemma run_at_Stop
  (s : Z * option coords * Z * Py.num * float * bool * string) (k : list call) :
  triple (run_at s k) (modify Camera_StopCapture)
         (fun _ => run_at s (k ++ [StopCapture])).
Proof.
  apply triple_modify. intros w [H1 H2]. split; [exact H1|].
  now rewrite capture_calls_Stop, H2.
Qed.

Ltac abort_branch :=
  eapply triple_bind with (Q := fun _ _ => True);
  [apply triple_any | intros ?; apply triple_ret; auto].

(** One cycle that falls through to the next has made the capture calls
    of one pass, or of two when the run is bidirectional. *)
Lemma run_at_cycle_body
  (s : Z * option coords * Z * Py.num * float * bool * string) (k : list call)
  (l : locals) :
  triple (run_at s k) (cycle_body l)
    (fun x w' =>
       match x with
       | NextCycle _ => run_at s (k ++ cycle_captures (settings_Bidirectional s)) w'
       | Returned => True
       end).
Proof.
  unfold cycle_body.
  apply inv_bind; [run_atom|]. intros t0.
  eapply triple_bind with (Q := fun _ => run_at s (k ++ [PrepareToCapture])).
  { apply triple_modify. intros w [H1 H2]. split; [exact H1|].
    now rewrite capture_calls_Prepare, H2. }
  intros ?.
  eapply triple_bind
    with (Q := fun _ => run_at s (k ++ [PrepareToCapture; RunCapture])).
  { apply triple_modify. intros w [H1 H2]. split; [exact H1|].
    now rewrite capture_calls_Run, H2, <- app_assoc. }
  intros ?.
  apply inv_bind; [run_atom|]. intros f.
  apply inv_bind; [apply run_at_SlewPastLimb|]. intros ?.
  eapply triple_bind
    with (Q := fun _ => run_at s (k ++ [PrepareToCapture; RunCapture; StopCapture])).
  { eapply triple_weaken; [| |apply (run_at_Stop s (k ++ [PrepareToCapture; RunCapture]))].
    - intros w H. exact H.
    - intros ? w H. now rewrite <- app_assoc in H. }
  intros ?.
  set (k1 := k ++ [PrepareToCapture; RunCapture; StopCapture]).
  apply inv_bind; [run_atom|]. intros t1.
  apply inv_bind; [run_atom|]. intros abort.
  destruct abort; [abort_branch|].
  eapply triple_bind
    with (Q := fun b w => b = settings_Bidirectional s /\ run_at s k1 w).
  { apply triple_gets. intros w H. split; [|exact H].
    destruct H as [H _]. unfold has_settings in H. now subst s. }
  intros bidir. cbv beta. apply triple_assume. intros ->.
  eapply triple_bind
    with (Q := fun _ => run_at s (k ++ cycle_captures (settings_Bidirectional s))).
  { unfold cycle_captures. destruct (settings_Bidirectional s).
    - eapply triple_bind with (Q := fun _ => run_at s (k1 ++ [PrepareToCapture])).
      { apply triple_modify. intros w [H1 H2]. split; [exact H1|].
        now rewrite capture_calls_Prepare, H2. }
      intros ?.
      eapply triple_bind
        with (Q := fun _ => run_at s (k1 ++ [PrepareToCapture; RunCapture])).
      { apply triple_modify. intros w [H1 H2]. split; [exact H1|].
        now rewrite capture_calls_Run, H2, <- app_assoc. }
      intros ?.
      apply inv_bind; [run_atom|]. intros f'.
      apply inv_bind; [apply run_at_SlewPastLimb|]. intros ?.
      eapply triple_weaken;
        [| |apply (run_at_Stop s (k1 ++ [PrepareToCapture; RunCapture]))].
      + intros w H. exact H.
      + intros ? w H. unfold k1 in H. now rewrite <- !app_assoc in H.
    - apply inv_bind; [run_atom|]. intros f'.
      apply inv_bind; [run_atom|]. intros back.
      apply inv_bind; [apply run_at_SlewPastLimb|]. intros ?.
      run_atom. }
  intros ?.
  apply inv_bind; [run_atom|]. intros abort.
  destruct abort; [abort_branch|].
  apply inv_bind; [run_atom|]. intros txt.
  apply inv_bind; [run_atom|]. intros d.
  apply inv_bind; [unfold run_at; run_atom|]. intros ?.
  apply inv_bind; [unfold run_at; run_atom|]. intros ?.
  apply triple_ret. auto.
Qed.

Lemma run_at_cycles
  (s : Z * option coords * Z * Py.num * float * bool * string)
  (n : nat) (k : list call) (l : locals) :
  triple (run_at s k) (cycles n l)
    (fun x w' =>
       match x with
       | NextCycle _ =>
           run_at s
             (k ++ List.concat (repeat (cycle_captures (settings_Bidirectional s)) n)) w'
       | Returned => True
       end).
Proof.
  revert k l. induction n as [|n IH]; intros k l; cbn [cycles repeat List.concat].
  - apply triple_ret. intros w H. now rewrite app_nil_r.
  - eapply triple_bind; [apply run_at_cycle_body|].
    intros [l'|]; [|apply triple_ret; auto].
    eapply triple_weaken;
      [| |apply (IH (k ++ cycle_captures (settings_Bidirectional s)) l')].
    + intros w H. exact H.
    + intros [l''|] w H; [|exact I]. now rewrite <- app_assoc in H.
Qed.

(** X22: the capture calls of a run of [DoGo] that completes are, after
    those made before it, [NumCycles] times [PrepareToCapture],
    [RunCapture], [StopCapture] (twice that per cycle when the run is
    bidirectional), in this order: every slew pass of a cycle is one
    capture, the pre-slew, the fast return and the reposition are none,
    and no event during the run starts or stops a capture. *)
Theorem completed_run_captures (e e' : env) (w w' : World) :
  DoGo_run e w = (Ret Completed, w', e') ->
  capture_calls w'
  = capture_calls w
    ++ List.concat (repeat (cycle_captures (Bidirectional (self w)))
                 (Z.to_nat (NumCycles (self w)))).
Proof.
  intros E.
  set (s := run_settings (SavePos w)).
  assert (T : triple (fun x => x = w) DoGo_run
                (fun x w' =>
                   match x with
                   | Aborted => True
                   | Completed =>
                       capture_calls w'
                       = capture_calls w
                         ++ List.concat (repeat (cycle_captures (Bidirectional (self w)))
                                      (Z.to_nat (NumCycles (self w))))
                   end)).
  { unfold DoGo_run.
    eapply triple_bind with (Q := fun _ => run_at s (capture_calls w)).
    { apply triple_modify. intros x ->. split; reflexivity. }
    intros ?.
    apply inv_bind; [run_atom|]. intros f.
    apply inv_bind; [apply run_at_SlewPastLimb|]. intros ?.
    apply inv_bind; [run_atom|]. intros abort.
    destruct abort; [abort_branch|].
    apply inv_bind; [unfold progBar_assign, run_at; run_seq|]. intros ?.
    eapply triple_bind
      with (Q := fun n x => n = NumCycles (self w) /\ run_at s (capture_calls w) x).
    { apply triple_gets. intros x H. split; [|exact H].
      destruct H as [H _]. unfold has_settings in H.
      destruct (settings_SavedCoords _ _ H) as (_ & N & _). exact N. }
    intros n. cbv beta. apply triple_assume. intros ->.
    eapply triple_bind; [apply run_at_cycles|].
    intros [l|]; [|apply triple_ret; auto].
    change (settings_Bidirectional s) with (Bidirectional (self w)).
    set (k := capture_calls w ++ _).
    apply inv_bind; [unfold run_at; run_atom|]. intros ?.
    apply inv_bind.
    { destruct (endTime l); cbn [local]; [run_atom | apply triple_lift; intros; discriminate]. }
    intros t1.
    apply inv_bind.
    { destruct (startTime l); cbn [local]; [run_atom | apply triple_lift; intros; discriminate]. }
    intros t0.
    apply inv_bind; [run_atom|]. intros d.
    apply inv_bind; [unfold run_at; run_atom|]. intros ?.
    apply inv_bind; [unfold run_at; run_atom|]. intros ?.
    eapply triple_bind with (Q := fun _ => run_at s k).
    { apply triple_modify. intros x H. exact H. }
    intros ?. apply triple_ret. intros x [_ H]. exact H. }
  exact (triple_run _ _ _ _ _ _ _ _ T eq_refl E).
Qed.

Lemma completed_run_captures_witness :
  let bright := FrameArrives (flat_frame 10000) in
  let dark := FrameArrives (flat_frame 0) in
  let pass := [repeat bright 11; repeat dark 11; []] in
  let w := upd_self (set_NumCycles 1)
             (upd_self (set_SlewFactor (Py.Flt (-0.5))) (World_start 3840 2160)) in
  let run := DoGo_run (pass ++ pass ++ pass ++ [[]; []]) w in
  capture_calls (snd (fst run)) = [PrepareToCapture; RunCapture; StopCapture].
Proof.
  intros bright dark pass w run.
  rewrite (completed_run_captures (pass ++ pass ++ pass ++ [[]; []]) []
             w (snd (fst run))).
  - reflexivity.
  - vm_compute. reflexivity.
Defined.

(** ** The frame rate in the status line *)

Lemma length_append (a b : string) :
  String.length (a ++ b) = (String.length a + String.length b)%nat.
Proof. induction a as [|c a IH]; [reflexivity|]. cbn. now rewrite IH. Qed.

Lemma substring_middle (a b c : string) :
  substring (String.length a) (String.length b) (a ++ b ++ c) = b.
Proof.
  induction a as [|x a IH]; cbn [String.length append substring]; [|exact IH].
  induction b as [|y b IHb]; cbn [String.length append substring].
  - destruct c; reflexivity.
  - destruct (String.length b) eqn:E; cbn [substring] in *; now rewrite IHb.
Qed.

Lemma find_from_skip (sub a b : string) (i : Z) :
  (forall x y : string, a = (x ++ y)%string -> y <> EmptyString ->
                        String.prefix sub (y ++ b) = false) ->
  find_from sub (a ++ b) i = find_from sub b (i + Z.of_nat (String.length a)).
Proof.
  revert i. induction a as [|c a IH]; intros i H.
  - cbn. now rewrite Z.add_0_r.
  - cbn [append find_from].
    assert (P : String.prefix sub (String c a ++ b) = false)
      by (apply (H EmptyString (String c a) eq_refl); discriminate).
    cbn [append] in P. rewrite P.
    rewrite IH.
    + f_equal. cbn [String.length]. lia.
    + intros x y -> Hy. apply (H (String c x) y); [reflexivity | exact Hy].
Qed.

Lemma find_from_unfold (sub s : string) (i : Z) :
  find_from sub s i
  = if String.prefix sub s then i
    else match s with
         | EmptyString => -1
         | String _ s' => find_from sub s' (i + 1)
         end.
Proof. destruct s; reflexivity. Qed.

Lemma prefix_append (sub rest : string) : String.prefix sub (sub ++ rest) = true.
Proof.
  induction sub as [|a sub IH]; cbn [append String.prefix].
  - destruct rest; reflexivity.
  - destruct (ascii_dec a a) as [_|N]; [exact IH | contradiction].
Qed.

Lemma find_from_here (sub rest : string) (i : Z) :
  find_from sub (sub ++ rest) i = i.
Proof. now rewrite find_from_unfold, prefix_append. Qed.

Lemma prefix_comma_blank (c : ascii) (s : string) :
  not_comma c = true -> String.prefix ", " (String c s) = false.
Proof.
  unfold not_comma. intros H. apply negb_true_iff in H.
  cbn [String.prefix]. destruct (ascii_dec "," c) as [<-|N]; [discriminate|].
  reflexivity.
Qed.

(** An occurrence of [" fps"] cannot run into a comma. *)
Lemma prefix_fps_comma (x rest : string) :
  String.prefix " fps" (x ++ String "," rest) = String.prefix " fps" x.
Proof.
  destruct x as [|c1 x]; [reflexivity|]. cbn [append String.prefix].
  destruct (ascii_dec " " c1); [|reflexivity].
  destruct x as [|c2 x]; [reflexivity|]. cbn [append String.prefix].
  destruct (ascii_dec "f" c2); [|reflexivity].
  destruct x as [|c3 x]; [reflexivity|]. cbn [append String.prefix].
  destruct (ascii_dec "p" c3); [|reflexivity].
  destruct x as [|c4 x]; [reflexivity|]. cbn [append String.prefix].
  destruct (ascii_dec "s" c4); [|reflexivity].
  destruct x; reflexivity.
Qed.

Lemma find_from_none (sub s : string) (i : Z) :
  0 <= i -> find_from sub s i = -1 ->
  forall x y : string, s = (x ++ y)%string -> String.prefix sub y = false.
Proof.
  revert i. induction s as [|c s IH]; intros i Hi H x y E.
  - destruct x; [|discriminate]. cbn in E. subst y.
    cbn [find_from] in H. destruct (String.prefix sub ""); [lia | reflexivity].
  - cbn [find_from] in H.
    destruct (String.prefix sub (String c s)) eqn:P; [lia|].
    destruct x as [|c' x].
    + cbn in E. now subst y.
    + cbn in E. injection E as -> E. apply (IH (i + 1)) with x; [lia | exact H | exact E].
Qed.

Lemma number_char_not_blank (c : ascii) :
  is_number_char c = true -> is_blank c = false.
Proof.
  destruct c as [[] [] [] [] [] [] [] []]; try discriminate; reflexivity.
Qed.

Lemma lstrip_number (c : ascii) (s : string) :
  is_number_char c = true -> strip_left is_blank (String c s) = String c s.
Proof. intros H. cbn [strip_left]. now rewrite (number_char_not_blank c H). Qed.

Lemma rstrip_number (s : string) :
  all_chars is_number_char s = true -> strip_right is_blank s = s.
Proof.
  induction s as [|c s IH]; [reflexivity|].
  cbn [all_chars]. intros H. apply andb_prop in H as [H1 H2].
  cbn [strip_right]. rewrite (IH H2), (number_char_not_blank c H1).
  now destruct s.
Qed.

Lemma digit_is_number_char (c : ascii) :
  Py.is_digit c = true -> is_number_char c = true.
Proof. unfold is_number_char. now intros ->. Qed.

Lemma number_char_prefix_fps (c : ascii) (s : string) :
  is_number_char c = true -> String.prefix " fps" (String c s) = false.
Proof.
  intros H. cbn [String.prefix].
  destruct (ascii_dec " " c) as [<-|N]; [discriminate | reflexivity].
Qed.

(** X23: on a status line made of a text without a comma and without
    [" fps"], then [", "], a number written as digits, a point and digits,
    then [" fps"] and anything, [getCamFramerate] gives the binary64
    nearest to that number. *)
Theorem getCamFramerate_reads_the_rate
  (before after ds1 ds2 : string) (c : ascii) :
  all_chars not_comma before = true ->
  find " fps" before = -1 ->
  Py.is_digit c = true ->
  all_chars Py.is_digit ds1 = true -> all_chars Py.is_digit ds2 = true ->
  getCamFramerate (before ++ ", " ++ (String c ds1 ++ "." ++ ds2) ++ " fps" ++ after)
  = Py.Val (Py.float_of_decimal (Py.digits_value (String c ds1 ++ ds2))
              (0 - Z.of_nat (String.length ds2)) * 1)%float.
Proof.
  intros NC NF C D1 D2.
  set (number := (String c ds1 ++ "." ++ ds2)%string).
  assert (NN : all_chars is_number_char number = true).
  { unfold number. cbn [append all_chars].
    rewrite (digit_is_number_char c C). cbn [andb].
    rewrite all_chars_app. cbn [all_chars].
    rewrite (all_chars_impl _ _ ds1 digit_is_number_char D1).
    now rewrite (all_chars_impl _ _ ds2 digit_is_number_char D2). }
  set (status := (before ++ ", " ++ number ++ " fps" ++ after)%string).
  assert (F1 : find ", " status = Z.of_nat (String.length before)).
  { unfold find, status. rewrite find_from_skip.
    - now rewrite find_from_here.
    - intros x y -> Hy. destruct y as [|c0 y]; [contradiction|].
      rewrite all_chars_app in NC. apply andb_prop in NC as [_ NC].
      cbn [all_chars] in NC. apply andb_prop in NC as [NC _].
      cbn [append]. now apply prefix_comma_blank. }
  assert (F2 : find " fps" status
               = Z.of_nat (String.length before) + 2
                 + Z.of_nat (String.length number)).
  { unfold find, status. rewrite find_from_skip.
    2:{ intros x y -> Hy. cbn [append]. rewrite prefix_fps_comma.
        apply (find_from_none " fps" (x ++ y) 0 (Z.le_refl 0) NF x y eq_refl). }
    rewrite find_from_skip.
    2:{ intros x y E Hy. destruct x as [|c1 x]; cbn [append] in E.
        - subst y. cbn [append String.prefix].
          destruct (ascii_dec " " ","); [discriminate | reflexivity].
        - injection E as _ E. destruct x as [|c2 x]; cbn [append] in E.
          + subst y. unfold number. cbn [append String.prefix].
            destruct (ascii_dec " " " ") as [_|N]; [|contradiction].
            destruct (ascii_dec "f" c) as [<-|_]; [discriminate | reflexivity].
          + injection E as _ E. destruct x; cbn [append] in E;
              [now subst y | discriminate]. }
    rewrite find_from_skip.
    - rewrite find_from_here. cbn [String.length]. lia.
    - intros x y E Hy. destruct y as [|c0 y]; [contradiction|].
      rewrite E, all_chars_app in NN. apply andb_prop in NN as [_ NN].
      cbn [all_chars] in NN. apply andb_prop in NN as [NN _].
      cbn [append]. now apply number_char_prefix_fps. }
  unfold getCamFramerate. fold status. rewrite F1, F2.
  assert (S : slice status (Z.of_nat (String.length before) + 2)
                (Z.of_nat (String.length before) + 2
                 + Z.of_nat (String.length number))
              = number).
  { unfold slice.
    assert (L : Z.of_nat (String.length status)
                = Z.of_nat (String.length before) + 2
                  + Z.of_nat (String.length number) + 4
                  + Z.of_nat (String.length after)).
    { unfold status. rewrite !length_append. cbn [String.length]. lia. }
    rewrite L.
    replace (Z.of_nat (String.length before) + 2 <? 0) with false
      by (symmetry; apply Z.ltb_ge; lia).
    replace (Z.of_nat (String.length before) + 2
             + Z.of_nat (String.length number) <? 0) with false
      by (symmetry; apply Z.ltb_ge; lia).
    rewrite !Z.min_l by lia.
    replace (Z.to_nat (Z.of_nat (String.length before) + 2))
      with (String.length (before ++ ", ")).
    2:{ rewrite length_append. cbn [String.length]. lia. }
    replace (Z.to_nat _) with (String.length number) by lia.
    unfold status.
    replace (before ++ ", " ++ number ++ " fps" ++ after)%string
      with ((before ++ ", ") ++ number ++ " fps" ++ after)%string
      by now rewrite append_assoc.
    apply substring_middle. }
  rewrite S. unfold float_of_text.
  unfold number at 1. cbn [append].
  rewrite lstrip_number by now apply digit_is_number_char.
  change (String c (ds1 ++ String "." ds2)) with number.
  rewrite (rstrip_number number NN). unfold number.
  rewrite (parse_float_fixed c ds1 ds2 C D1 D2). reflexivity.
Qed.

Lemma getCamFramerate_reads_the_rate_witness :
  getCamFramerate "Previewing : 1234 frames (0 dropped) in 0:01:02, 19.9 fps"
  = Py.Val 19.9%float.
Proof.
  change "Previewing : 1234 frames (0 dropped) in 0:01:02, 19.9 fps"%string
    with ("Previewing : 1234 frames (0 dropped) in 0:01:02" ++ ", "
          ++ (String "1" "9" ++ "." ++ "9") ++ " fps" ++ "")%string.
  rewrite getCamFramerate_reads_the_rate; try reflexivity.
Defined.

(** ** The bump rate box *)

Lemma digit_not_blank_or_x (c : ascii) :
  Py.is_digit c = true -> blank_or_x c = false.
Proof.
  destruct c as [[] [] [] [] [] [] [] []]; try discriminate; reflexivity.
Qed.

Lemma strip_right_digits_x (ds : string) :
  all_chars Py.is_digit ds = true ->
  strip_right blank_or_x (ds ++ "x") = ds.
Proof.
  induction ds as [|c ds IH]; [reflexivity|].
  cbn [all_chars]. intros H. apply andb_prop in H as [H1 H2].
  cbn [append strip_right]. rewrite (IH H2), (digit_not_blank_or_x c H1).
  now destruct ds.
Qed.

(** X24: the item the form shows for a bump rate gives that rate back
    when it is selected: for every rate that is not negative,
    [doBumpRateChange] on [str(rate) + "x"] sets [BumpRate] to it. *)
Theorem doBumpRateChange_reads_item (rate : Z) (w : World) :
  0 <= rate ->
  doBumpRateChange (bump_item rate) w = Py.Val (upd_self (set_BumpRate rate) w).
Proof.
  intros H. unfold doBumpRateChange, bump_item.
  destruct (str_int_digits rate H) as [S A].
  destruct (Py.str_int rate) as [|c ds] eqn:E; [discriminate|].
  cbn [starts_with] in S. cbn [append strip_left].
  rewrite (digit_not_blank_or_x c S).
  change (String c (ds ++ "x")) with (String c ds ++ "x")%string.
  rewrite (strip_right_digits_x _ A), <- E, (parse_int_str_int rate H).
  reflexivity.
Qed.

Lemma doBumpRateChange_reads_item_witness :
  doBumpRateChange "16x" (World_start 3840 2160)
  = Py.Val (upd_self (set_BumpRate 16) (World_start 3840 2160)).
Proof.
  apply (doBumpRateChange_reads_item 16 (World_start 3840 2160)). lia.
Defined.

(** ** What events and slews leave alone *)

(** X25: nothing that happens around the task (a frame handled by
    whatever handlers are subscribed, a bump button, the abort button, a
    report of the mount, the clock) changes the settings of the run, the
    capture switch of the camera, the two task buttons, the rate selected
    on the mount, the subscribers of the camera event or [AmSlewing], and
    none makes a capture call. *)
Theorem events_leave_the_run_alone (evs : list event) (w : World) :
  run_settings (deliver evs w) = run_settings w
  /\ capture_state (deliver evs w) = capture_state w
  /\ FrameCaptured (SharpCap (deliver evs w)) = FrameCaptured (SharpCap w)
  /\ AmSlewing (self (deliver evs w)) = AmSlewing (self w)
  /\ capture_calls (deliver evs w) = capture_calls w.
Proof.
  repeat split.
  - apply deliver_settings.
  - apply deliver_capture_state.
  - apply deliver_subscribers.
  - apply deliver_AmSlewing.
  - apply deliver_capture_calls.
Qed.

(** X26: a slew that returns has changed no setting of the run, has
    neither started nor stopped a capture, and has made no capture
    call. *)
Theorem SlewPastLimb_leaves_the_run_alone
  (rate : Py.num) (e e' : env) (w w' : World) (b : bool) :
  SlewPastLimb rate e w = (Ret b, w', e') ->
  run_settings w' = run_settings w
  /\ Capturing (SharpCap w') = Capturing (SharpCap w)
  /\ capture_calls w' = capture_calls w.
Proof.
  intros E.
  pose proof (triple_run _ _ _ _ _ _ _ _
                (run_at_SlewPastLimb (run_settings w) (capture_calls w) rate)
                (conj eq_refl eq_refl) E) as [S K].
  pose proof (triple_run _ _ _ _ _ _ _ _
                (Capturing_SlewPastLimb (Capturing (SharpCap w)) rate)
                eq_refl E) as C.
  repeat split; assumption.
Qed.

Lemma SlewPastLimb_leaves_the_run_alone_witness :
  let bright := FrameArrives (flat_frame 10000) in
  let dark := FrameArrives (flat_frame 0) in
  let w := upd_self (set_SlewFactor (Py.Flt (-0.5))) (World_start 3840 2160) in
  let run := SlewPastLimb (Py.Flt 0.5)
               [repeat bright 11; BumpLClick :: repeat dark 11; []] w in
  run_settings (snd (fst run)) = run_settings w
  /\ capture_calls (snd (fst run)) = [].
Proof.
  intros bright dark w run.
  destruct (SlewPastLimb_leaves_the_run_alone (Py.Flt 0.5)
              [repeat bright 11; BumpLClick :: repeat dark 11; []] [] w
              (snd (fst run)) true)
    as (S & _ & K).
  - vm_compute. reflexivity.
  - split; [exact S | exact K].
Defined.

(** ** The countdown stays in range *)

Lemma acquire_countdown (fr : Frame) (w : World) :
  countdown_in_range w -> countdown_in_range (acquireFramehandler fr w).
Proof.
  unfold countdown_in_range, acquireFramehandler. intros H.
  destruct (FrameCount (self w) =? 0) eqn:E.
  - destruct (CutROI_Item1 fr _); [|exact H].
    destruct (negb (PositiveSignal (self w))); [cbn; lia|].
    destruct (negb (EdgePassed (self w))); cbn; lia.
  - apply Z.eqb_neq in E. cbn. lia.
Qed.

Lemma measureSun_countdown (fr : Frame) (w : World) :
  countdown_in_range (measureSunFramehandler fr w) <-> countdown_in_range w.
Proof.
  assert (E : FrameCount (self (measureSunFramehandler fr w)) = FrameCount (self w)
              /\ FrameInterval (self (measureSunFramehandler fr w))
                 = FrameInterval (self w))
    by (split; measureSun_cases).
  unfold countdown_in_range. destruct E as [-> ->]. reflexivity.
Qed.

Lemma DoBump_countdown (r : Z) (w : World) :
  countdown_in_range (DoBump r w) <-> countdown_in_range w.
Proof.
  assert (E : FrameCount (self (DoBump r w)) = FrameCount (self w)
              /\ FrameInterval (self (DoBump r w)) = FrameInterval (self w))
    by (split; DoBump_cases).
  unfold countdown_in_range. destruct E as [-> ->]. reflexivity.
Qed.

(** X27: the countdown of the detector never leaves the range from 0 to
    [FrameInterval]: not by frames, however many handlers are subscribed,
    nor by any other event; and the reset at the start of a slew puts it
    in that range. *)
Theorem countdown_stays_in_range (evs : list event) (w : World) :
  (countdown_in_range w -> countdown_in_range (deliver evs w))
  /\ (0 <= FrameInterval (self w) -> countdown_in_range (detector_reset w)).
Proof.
  split.
  - revert w. unfold deliver. induction evs as [|ev evs IH]; intros w H;
      [exact H|].
    cbn [fold_left]. apply IH.
    destruct ev; cbn [deliver1]; try exact H.
    + generalize (FrameCaptured (SharpCap w)). intros hs. revert w H.
      induction hs as [|h hs IHh]; intros w H; [exact H|].
      cbn [fold_left]. apply IHh.
      destruct h; cbn [run_handler];
        [now apply acquire_countdown | now apply measureSun_countdown].
    + now apply DoBump_countdown.
    + now apply DoBump_countdown.
    + now apply DoBump_countdown.
    + now apply DoBump_countdown.
  - intros H. unfold countdown_in_range. cbn. lia.
Qed.

Lemma countdown_stays_in_range_witness :
  let w := World_start 3840 2160 in
  countdown_in_range
    (deliver (repeat (FrameArrives (flat_frame 10000)) 25) (detector_reset w)).
Proof.
  intros w.
  destruct (countdown_stays_in_range
              (repeat (FrameArrives (flat_frame 10000)) 25) (detector_reset w))
    as [D _].
  apply D.
  destruct (countdown_stays_in_range [] w) as [_ R].
  apply R. apply Z.leb_le. vm_compute. reflexivity.
Defined.

(** ** The progress bar *)

(** A form is built only with a cycle count of at least 1: the bar handed
    back has the bounds 1 and [limit] and the value 1. *)
Lemma addProgressBar_built (limit : Z) (p : ProgressBar) :
  addProgressBar limit = Py.Val p ->
  1 <= limit /\ p = {| Minimum := 1; Maximum := limit; Value := 1 |}.
Proof.
  unfold addProgressBar.
  change (assign_Minimum 1 ProgressBar_new)
    with (Py.Val {| Minimum := 1; Maximum := 100; Value := 1 |}).
  cbn [Py.bind]. unfold assign_Maximum, to_Int32.
  destruct ((-2147483648 <=? limit) && (limit <=? 2147483647));
    cbn [Py.bind]; [|discriminate].
  cbn [Maximum Minimum Value].
  destruct (100 =? limit) eqn:E100.
  - apply Z.eqb_eq in E100. subst limit. cbn. intros H.
    injection H as <-. split; [lia | reflexivity].
  - destruct (limit <? 0); [discriminate|].
    destruct (limit <? 1) eqn:E1.
    + unfold assign_Value. cbn [to_Int32 Py.bind Value Minimum Maximum].
      change (Py.bind (to_Int32 1)) with
        (fun k : Z -> Py.res ProgressBar => k 1). cbv beta.
      apply Z.ltb_lt in E1.
      destruct (limit =? 1) eqn:E; [apply Z.eqb_eq in E; lia|].
      replace (limit <? 1) with true by (symmetry; apply Z.ltb_lt; lia).
      rewrite orb_true_r. discriminate.
    + apply Z.ltb_ge in E1. cbn. intros H. injection H as <-.
      split; [exact E1 | reflexivity].
Qed.

Lemma addProgressBar_zero :
  addProgressBar 0 = Py.Raise Py.ArgumentOutOfRangeException.
Proof. reflexivity. Qed.

Lemma World_start_bar (width height : Z) :
  addProgressBar (NumCycles (self (World_start width height)))
  = Py.Val (progBar (self (World_start width height)))
  /\ bar_follows_count (World_start width height).
Proof.
  split; [reflexivity|]. unfold bar_follows_count, bar_in_bounds. cbn.
  unfold DEFAULT_CYCLES. repeat split; lia.
Qed.

(** Assigning a maximum keeps the value within the bounds. *)
Lemma assign_Maximum_bounds (n : Z) (p p' : ProgressBar) :
  bar_in_bounds p -> assign_Maximum n p = Py.Val p' ->
  bar_in_bounds p' /\ Maximum p' = n.
Proof.
  unfold bar_in_bounds, assign_Maximum, to_Int32. intros B.
  destruct ((-2147483648 <=? n) && (n <=? 2147483647));
    cbn [Py.bind]; [|discriminate].
  destruct (Maximum p =? n) eqn:E.
  - apply Z.eqb_eq in E. intros H. injection H as <-. split; [exact B | exact E].
  - destruct (n <? 0); [discriminate|].
    intros H. injection H as <-. cbn [Minimum Maximum Value].
    split; [|reflexivity].
    destruct (n <? Minimum p) eqn:E1; destruct (n <? Value p) eqn:E2;
      try apply Z.ltb_lt in E1; try apply Z.ltb_ge in E1;
      try apply Z.ltb_lt in E2; try apply Z.ltb_ge in E2; lia.
Qed.

Lemma assign_Maximum_refuses (n : Z) (p : ProgressBar) (x : Py.exn) :
  0 <= n -> assign_Maximum n p = Py.Raise x -> 2147483647 < n.
Proof.
  unfold assign_Maximum, to_Int32. intros N.
  destruct (n <=? 2147483647) eqn:E.
  - replace (-2147483648 <=? n) with true by (symmetry; apply Z.leb_le; lia).
    cbn [andb Py.bind].
    destruct (Maximum p =? n); [discriminate|].
    replace (n <? 0) with false by (symmetry; apply Z.ltb_ge; lia).
    discriminate.
  - apply Z.leb_gt in E. intros _. exact E.
Qed.

(** The count box keeps the bar with the count. *)
Lemma doNumCyclesChange_keeps_bar (text : string) (s : sender) (w : World) :
  bar_follows_count w ->
  bar_follows_count (state_of (doNumCyclesChange text s w)).
Proof.
  intros H.
  assert (U : bar_follows_count (state_of (Undo (fun _ w => w) s w)))
    by (destruct s; exact H).
  unfold doNumCyclesChange.
  destruct (Py.parse_int text) as [n|x]; [|exact U].
  destruct (0 <=? n) eqn:E; [|exact U]. apply Z.leb_le in E.
  destruct H as [B _].
  change (progBar (self (upd_self (set_NumCycles n) w))) with (progBar (self w)).
  destruct (assign_Maximum n (progBar (self w))) as [p|x] eqn:A.
  - destruct (assign_Maximum_bounds _ _ _ B A) as [B' M].
    cbn [state_of]. split; [exact B' | intros _; exact M].
  - pose proof (assign_Maximum_refuses _ _ _ E A) as Big.
    assert (G : bar_follows_count (upd_self (set_NumCycles n) w)).
    { split; [exact B|]. cbn. lia. }
    destruct s; exact G.
Qed.

(** With the maximum below 1 the assignment of line 475 is refused. *)
Lemma assign_Value_refused (p : ProgressBar) :
  bar_in_bounds p -> Maximum p < 1 ->
  assign_Value 1 p = Py.Raise Py.ArgumentOutOfRangeException.
Proof.
  unfold bar_in_bounds, assign_Value. intros B M.
  change (Py.bind (to_Int32 1)) with (fun k : Z -> Py.res ProgressBar => k 1).
  cbv beta.
  replace (Value p =? 1) with false by (symmetry; apply Z.eqb_neq; lia).
  replace (Maximum p <? 1) with true by (symmetry; apply Z.ltb_lt; lia).
  now rewrite orb_true_r.
Qed.

Lemma triple_progBar_refused {B : Type} (P : World -> Prop)
  (f : ProgressBar -> Py.res ProgressBar) (x : Py.exn) (k : unit -> M B)
  (R : B -> World -> Prop) :
  (forall w, P w -> f (progBar (self w)) = Py.Raise x) ->
  triple P (mbind (progBar_assign f) k) R.
Proof.
  intros H e w Hw. unfold mbind, progBar_assign, mbind, gets, lift.
  rewrite (H w Hw). exact I.
Qed.

(** *** What a slew leaves of the task controls *)

Lemma deliver_task_controls (evs : list event) (w : World) :
  task_controls (deliver evs w) = task_controls w.
Proof.
  apply (deliver_respects task_controls); intros.
  - acquire_cases.
  - measureSun_cases.
  - DoBump_cases.
  - reflexivity.
  - reflexivity.
  - reflexivity.
Qed.

Ltac controls_atom :=
  match goal with
  | |- triple _ (modify _) _ => apply triple_modify; intros ? H; exact H
  | |- triple _ (gets _) _ => apply triple_gets; intros ? H; exact H
  | |- triple _ time_time _ => apply triple_gets; intros ? H; exact H
  | |- triple _ (lift _) _ => apply triple_lift; intros ? ? ? H; exact H
  | |- triple _ (ret _) _ => apply triple_ret; intros ? H; exact H
  | |- triple _ (time_sleep _) _ =>
      apply triple_sleep; intros ? ? H; rewrite deliver_task_controls; exact H
  end.

Ltac controls_seq :=
  repeat (first [ controls_atom | apply inv_bind; [|intros ?] ]).

Lemma task_controls_wait (c : bool * bool * ProgressBar) (rate : Py.num)
  (t0 : float) :
  triple (fun w => task_controls w = c) (wait_past_limb rate t0)
         (fun _ w => task_controls w = c).
Proof.
  intros e. induction e as [|b e IH]; intros w Hw; [exact I|].
  cbn [wait_past_limb].
  assert (Hd : task_controls (deliver b w) = c)
    by now rewrite deliver_task_controls.
  destruct (EdgePassed (self (deliver b w))); [exact Hd|].
  destruct (TaskAbortFlag (self (deliver b w))); [exact Hd|].
  destruct (Py.gt _ _); [|now apply IH].
  assert (T : triple (fun w => task_controls w = c)
                (limb_timeout rate (now (SharpCap (deliver b w)) - t0) ;;; ret Break)
                (fun _ w => task_controls w = c)).
  { unfold limb_timeout. controls_seq. }
  exact (T e (deliver b w) Hd).
Qed.

(** A slew touches neither task button nor the progress bar. *)
Lemma task_controls_SlewPastLimb (c : bool * bool * ProgressBar)
  (rate : Py.num) :
  triple (fun w => task_controls w = c) (SlewPastLimb rate)
         (fun _ w => task_controls w = c).
Proof.
  unfold SlewPastLimb.
  apply inv_bind; [unfold slew_start; controls_seq|]. intros st.
  apply inv_bind; [apply task_controls_wait|]. intros x.
  destruct x; [| |apply triple_ret; auto];
    unfold slew_finish;
    (apply inv_bind; [controls_atom|]; intros _;
     apply inv_bind; [controls_atom|]; intros passed;
     apply inv_bind; [destruct passed; controls_seq|]; intros _;
     apply inv_bind; [controls_atom|]; intros bump;
     apply inv_bind; [destruct (negb (bump =? 0)); controls_seq|]; intros _;
     controls_seq).
Qed.

(** ** A run of no cycles *)

(** C10 (what the code does): with [NumCycles] at 0 and the progress bar
    as the count box leaves it then (its maximum 0), a pre-slew that
    returns, having slept only for durations [time.sleep] takes, and no
    abort, [DoGo] is ended by the exception of
    [self.progBar.Value = 1], in the state the pre-slew left: the cycle
    loop is not entered, the reposition is not commanded and no timestamp
    is read.  The two task buttons are as the run found them, so the Go
    button is not enabled again; and whatever happens around it, no run
    from this state completes. *)
Theorem DoGo_zero_cycles_stops_at_progBar
  (e e1 : env) (w w1 : World) (b : bool) :
  NumCycles (self w) = 0 ->
  bar_follows_count w ->
  SlewPastLimb (Py.neg (SlewFactor (self w))) e (SavePos w) = (Ret b, w1, e1) ->
  sleeps_taken w1 = true ->
  TaskAbortFlag (self w1) = false ->
  DoGo e w = (Exc Py.ArgumentOutOfRangeException, w1, e1)
  /\ task_controls w1 = task_controls w
  /\ (forall (e0 e0' : env) (w0' : World),
         DoGo_run e0 w <> (Ret Completed, w0', e0')).
Proof.
  intros N [B M] R _ A.
  assert (Mx : Maximum (progBar (self w)) < 1) by (rewrite M; lia).
  pose proof (assign_Value_refused _ B Mx) as V.
  assert (C : task_controls w1 = task_controls w).
  { refine (triple_run (fun x => task_controls x = task_controls w)
              _ _ e e1 (SavePos w) w1 b
              (task_controls_SlewPastLimb (task_controls w) _) _ R).
    reflexivity. }
  assert (P1 : progBar (self w1) = progBar (self w))
    by (unfold task_controls in C; now injection C).
  split; [|split].
  - unfold DoGo, DoGo_run, mbind, modify, gets.
    change (SlewFactor (self (SavePos w))) with (SlewFactor (self w)).
    rewrite R, A. unfold progBar_assign, mbind, gets, lift.
    rewrite P1, V. reflexivity.
  - exact C.
  - intros e0 e0' w0' E.
    assert (T : triple (fun x => x = w) DoGo_run (fun r _ => r <> Completed)).
    { unfold DoGo_run.
      eapply triple_bind
        with (Q := fun _ w0 => task_controls w0 = task_controls w).
      { apply triple_modify. intros x ->. reflexivity. }
      intros _.
      apply inv_bind; [controls_atom|]; intros f.
      apply inv_bind; [apply task_controls_SlewPastLimb|]; intros _.
      apply inv_bind; [controls_atom|]; intros abort.
      destruct abort.
      - eapply triple_bind with (Q := fun _ _ => True); [apply triple_any|].
        intros _. apply triple_ret. intros ? _. discriminate.
      - apply triple_progBar_refused
          with (x := Py.ArgumentOutOfRangeException).
        intros w0 H.
        unfold task_controls in H. injection H as _ _ ->. exact V. }
    exact (triple_run _ _ _ _ _ _ _ _ T eq_refl E eq_refl).
Qed.

Lemma DoGo_zero_cycles_stops_at_progBar_witness :
  let bright := FrameArrives (flat_frame 10000) in
  let dark := FrameArrives (flat_frame 0) in
  let w := asyncDoGo
             (state_of
                (doNumCyclesChange "0" (Some "15"%string)
                   (upd_self (set_SlewFactor (Py.Flt (-0.5)))
                      (World_start 3840 2160)))) in
  let run := DoGo [repeat bright 11; repeat dark 11; []] w in
  fst (fst run) = Exc Py.ArgumentOutOfRangeException
  /\ goButton_Enabled (self (snd (fst run))) = false.
Proof.
  intros bright dark w run.
  destruct (DoGo_zero_cycles_stops_at_progBar
              [repeat bright 11; repeat dark 11; []] [] w
              (snd (fst (SlewPastLimb (Py.neg (SlewFactor (self w)))
                           [repeat bright 11; repeat dark 11; []] (SavePos w))))
              true)
    as (R & C & _).
  - vm_compute. reflexivity.
  - unfold bar_follows_count, bar_in_bounds.
    repeat split;
      first [ apply Z.leb_le; vm_compute; reflexivity
            | intros _; vm_compute; reflexivity ].
  - vm_compute. reflexivity.
  - vm_compute. reflexivity.
  - vm_compute. reflexivity.
  - unfold run. rewrite R. split; [reflexivity|].
    lazy beta iota delta [fst snd].
    pose proof (f_equal (fun c : bool * bool * ProgressBar => fst (fst c)) C)
      as G.
    lazy beta iota delta [fst snd task_controls] in G.
    rewrite G. vm_compute. reflexivity.
Defined.

(** The run of C10's claim, from the count box set to 0 and the Go button:
    what ends it is not an unbound timestamp, and the reposition was never
    commanded: the last call on the mount is the stop of the pre-slew. *)
Lemma DoGo_zero_cycles_never_repositions :
  let bright := FrameArrives (flat_frame 10000) in
  let dark := FrameArrives (flat_frame 0) in
  let w := asyncDoGo
             (state_of
                (doNumCyclesChange "0" (Some "15"%string)
                   (upd_self (set_SlewFactor (Py.Flt (-0.5)))
                      (World_start 3840 2160)))) in
  let run := DoGo [repeat bright 11; repeat dark 11; []] w in
  NumCycles (self w) = 0
  /\ fst (fst run) = Exc Py.ArgumentOutOfRangeException
  /\ fst (fst run) <> Exc Py.UnboundLocalError
  /\ log (SharpCap (snd (fst run)))
     = [MoveAxis 0 (Py.Flt 0.5);
        MoveAxis 0 (Py.Flt (-0.5));
        Sleep (Py.Flt 0.5);
        MoveAxis 0 (Py.Int 0)]
  /\ sleeps_taken (snd (fst run)) = true
  /\ AxisRate (SharpCap (snd (fst run))) 0 = Py.Int 0
  /\ goButton_Enabled (self (snd (fst run))) = false
  /\ abortButton_Enabled (self (snd (fst run))) = true.
Proof.
  vm_compute. repeat split. discriminate.
Qed.
